(** * DiabetesDashboard: the record store, the HTTP layer and the meal-plan
      generation adapter, embedded in Rocq.

    Sources embedded here:
    - [shared/schema.ts]        the four tables and their insert schemas;
    - [server/storage.ts]       [MemStorage], the in-memory record store;
    - [server/routes.ts]        the register handler and the glucose, meal-plan
                                and note handlers;
    - [client/src/lib/openai.ts] [generateMealPlan] and [getSampleMealPlan].

    Conventions of the embedding.
    - A JavaScript [number] used as an identifier or a counter is a [Z]; the
      counters only ever take the values 1, 2, 3, ... which a double holds
      exactly (below 2^53).
    - A [Date] is its epoch time in milliseconds, a [Z]; a field declared
      [Date] that the running code may leave out is an [option Z], and
      [new Date(undefined).getTime()] is [NaN] (see [dateDiff]).
    - A string is a [string] of ASCII characters; [toLowerCase] lowers A-Z.
    - The store is mutated in place by [async] methods that never suspend
      (they await nothing but each other), so each call is a state
      transformer [St A := MemStorage -> A * MemStorage]. *)

From Stdlib Require Import Ascii String.
From stdpp Require Import base numbers option list strings gmap.

#[local] Set Warnings "-register-all".
#[local] Open Scope string_scope.
#[local] Open Scope list_scope.
#[local] Open Scope Z_scope.

(** ** JavaScript strings *)

Definition lowerChar (c : ascii) : ascii :=
  let n := nat_of_ascii c in
  if ((65 <=? n)%nat && (n <=? 90)%nat)%bool then ascii_of_nat (n + 32) else c.

(** [String.prototype.toLowerCase]. *)
Fixpoint toLowerCase (s : string) : string :=
  match s with
  | EmptyString => EmptyString
  | String c s' => String (lowerChar c) (toLowerCase s')
  end.

(** [s.includes(sub)]: [sub] occurs in [s] as a contiguous substring. *)
Fixpoint includes (s sub : string) : bool :=
  String.prefix sub s ||
  match s with
  | EmptyString => false
  | String _ s' => includes s' sub
  end.

(** [a === b] on strings. *)
Definition strictEq (a b : string) : bool := bool_decide (a = b).

(** ** JavaScript values, as far as request bodies and the service's reply
    need them. An object is a finite map from property names. *)

Inductive JsValue :=
  | VUndefined
  | VNull
  | VBool (b : bool)
  | VNum (n : Z)
  | VStr (s : string)
  | VArr (l : list JsValue)
  | VObj (o : gmap string JsValue).

(** [o[k]] on a plain data object: a missing property reads as [undefined]. *)
Definition getProp (o : gmap string JsValue) (k : string) : JsValue :=
  default VUndefined (o !! k).

(** ** JavaScript [Map]: keyed, and iterated in insertion order.

    [Array.from(map.values())] lists the values in the order their keys were
    first set; [set] on a key already present keeps its place. An
    association list in that order is the faithful model ([values] feeds
    [find] and a stable [sort], both of which see the order). *)

Module JsMap.
Section Defs.
Context {V : Type}.

Fixpoint get (k : Z) (m : list (Z * V)) : option V :=
  match m with
  | [] => None
  | (k', v) :: m' => if decide (k' = k) then Some v else get k m'
  end.

Fixpoint set (k : Z) (v : V) (m : list (Z * V)) : list (Z * V) :=
  match m with
  | [] => [(k, v)]
  | (k', v') :: m' =>
      if decide (k' = k) then (k', v) :: m' else (k', v') :: set k v m'
  end.

Definition has (k : Z) (m : list (Z * V)) : bool :=
  bool_decide (is_Some (get k m)).

(** [map.delete(k)]: the map without [k], and whether [k] was there. *)
Definition delete (k : Z) (m : list (Z * V)) : bool * list (Z * V) :=
  (has k m, filter (λ p, p.1 ≠ k) m).

Definition values (m : list (Z * V)) : list V := m.*2.
Definition keys (m : list (Z * V)) : list Z := m.*1.
End Defs.
End JsMap.

Abbreviation JsMap V := (list (Z * V)).

(** ** [Array.prototype.sort(cmp)], [slice] and friends *)

(** A stable insertion sort: [x] goes before the first [y] it does not
    follow. For a consistent comparator every stable sort gives this list;
    for an inconsistent one (a [NaN] time next to real ones) ECMAScript
    leaves the order to the engine, and the result is still a permutation
    ([sortBy_perm]), which is all the theorems below rely on. *)
Fixpoint insertBy {A} (cmp : A → A → Z) (x : A) (l : list A) : list A :=
  match l with
  | [] => [x]
  | y :: l' => if decide (cmp x y ≤ 0) then x :: y :: l' else y :: insertBy cmp x l'
  end.

Definition sortBy {A} (cmp : A → A → Z) (l : list A) : list A :=
  foldr (insertBy cmp) [] l.

(** [arr.slice(0, n)]: a negative [n] counts from the end. *)
Definition slice0 {A} (n : Z) (l : list A) : list A :=
  if decide (n < 0) then take (Z.to_nat (Z.of_nat (length l) + n)) l
  else take (Z.to_nat n) l.

(** [limit ? arr.slice(0, limit) : arr] for an optional numeric [limit]:
    [undefined] and [0] are falsy. *)
Definition limited {A} (limit : option Z) (l : list A) : list A :=
  match limit with
  | Some n => if decide (n = 0) then l else slice0 n l
  | None => l
  end.

(** [new Date(tb).getTime() - new Date(ta).getTime()] as the sort sees it:
    with a missing timestamp the difference is [NaN], which [sort] reads
    as [+0]. *)
Definition dateDiff (tb ta : option Z) : Z :=
  match tb, ta with
  | Some b, Some a => b - a
  | _, _ => 0
  end.

(** [new Date(t) >= start && new Date(t) <= end]; comparisons with an
    invalid date are false. *)
Definition inRange (t : option Z) (startDate endDate : Z) : bool :=
  match t with
  | Some x => bool_decide (startDate ≤ x) && bool_decide (x ≤ endDate)
  | None => false
  end.

(** Object spread of one optional property: [{...existing, ...update}]
    takes the property from [update] when [update] has it. *)
Definition spread {A} (existing : A) (update : option A) : A :=
  default existing update.

(** ** shared/schema.ts: the rows ([$inferSelect]), the insert types and
    their [Partial]s. A nullable column is an [option]. *)

Module User.
Record t := mk {
  id : Z;
  username : string;
  email : string;
  password : string;
  name : option string;
  allergies : option (list string);
}.
End User.

Module InsertUser.
Record t := mk {
  username : string;
  email : string;
  password : string;
  name : option string;
  allergies : option (list string);
}.
End InsertUser.

Module PartialUser.
Record t := mk {
  username : option string;
  email : option string;
  password : option string;
  name : option (option string);
  allergies : option (option (list string));
}.
End PartialUser.

Module GlucoseReading.
Record t := mk {
  id : Z;
  userId : Z;
  value : Z;
  timestamp : option Z;   (* declared [Date]; see [createGlucoseReading] *)
  type : string;
  note : option string;
}.
End GlucoseReading.

Module InsertGlucoseReading.
Record t := mk {
  userId : Z;
  value : Z;
  timestamp : option Z;   (* [timestamp?: Date]: the column has a default *)
  type : string;
  note : option string;
}.
End InsertGlucoseReading.

Module PartialGlucoseReading.
Record t := mk {
  userId : option Z;
  value : option Z;
  timestamp : option (option Z);
  type : option string;
  note : option (option string);
}.
End PartialGlucoseReading.

Module MealPlan.
Record t := mk {
  id : Z;
  userId : Z;
  name : string;
  description : option string;
  mealType : string;
  imageUrl : option string;
  carbs : option Z;
  servings : option Z;
  prepTime : option Z;
  tags : option (list string);
  ingredients : option (list string);
  instructions : option (list string);
  createdAt : Z;
}.
End MealPlan.

Module InsertMealPlan.
Record t := mk {
  userId : Z;
  name : string;
  description : option string;
  mealType : string;
  imageUrl : option string;
  carbs : option Z;
  servings : option Z;
  prepTime : option Z;
  tags : option (list string);
  ingredients : option (list string);
  instructions : option (list string);
  createdAt : option Z;   (* not picked by the schema; [createMealPlan] reads it *)
}.
End InsertMealPlan.

Module PartialMealPlan.
Record t := mk {
  userId : option Z;
  name : option string;
  description : option (option string);
  mealType : option string;
  imageUrl : option (option string);
  carbs : option (option Z);
  servings : option (option Z);
  prepTime : option (option Z);
  tags : option (option (list string));
  ingredients : option (option (list string));
  instructions : option (option (list string));
}.
End PartialMealPlan.

Module Note.
Record t := mk {
  id : Z;
  userId : Z;
  title : string;
  content : string;
  timestamp : option Z;
  category : option string;
}.
End Note.

Module InsertNote.
Record t := mk {
  userId : Z;
  title : string;
  content : string;
  timestamp : option Z;
  category : option string;
}.
End InsertNote.

Module PartialNote.
Record t := mk {
  userId : option Z;
  title : option string;
  content : option string;
  timestamp : option (option Z);
  category : option (option string);
}.
End PartialNote.

(** ** server/storage.ts: [MemStorage] *)

Record MemStorage := mkStorage {
  users : JsMap User.t;
  glucoseReadings : JsMap GlucoseReading.t;
  mealPlans : JsMap MealPlan.t;
  notes : JsMap Note.t;
  userIdCounter : Z;
  glucoseIdCounter : Z;
  mealPlanIdCounter : Z;
  noteIdCounter : Z;
}.

(** A method of the store: it reads and writes [this] and returns a value. *)
Definition St (A : Type) : Type := MemStorage → A * MemStorage.

Definition ret {A} (a : A) : St A := λ s, (a, s).
Definition bind {A B} (m : St A) (k : A → St B) : St B :=
  λ s, let '(a, s') := m s in k a s'.

#[export] Instance St_ret : MRet St := @ret.
#[export] Instance St_bind : MBind St := λ A B k m, bind m k.

(** The field writes [this.f = v]. *)
Definition setUsers (v : JsMap User.t) (s : MemStorage) : MemStorage :=
  mkStorage v (glucoseReadings s) (mealPlans s) (notes s)
    (userIdCounter s) (glucoseIdCounter s) (mealPlanIdCounter s) (noteIdCounter s).
Definition setGlucoseReadings (v : JsMap GlucoseReading.t) (s : MemStorage) : MemStorage :=
  mkStorage (users s) v (mealPlans s) (notes s)
    (userIdCounter s) (glucoseIdCounter s) (mealPlanIdCounter s) (noteIdCounter s).
Definition setMealPlans (v : JsMap MealPlan.t) (s : MemStorage) : MemStorage :=
  mkStorage (users s) (glucoseReadings s) v (notes s)
    (userIdCounter s) (glucoseIdCounter s) (mealPlanIdCounter s) (noteIdCounter s).
Definition setNotes (v : JsMap Note.t) (s : MemStorage) : MemStorage :=
  mkStorage (users s) (glucoseReadings s) (mealPlans s) v
    (userIdCounter s) (glucoseIdCounter s) (mealPlanIdCounter s) (noteIdCounter s).
Definition setUserIdCounter (v : Z) (s : MemStorage) : MemStorage :=
  mkStorage (users s) (glucoseReadings s) (mealPlans s) (notes s)
    v (glucoseIdCounter s) (mealPlanIdCounter s) (noteIdCounter s).
Definition setGlucoseIdCounter (v : Z) (s : MemStorage) : MemStorage :=
  mkStorage (users s) (glucoseReadings s) (mealPlans s) (notes s)
    (userIdCounter s) v (mealPlanIdCounter s) (noteIdCounter s).
Definition setMealPlanIdCounter (v : Z) (s : MemStorage) : MemStorage :=
  mkStorage (users s) (glucoseReadings s) (mealPlans s) (notes s)
    (userIdCounter s) (glucoseIdCounter s) v (noteIdCounter s).
Definition setNoteIdCounter (v : Z) (s : MemStorage) : MemStorage :=
  mkStorage (users s) (glucoseReadings s) (mealPlans s) (notes s)
    (userIdCounter s) (glucoseIdCounter s) (mealPlanIdCounter s) v.

(** *** Users *)

Definition getUser (id : Z) (s : MemStorage) : option User.t :=
  JsMap.get id (users s).

(** [Array.prototype.find]: the first element the predicate accepts. *)
Fixpoint find {A} (p : A → bool) (l : list A) : option A :=
  match l with
  | [] => None
  | x :: l' => if p x then Some x else find p l'
  end.

Definition getUserByUsername (username : string) (s : MemStorage) : option User.t :=
  find (λ user, strictEq (toLowerCase (User.username user)) (toLowerCase username))
       (JsMap.values (users s)).

Definition getUserByEmail (email : string) (s : MemStorage) : option User.t :=
  find (λ user, strictEq (toLowerCase (User.email user)) (toLowerCase email))
       (JsMap.values (users s)).

(** *** Glucose readings *)

Definition getGlucoseReadings (userId : Z) (limit : option Z) (s : MemStorage)
  : list GlucoseReading.t :=
  let readings :=
    sortBy (λ a b, dateDiff (GlucoseReading.timestamp b) (GlucoseReading.timestamp a))
      (filter (λ reading, GlucoseReading.userId reading = userId)
         (JsMap.values (glucoseReadings s))) in
  limited limit readings.

Definition getGlucoseReadingsByDateRange (userId startDate endDate : Z) (s : MemStorage)
  : list GlucoseReading.t :=
  sortBy (λ a b, dateDiff (GlucoseReading.timestamp b) (GlucoseReading.timestamp a))
    (filter (λ reading, GlucoseReading.userId reading = userId
                        ∧ inRange (GlucoseReading.timestamp reading) startDate endDate = true)
       (JsMap.values (glucoseReadings s))).

Definition getGlucoseReading (id : Z) (s : MemStorage) : option GlucoseReading.t :=
  JsMap.get id (glucoseReadings s).

(** [{ ...reading, id }]: every property of [reading] as it is, and [id].
    Nothing supplies a timestamp that [reading] leaves out. *)
Definition createGlucoseReading (reading : InsertGlucoseReading.t) : St GlucoseReading.t :=
  λ s,
    let id := glucoseIdCounter s in
    let s := setGlucoseIdCounter (id + 1) s in
    let newReading :=
      GlucoseReading.mk id
        (InsertGlucoseReading.userId reading)
        (InsertGlucoseReading.value reading)
        (InsertGlucoseReading.timestamp reading)
        (InsertGlucoseReading.type reading)
        (InsertGlucoseReading.note reading) in
    (newReading, setGlucoseReadings (JsMap.set id newReading (glucoseReadings s)) s).

Definition updateGlucoseReading (id : Z) (update : PartialGlucoseReading.t)
  : St (option GlucoseReading.t) :=
  λ s,
    match getGlucoseReading id s with
    | None => (None, s)
    | Some existing =>
        let updated :=
          GlucoseReading.mk (GlucoseReading.id existing)
            (spread (GlucoseReading.userId existing) (PartialGlucoseReading.userId update))
            (spread (GlucoseReading.value existing) (PartialGlucoseReading.value update))
            (spread (GlucoseReading.timestamp existing) (PartialGlucoseReading.timestamp update))
            (spread (GlucoseReading.type existing) (PartialGlucoseReading.type update))
            (spread (GlucoseReading.note existing) (PartialGlucoseReading.note update)) in
        (Some updated, setGlucoseReadings (JsMap.set id updated (glucoseReadings s)) s)
    end.

Definition deleteGlucoseReading (id : Z) : St bool :=
  λ s, let '(found, m) := JsMap.delete id (glucoseReadings s) in
       (found, setGlucoseReadings m s).

(** *** Meal plans *)

Definition getMealPlans (userId : Z) (limit : option Z) (s : MemStorage)
  : list MealPlan.t :=
  let plans :=
    sortBy (λ a b, MealPlan.createdAt b - MealPlan.createdAt a)
      (filter (λ plan, MealPlan.userId plan = userId)
         (JsMap.values (mealPlans s))) in
  limited limit plans.

Definition getMealPlansByType (userId : Z) (mealType : string) (s : MemStorage)
  : list MealPlan.t :=
  sortBy (λ a b, MealPlan.createdAt b - MealPlan.createdAt a)
    (filter (λ plan, MealPlan.userId plan = userId ∧ MealPlan.mealType plan = mealType)
       (JsMap.values (mealPlans s))).

Definition getMealPlan (id : Z) (s : MemStorage) : option MealPlan.t :=
  JsMap.get id (mealPlans s).

(** [{ ...plan, id, createdAt: plan.createdAt || new Date() }]; [now] is
    what [new Date()] reads. *)
Definition createMealPlan (now : Z) (plan : InsertMealPlan.t) : St MealPlan.t :=
  λ s,
    let id := mealPlanIdCounter s in
    let s := setMealPlanIdCounter (id + 1) s in
    let newPlan :=
      MealPlan.mk id
        (InsertMealPlan.userId plan)
        (InsertMealPlan.name plan)
        (InsertMealPlan.description plan)
        (InsertMealPlan.mealType plan)
        (InsertMealPlan.imageUrl plan)
        (InsertMealPlan.carbs plan)
        (InsertMealPlan.servings plan)
        (InsertMealPlan.prepTime plan)
        (InsertMealPlan.tags plan)
        (InsertMealPlan.ingredients plan)
        (InsertMealPlan.instructions plan)
        (default now (InsertMealPlan.createdAt plan)) in
    (newPlan, setMealPlans (JsMap.set id newPlan (mealPlans s)) s).

Definition updateMealPlan (id : Z) (update : PartialMealPlan.t)
  : St (option MealPlan.t) :=
  λ s,
    match getMealPlan id s with
    | None => (None, s)
    | Some existing =>
        let updated :=
          MealPlan.mk (MealPlan.id existing)
            (spread (MealPlan.userId existing) (PartialMealPlan.userId update))
            (spread (MealPlan.name existing) (PartialMealPlan.name update))
            (spread (MealPlan.description existing) (PartialMealPlan.description update))
            (spread (MealPlan.mealType existing) (PartialMealPlan.mealType update))
            (spread (MealPlan.imageUrl existing) (PartialMealPlan.imageUrl update))
            (spread (MealPlan.carbs existing) (PartialMealPlan.carbs update))
            (spread (MealPlan.servings existing) (PartialMealPlan.servings update))
            (spread (MealPlan.prepTime existing) (PartialMealPlan.prepTime update))
            (spread (MealPlan.tags existing) (PartialMealPlan.tags update))
            (spread (MealPlan.ingredients existing) (PartialMealPlan.ingredients update))
            (spread (MealPlan.instructions existing) (PartialMealPlan.instructions update))
            (MealPlan.createdAt existing) in
        (Some updated, setMealPlans (JsMap.set id updated (mealPlans s)) s)
    end.

Definition deleteMealPlan (id : Z) : St bool :=
  λ s, let '(found, m) := JsMap.delete id (mealPlans s) in
       (found, setMealPlans m s).

(** *** Notes *)

Definition getNotes (userId : Z) (limit : option Z) (s : MemStorage) : list Note.t :=
  let userNotes :=
    sortBy (λ a b, dateDiff (Note.timestamp b) (Note.timestamp a))
      (filter (λ note, Note.userId note = userId)
         (JsMap.values (notes s))) in
  limited limit userNotes.

Definition getNote (id : Z) (s : MemStorage) : option Note.t :=
  JsMap.get id (notes s).

Definition createNote (note : InsertNote.t) : St Note.t :=
  λ s,
    let id := noteIdCounter s in
    let s := setNoteIdCounter (id + 1) s in
    let newNote :=
      Note.mk id
        (InsertNote.userId note)
        (InsertNote.title note)
        (InsertNote.content note)
        (InsertNote.timestamp note)
        (InsertNote.category note) in
    (newNote, setNotes (JsMap.set id newNote (notes s)) s).

Definition updateNote (id : Z) (update : PartialNote.t) : St (option Note.t) :=
  λ s,
    match getNote id s with
    | None => (None, s)
    | Some existing =>
        let updated :=
          Note.mk (Note.id existing)
            (spread (Note.userId existing) (PartialNote.userId update))
            (spread (Note.title existing) (PartialNote.title update))
            (spread (Note.content existing) (PartialNote.content update))
            (spread (Note.timestamp existing) (PartialNote.timestamp update))
            (spread (Note.category existing) (PartialNote.category update)) in
        (Some updated, setNotes (JsMap.set id updated (notes s)) s)
    end.

Definition deleteNote (id : Z) : St bool :=
  λ s, let '(found, m) := JsMap.delete id (notes s) in
       (found, setNotes m s).

(** The block guarded by [if (id === 1)] in [createUser]: demo data for the
    first user. [yesterday] and [twoDaysAgo] are [now] moved back by one and
    two calendar days ([setDate(getDate() - n)]), taken as 24 hours each. *)
Definition day : Z := 86400000.

Definition seedDemoData (now id : Z) : St () :=
  let yesterday := now - day in
  let twoDaysAgo := now - 2 * day in
  createGlucoseReading
    (InsertGlucoseReading.mk id 118 (Some now) "before_breakfast" (Some "Normal reading"));;
  createGlucoseReading
    (InsertGlucoseReading.mk id 162 (Some yesterday) "after_lunch" (Some "Slightly elevated"));;
  createGlucoseReading
    (InsertGlucoseReading.mk id 105 (Some yesterday) "before_breakfast" (Some "Good fasting level"));;
  createGlucoseReading
    (InsertGlucoseReading.mk id 183 (Some twoDaysAgo) "after_meal" (Some "High after eating pasta"));;
  createMealPlan now
    (InsertMealPlan.mk id "Grilled Salmon with Vegetables"
       (Some "Perfect for dinner - high protein, low carb option with omega-3 fatty acids.")
       "dinner"
       (Some "https://images.unsplash.com/photo-1539136788836-5699e78bfc75")
       (Some 12) (Some 1) (Some 30)
       (Some ["Low Carb"; "High Protein"])
       (Some ["Salmon fillet"; "Asparagus"; "Bell peppers"; "Olive oil"; "Lemon"; "Salt"; "Pepper"])
       (Some ["Preheat oven to 400°F"; "Season salmon with salt, pepper and lemon";
              "Roast vegetables with olive oil"; "Bake for 15-20 minutes"])
       None);;
  createMealPlan now
    (InsertMealPlan.mk id "Greek Yogurt Breakfast Bowl"
       (Some "High protein breakfast with berries, nuts, and a touch of honey.")
       "breakfast"
       (Some "https://images.unsplash.com/photo-1623428187969-5da2dcea5ebf")
       (Some 18) (Some 1) (Some 10)
       (Some ["Breakfast"; "High Protein"])
       (Some ["Greek yogurt"; "Mixed berries"; "Almonds"; "Honey"; "Cinnamon"])
       (Some ["Add yogurt to a bowl"; "Top with berries, nuts and a drizzle of honey";
              "Sprinkle with cinnamon"])
       None);;
  createNote
    (InsertNote.mk id "Increased activity today"
       "Went for a 30-minute walk after breakfast. Glucose readings were stable throughout the day."
       (Some now) (Some "Exercise"));;
  createNote
    (InsertNote.mk id "High reading after dinner"
       "Dinner included more carbs than usual. Will try to reduce portion size next time."
       (Some yesterday) (Some "Diet"));;
  mret ().

(** [now] is the clock a call reads with [new Date()]; the creates nested
    in the same synchronous run read the same instant. *)
Definition createUser (now : Z) (insertUser : InsertUser.t) : St User.t :=
  λ s,
    let id := userIdCounter s in
    let s := setUserIdCounter (id + 1) s in
    let user :=
      User.mk id
        (InsertUser.username insertUser)
        (InsertUser.email insertUser)
        (InsertUser.password insertUser)
        (InsertUser.name insertUser)
        (InsertUser.allergies insertUser) in
    let s := setUsers (JsMap.set id user (users s)) s in
    if decide (id = 1) then (seedDemoData now id;; mret user) s
    else (user, s).

Definition updateUser (id : Z) (update : PartialUser.t) : St (option User.t) :=
  λ s,
    match getUser id s with
    | None => (None, s)
    | Some existing =>
        let updated :=
          User.mk (User.id existing)
            (spread (User.username existing) (PartialUser.username update))
            (spread (User.email existing) (PartialUser.email update))
            (spread (User.password existing) (PartialUser.password update))
            (spread (User.name existing) (PartialUser.name update))
            (spread (User.allergies existing) (PartialUser.allergies update)) in
        (Some updated, setUsers (JsMap.set id updated (users s)) s)
    end.

(** The constructor: four empty maps, the counters at 1, and the demo user
    created at once ([createUser] runs to its end before [new MemStorage()]
    returns, as it awaits nothing). *)
Definition emptyStorage : MemStorage := mkStorage [] [] [] [] 1 1 1 1.

Definition demoUser : InsertUser.t :=
  InsertUser.mk "demo" "demo@example.com" "password123"
    (Some "John Doe") (Some ["peanuts"; "shellfish"]).

Definition constructor (now : Z) : MemStorage :=
  (createUser now demoUser emptyStorage).2.

(** ** Request validation: the zod schemas of shared/schema.ts

    [createInsertSchema] (drizzle-zod) derives one check per column: the
    column's type, [.optional()] when the column has a default, and
    [.nullable().optional()] when it is nullable. zod's [safeParse] reads
    each key of the schema from the input object and drops the others. A
    check is a partial function on the property's value ([None]: an issue
    at that key). The two libraries are not part of the repository; the
    checks below follow their documented behaviour. *)

Inductive Parsed (A : Type) :=
  | Valid (data : A)
  | Invalid (fields : list string).   (* the keys [error.format()] lists *)
Arguments Valid {A} data.
Arguments Invalid {A} fields.

(** [z.string()]. *)
Definition zString (v : JsValue) : option string :=
  match v with VStr s => Some s | _ => None end.

(** [z.string().min(n)]. *)
Definition zStringMin (n : nat) (v : JsValue) : option string :=
  match v with
  | VStr s => if decide (n ≤ String.length s)%nat then Some s else None
  | _ => None
  end.

(** An [integer] column: drizzle-zod asks for a number, integral and within
    PostgreSQL's 32-bit range (its older releases for a number only).
    Numbers of a body are integers here. *)
Definition zInteger (v : JsValue) : option Z :=
  match v with
  | VNum n => if decide (-2147483648 ≤ n ≤ 2147483647) then Some n else None
  | _ => None
  end.

(** A [timestamp] column: [z.date()], which accepts [Date] instances only.
    A JSON body holds none, so no value passes. *)
Definition zDate (v : JsValue) : option Z := None.

(** [z.array(z.string())]. *)
Definition zStringArray (v : JsValue) : option (list string) :=
  match v with
  | VArr l => mapM zString l
  | _ => None
  end.

(** [.optional()]: [undefined] (a missing key) passes as absent. *)
Definition zOptional {A} (check : JsValue → option A) (v : JsValue) : option (option A) :=
  match v with VUndefined => Some None | _ => Some <$> check v end.

(** [.nullable().optional()] of a nullable column: [null] and a missing
    key both leave the column empty. *)
Definition zNullish {A} (check : JsValue → option A) (v : JsValue) : option (option A) :=
  match v with VUndefined | VNull => Some None | _ => Some <$> check v end.

(** The key of a failed check. *)
Definition issue {A} (key : string) (r : option A) : list string :=
  match r with Some _ => [] | None => [key] end.

Definition insertGlucoseReadingSchema (input : gmap string JsValue)
  : Parsed InsertGlucoseReading.t :=
  let userId := zInteger (getProp input "userId") in
  let value := zInteger (getProp input "value") in
  let timestamp := zOptional zDate (getProp input "timestamp") in
  let type := zString (getProp input "type") in
  let note := zNullish zString (getProp input "note") in
  match userId, value, timestamp, type, note with
  | Some u, Some v, Some t, Some ty, Some n => Valid (InsertGlucoseReading.mk u v t ty n)
  | _, _, _, _, _ =>
      Invalid (issue "userId" userId ++ issue "value" value ++ issue "timestamp" timestamp
               ++ issue "type" type ++ issue "note" note)
  end.

(** [insertGlucoseReadingSchema.partial()]: every key optional. *)
Definition insertGlucoseReadingSchema_partial (input : gmap string JsValue)
  : Parsed PartialGlucoseReading.t :=
  let userId := zOptional zInteger (getProp input "userId") in
  let value := zOptional zInteger (getProp input "value") in
  let timestamp := zOptional zDate (getProp input "timestamp") in
  let type := zOptional zString (getProp input "type") in
  let note := zOptional (zNullish zString) (getProp input "note") in
  match userId, value, timestamp, type, note with
  | Some u, Some v, Some t, Some ty, Some n =>
      Valid (PartialGlucoseReading.mk u v (Some <$> t) ty n)
  | _, _, _, _, _ =>
      Invalid (issue "userId" userId ++ issue "value" value ++ issue "timestamp" timestamp
               ++ issue "type" type ++ issue "note" note)
  end.

Definition insertMealPlanSchema_partial (input : gmap string JsValue)
  : Parsed PartialMealPlan.t :=
  let userId := zOptional zInteger (getProp input "userId") in
  let name := zOptional zString (getProp input "name") in
  let description := zOptional (zNullish zString) (getProp input "description") in
  let mealType := zOptional zString (getProp input "mealType") in
  let imageUrl := zOptional (zNullish zString) (getProp input "imageUrl") in
  let carbs := zOptional (zNullish zInteger) (getProp input "carbs") in
  let servings := zOptional (zNullish zInteger) (getProp input "servings") in
  let prepTime := zOptional (zNullish zInteger) (getProp input "prepTime") in
  let tags := zOptional (zNullish zStringArray) (getProp input "tags") in
  let ingredients := zOptional (zNullish zStringArray) (getProp input "ingredients") in
  let instructions := zOptional (zNullish zStringArray) (getProp input "instructions") in
  match userId, name, description, mealType, imageUrl, carbs with
  | Some u, Some n, Some d, Some m, Some i, Some c =>
      match servings, prepTime, tags, ingredients, instructions with
      | Some sv, Some p, Some t, Some ing, Some ins =>
          Valid (PartialMealPlan.mk u n d m i c sv p t ing ins)
      | _, _, _, _, _ =>
          Invalid (issue "servings" servings ++ issue "prepTime" prepTime ++ issue "tags" tags
                   ++ issue "ingredients" ingredients ++ issue "instructions" instructions)
      end
  | _, _, _, _, _, _ =>
      Invalid (issue "userId" userId ++ issue "name" name ++ issue "description" description
               ++ issue "mealType" mealType ++ issue "imageUrl" imageUrl ++ issue "carbs" carbs
               ++ issue "servings" servings ++ issue "prepTime" prepTime ++ issue "tags" tags
               ++ issue "ingredients" ingredients ++ issue "instructions" instructions)
  end.

Definition insertNoteSchema_partial (input : gmap string JsValue)
  : Parsed PartialNote.t :=
  let userId := zOptional zInteger (getProp input "userId") in
  let title := zOptional zString (getProp input "title") in
  let content := zOptional zString (getProp input "content") in
  let timestamp := zOptional zDate (getProp input "timestamp") in
  let category := zOptional (zNullish zString) (getProp input "category") in
  match userId, title, content, timestamp, category with
  | Some u, Some t, Some c, Some ts, Some cat =>
      Valid (PartialNote.mk u t c (Some <$> ts) cat)
  | _, _, _, _, _ =>
      Invalid (issue "userId" userId ++ issue "title" title ++ issue "content" content
               ++ issue "timestamp" timestamp ++ issue "category" category)
  end.

(** [registerSchema]: the user's insert schema extended with
    [confirmPassword: z.string().min(6)], then refined by
    [password === confirmPassword] (an issue at [confirmPassword]); zod
    runs the refinement once every key has the right type. *)
Record RegisterData := mkRegisterData {
  reg_user : InsertUser.t;
  reg_confirmPassword : string;
}.

Definition registerSchema (input : gmap string JsValue) : Parsed RegisterData :=
  let username := zString (getProp input "username") in
  let email := zString (getProp input "email") in
  let password := zString (getProp input "password") in
  let name := zNullish zString (getProp input "name") in
  let allergies := zNullish zStringArray (getProp input "allergies") in
  let confirmPassword := zString (getProp input "confirmPassword") in
  match username, email, password, name, allergies, confirmPassword with
  | Some u, Some e, Some p, Some n, Some a, Some c =>
      let short := if decide (6 ≤ String.length c)%nat then [] else ["confirmPassword"] in
      let mismatch := if strictEq p c then [] else ["confirmPassword"] in
      match short ++ mismatch with
      | [] => Valid (mkRegisterData (InsertUser.mk u e p n a) c)
      | fields => Invalid fields
      end
  | _, _, _, _, _, _ =>
      Invalid (issue "username" username ++ issue "email" email ++ issue "password" password
               ++ issue "name" name ++ issue "allergies" allergies
               ++ issue "confirmPassword" confirmPassword)
  end.

(** ** server/routes.ts *)

(** What passport keeps in the session: the id [serializeUser] stored at
    login, if any. *)
Definition Session : Type := option Z.

(** [req.user]: [deserializeUser] loads the session's user from the store
    on every request; without a session id the request is not
    authenticated. A session id is what a login or a registration stored,
    the id of a stored user, and users are never deleted; for an id with no
    user behind it passport fails the request before any handler runs:
    [reqUser] is meant for the other two cases, a stored user or no
    session id. *)
Definition reqUser (session : Session) (s : MemStorage) : option User.t :=
  id ← session; getUser id s.

(** [const { password, ...userWithoutPassword } = user]. *)
Record UserWithoutPassword := mkUserWithoutPassword {
  pub_id : Z;
  pub_username : string;
  pub_email : string;
  pub_name : option string;
  pub_allergies : option (list string);
}.

Definition userWithoutPassword (user : User.t) : UserWithoutPassword :=
  mkUserWithoutPassword (User.id user) (User.username user) (User.email user)
    (User.name user) (User.allergies user).

Inductive ResBody :=
  | JsonMessage (message : string)                        (* [{ message }] *)
  | JsonInvalid (message : string) (errors : list string) (* [{ message, errors }] *)
  | JsonUser (user : UserWithoutPassword)                 (* [{ user }] *)
  | JsonReading (reading : option GlucoseReading.t)
  | JsonMealPlan (plan : option MealPlan.t)
  | JsonNote (note : option Note.t).

Record Response := mkResponse { status : Z; body : ResBody }.

(** [res.json(x)] answers 200 unless [res.status(n)] came first. *)
Definition json (b : ResBody) : Response := mkResponse 200 b.

Definition invalidRequest (fields : list string) : Response :=
  mkResponse 400 (JsonInvalid "Invalid request data" fields).

(** [ensureAuthenticated]. *)
Definition ensureAuthenticated (session : Session) (next : User.t → St Response)
  : St Response :=
  λ s, match reqUser session s with
       | Some user => next user s
       | None => (mkResponse 401 (JsonMessage "Not authenticated"), s)
       end.

(** [POST /api/auth/register]. [req.logIn] binds the session to the new
    user's id. *)
Definition post_api_auth_register (now : Z) (reqBody : gmap string JsValue)
    (session : Session) : St (Response * Session) :=
  λ s,
    match registerSchema reqBody with
    | Invalid fields => ((invalidRequest fields, session), s)
    | Valid result =>
        let userData := reg_user result in
        match getUserByUsername (InsertUser.username userData) s with
        | Some existingUser =>
            ((mkResponse 400 (JsonMessage "Username already taken"), session), s)
        | None =>
            match getUserByEmail (InsertUser.email userData) s with
            | Some existingEmail =>
                ((mkResponse 400 (JsonMessage "Email already registered"), session), s)
            | None =>
                let '(newUser, s) := createUser now userData s in
                ((mkResponse 201 (JsonUser (userWithoutPassword newUser)),
                  Some (User.id newUser)), s)
            end
        end
    end.

(** [POST /api/glucose]. *)
Definition post_api_glucose (reqBody : gmap string JsValue) (session : Session)
  : St Response :=
  ensureAuthenticated session (λ user s,
    match insertGlucoseReadingSchema (<["userId" := VNum (User.id user)]> reqBody) with
    | Invalid fields => (invalidRequest fields, s)
    | Valid data =>
        let '(newReading, s) := createGlucoseReading data s in
        (mkResponse 201 (JsonReading (Some newReading)), s)
    end).

(** In the handlers below [id] is [parseInt(req.params.id)], [None] when
    that is [NaN]; no map has a [NaN] key, so [get] finds nothing then.
    [target] is the record the path names, with its key. *)
Definition target {A} (get : Z → MemStorage → option A) (id : option Z)
    (s : MemStorage) : option (Z * A) :=
  i ← id; r ← get i s; Some (i, r).

(** [PUT /api/glucose/:id]. *)
Definition put_api_glucose_id (id : option Z) (reqBody : gmap string JsValue)
    (session : Session) : St Response :=
  ensureAuthenticated session (λ user s,
    let userId := User.id user in
    match target getGlucoseReading id s with
    | None => (mkResponse 404 (JsonMessage "Reading not found"), s)
    | Some (id, reading) =>
        if decide (GlucoseReading.userId reading ≠ userId) then
          (mkResponse 403 (JsonMessage "Not authorized to update this reading"), s)
        else
          match insertGlucoseReadingSchema_partial reqBody with
          | Invalid fields => (invalidRequest fields, s)
          | Valid data =>
              let '(updatedReading, s) := updateGlucoseReading id data s in
              (json (JsonReading updatedReading), s)
          end
    end).

(** [DELETE /api/glucose/:id]. *)
Definition delete_api_glucose_id (id : option Z) (session : Session) : St Response :=
  ensureAuthenticated session (λ user s,
    let userId := User.id user in
    match target getGlucoseReading id s with
    | None => (mkResponse 404 (JsonMessage "Reading not found"), s)
    | Some (id, reading) =>
        if decide (GlucoseReading.userId reading ≠ userId) then
          (mkResponse 403 (JsonMessage "Not authorized to delete this reading"), s)
        else
          let '(_, s) := deleteGlucoseReading id s in
          (json (JsonMessage "Reading deleted successfully"), s)
    end).

(** [PUT /api/meal-plans/:id]. *)
Definition put_api_meal_plans_id (id : option Z) (reqBody : gmap string JsValue)
    (session : Session) : St Response :=
  ensureAuthenticated session (λ user s,
    let userId := User.id user in
    match target getMealPlan id s with
    | None => (mkResponse 404 (JsonMessage "Meal plan not found"), s)
    | Some (id, plan) =>
        if decide (MealPlan.userId plan ≠ userId) then
          (mkResponse 403 (JsonMessage "Not authorized to update this meal plan"), s)
        else
          match insertMealPlanSchema_partial reqBody with
          | Invalid fields => (invalidRequest fields, s)
          | Valid data =>
              let '(updatedPlan, s) := updateMealPlan id data s in
              (json (JsonMealPlan updatedPlan), s)
          end
    end).

(** [DELETE /api/meal-plans/:id]. *)
Definition delete_api_meal_plans_id (id : option Z) (session : Session) : St Response :=
  ensureAuthenticated session (λ user s,
    let userId := User.id user in
    match target getMealPlan id s with
    | None => (mkResponse 404 (JsonMessage "Meal plan not found"), s)
    | Some (id, plan) =>
        if decide (MealPlan.userId plan ≠ userId) then
          (mkResponse 403 (JsonMessage "Not authorized to delete this meal plan"), s)
        else
          let '(_, s) := deleteMealPlan id s in
          (json (JsonMessage "Meal plan deleted successfully"), s)
    end).

(** [PUT /api/notes/:id]. *)
Definition put_api_notes_id (id : option Z) (reqBody : gmap string JsValue)
    (session : Session) : St Response :=
  ensureAuthenticated session (λ user s,
    let userId := User.id user in
    match target getNote id s with
    | None => (mkResponse 404 (JsonMessage "Note not found"), s)
    | Some (id, note) =>
        if decide (Note.userId note ≠ userId) then
          (mkResponse 403 (JsonMessage "Not authorized to update this note"), s)
        else
          match insertNoteSchema_partial reqBody with
          | Invalid fields => (invalidRequest fields, s)
          | Valid data =>
              let '(updatedNote, s) := updateNote id data s in
              (json (JsonNote updatedNote), s)
          end
    end).

(** [DELETE /api/notes/:id]. *)
Definition delete_api_notes_id (id : option Z) (session : Session) : St Response :=
  ensureAuthenticated session (λ user s,
    let userId := User.id user in
    match target getNote id s with
    | None => (mkResponse 404 (JsonMessage "Note not found"), s)
    | Some (id, note) =>
        if decide (Note.userId note ≠ userId) then
          (mkResponse 403 (JsonMessage "Not authorized to delete this note"), s)
        else
          let '(_, s) := deleteNote id s in
          (json (JsonMessage "Note deleted successfully"), s)
    end).

(** ** client/src/lib/openai.ts: the meal-plan generation adapter *)

Record MealPlanResponse := mkMealPlanResponse {
  mp_name : string;
  mp_description : string;
  mp_mealType : string;
  mp_imageUrl : option string;
  mp_carbs : Z;
  mp_servings : Z;
  mp_prepTime : Z;
  mp_tags : list string;
  mp_ingredients : list string;
  mp_instructions : list string;
}.

(** [literal[key]] on an object literal: an own property, else a member
    inherited from [Object.prototype], else [undefined]. *)
Inductive Lookup (A : Type) :=
  | Own (a : A)
  | Inherited (key : string)
  | Absent.
Arguments Own {A} a.
Arguments Inherited {A} key.
Arguments Absent {A}.

Definition objectPrototypeKeys : list string :=
  ["constructor"; "__defineGetter__"; "__defineSetter__"; "hasOwnProperty";
   "__lookupGetter__"; "__lookupSetter__"; "isPrototypeOf"; "propertyIsEnumerable";
   "toString"; "valueOf"; "__proto__"; "toLocaleString"].

Fixpoint assoc {A} (key : string) (l : list (string * A)) : option A :=
  match l with
  | [] => None
  | (k, a) :: l' => if decide (k = key) then Some a else assoc key l'
  end.

Definition literalGet {A} (own : list (string * A)) (key : string) : Lookup A :=
  match assoc key own with
  | Some a => Own a
  | None => if decide (key ∈ objectPrototypeKeys) then Inherited key else Absent
  end.

Definition mealImages : list (string * list string) :=
  [("breakfast",
    ["https://images.unsplash.com/photo-1623428187969-5da2dcea5ebf";
     "https://images.unsplash.com/photo-1525351484163-7529414344d8";
     "https://images.unsplash.com/photo-1533089860892-a7c6f0a88666"]);
   ("lunch",
    ["https://images.unsplash.com/photo-1490645935967-10de6ba17061";
     "https://images.unsplash.com/photo-1546069901-ba9599a7e63c";
     "https://images.unsplash.com/photo-1512621776951-a57141f2eefd"]);
   ("dinner",
    ["https://images.unsplash.com/photo-1539136788836-5699e78bfc75";
     "https://images.unsplash.com/photo-1467003909585-2f8a72700288";
     "https://images.unsplash.com/photo-1559847844-5315695dadae"]);
   ("snack",
    ["https://images.unsplash.com/photo-1486328228599-85db4443971f";
     "https://images.unsplash.com/photo-1624300629298-e9de39c13be6";
     "https://images.unsplash.com/photo-1593115590229-5c97a4c87b5d"])].

(** [mealImages.breakfast[0]] and the like. *)
Definition firstImage (mealType : string) : option string :=
  l ← assoc mealType mealImages; head l.

(** [ingredients.filter(i => !allergies.some(a =>
      i.toLowerCase().includes(a.toLowerCase())))]. *)
Definition allergyFilter (allergies : list string) (ingredients : list string)
  : list string :=
  filter (λ ingredient,
            existsb (λ allergy, includes (toLowerCase ingredient) (toLowerCase allergy))
                    allergies = false)
         ingredients.

(** The four members of the [samples] literal. *)
Definition sampleBreakfast (allergies : list string) : MealPlanResponse :=
  mkMealPlanResponse "Greek Yogurt Breakfast Bowl"
    "High protein breakfast with berries, nuts, and a touch of honey."
    "breakfast" (firstImage "breakfast") 18 1 10
    ["Breakfast"; "High Protein"]
    (allergyFilter allergies
       ["Greek yogurt"; "Mixed berries"; "Almonds"; "Honey"; "Cinnamon"])
    ["Add yogurt to a bowl"; "Top with berries, nuts and a drizzle of honey";
     "Sprinkle with cinnamon"].

Definition sampleLunch (allergies : list string) : MealPlanResponse :=
  mkMealPlanResponse "Quinoa Bowl with Chickpeas"
    "Plant-based protein with complex carbs for sustained energy."
    "lunch" (firstImage "lunch") 32 1 20
    ["Lunch"; "Vegetarian"]
    (allergyFilter allergies
       ["Quinoa"; "Chickpeas"; "Bell peppers"; "Cucumber"; "Olive oil"; "Lemon juice";
        "Salt"; "Pepper"; "Parsley"])
    ["Cook quinoa according to package instructions";
     "Chop vegetables and mix with chickpeas";
     "Combine all ingredients and dress with olive oil and lemon juice";
     "Season with salt, pepper, and chopped parsley"].

Definition sampleDinner (allergies : list string) : MealPlanResponse :=
  mkMealPlanResponse "Grilled Salmon with Vegetables"
    "Perfect for dinner - high protein, low carb option with omega-3 fatty acids."
    "dinner" (firstImage "dinner") 12 1 30
    ["Low Carb"; "High Protein"]
    (allergyFilter allergies
       ["Salmon fillet"; "Asparagus"; "Bell peppers"; "Olive oil"; "Lemon"; "Salt"; "Pepper"])
    ["Preheat oven to 400Â°F"; "Season salmon with salt, pepper and lemon";
     "Roast vegetables with olive oil"; "Bake for 15-20 minutes"].

Definition sampleSnack (allergies : list string) : MealPlanResponse :=
  mkMealPlanResponse "Veggie Sticks with Hummus"
    "A balanced snack with protein and fiber to keep blood sugar stable."
    "snack" (firstImage "snack") 15 1 5
    ["Low Carb"; "Vegetarian"]
    (allergyFilter allergies
       ["Carrot sticks"; "Cucumber sticks"; "Bell pepper strips"; "Hummus"; "Sesame seeds"])
    ["Wash and cut vegetables into sticks"; "Serve with a side of hummus";
     "Sprinkle hummus with sesame seeds"].

Definition samples (allergies : list string) : list (string * MealPlanResponse) :=
  [("breakfast", sampleBreakfast allergies);
   ("lunch", sampleLunch allergies);
   ("dinner", sampleDinner allergies);
   ("snack", sampleSnack allergies)].

(** What a call of the adapter hands back: typed [MealPlanResponse], at run
    time one of
    - a built-in sample;
    - a member of [Object.prototype] (all of them truthy), when [mealType]
      names one: [samples[mealType]] finds it before [|| samples.snack];
    - whatever object the service's reply parsed to, with [imageUrl] set. *)
Inductive MealPlanValue :=
  | Sample (plan : MealPlanResponse)
  | PrototypeMember (key : string)
  | Generated (mealPlan : JsValue) (imageUrl : option string).

(** [return samples[mealType] || samples.snack]. *)
Definition getSampleMealPlan (mealType : string) (allergies : list string)
  : MealPlanValue :=
  match literalGet (samples allergies) mealType with
  | Own plan => Sample plan
  | Inherited key => PrototypeMember key
  | Absent => Sample (sampleSnack allergies)
  end.

(** A statement completes normally with a value or throws. *)
Inductive Completion (A : Type) :=
  | Normal (a : A)
  | Throw (error : string).
Arguments Normal {A} a.
Arguments Throw {A} error.

#[export] Instance Completion_ret : MRet Completion := @Normal.
#[export] Instance Completion_bind : MBind Completion :=
  λ A B k m, match m with Normal a => k a | Throw e => Throw e end.

(** [try { body } catch (error) { handler }]. *)
Definition tryCatch {A} (body : Completion A) (handler : string → Completion A)
  : Completion A :=
  match body with
  | Normal a => Normal a
  | Throw error => handler error
  end.

(** [v.key] for the keys read from the service's reply ([choices],
    [message], [content]; no prototype has them): a [TypeError] on
    [undefined] and [null], [undefined] on a value without the property. *)
Definition member (v : JsValue) (key : string) : Completion JsValue :=
  match v with
  | VUndefined | VNull => Throw "TypeError"
  | VObj o => Normal (getProp o key)
  | _ => Normal VUndefined
  end.

(** [v[0]]. *)
Definition first (v : JsValue) : Completion JsValue :=
  match v with
  | VUndefined | VNull => Throw "TypeError"
  | VObj o => Normal (getProp o "0")
  | VArr l => Normal (default VUndefined (head l))
  | VStr (String c _) => Normal (VStr (String c EmptyString))
  | _ => Normal VUndefined
  end.

(** How [fetch] and [response.json()] settle. *)
Inductive FetchOutcome :=
  | Rejected                       (* network error: [fetch] rejects *)
  | Responded (ok : bool)          (* [response.ok] *)
              (data : option JsValue).  (* [await response.json()]; [None]: it rejects *)

(** The world outside the adapter: the environment variable, the service
    (its reply may depend on the request, which the key, the meal type and
    the allergy sentence determine), [JSON.parse] ([None]: a
    [SyntaxError]) and the draw of [Math.random]. *)
Record Env := mkEnv {
  OPENAI_API_KEY : option string;
  fetch : string → string → string → FetchOutcome;
  JSON_parse : JsValue → option JsValue;
  random : nat;
}.

(** [allergies.join(", ")]. *)
Fixpoint join (sep : string) (l : list string) : string :=
  match l with
  | [] => ""
  | [x] => x
  | x :: l' => x +:+ sep +:+ join sep l'
  end.

Definition allergiesText (allergies : list string) : string :=
  match allergies with
  | [] => "The person has no known food allergies."
  | _ => "The person has the following allergies: " +:+ join ", " allergies
         +:+ ". Ensure the meal doesn't include these ingredients."
  end.

(** [mealImages[mealType][Math.floor(Math.random() * mealImages[mealType].length)]]:
    a [TypeError] when [mealImages] has no such member; an inherited member
    is a function or [Object.prototype], whose [length] is a number or
    [undefined] and which has no element at any index. *)
Definition pickImage (env : Env) (mealType : string) : Completion (option string) :=
  match literalGet mealImages mealType with
  | Own images => Normal (images !! (random env `mod` length images)%nat)
  | Inherited _ => Normal None
  | Absent => Throw "TypeError"
  end.

(** The body of the [try] block of [generateMealPlan]. The file is an ES
    module, hence strict: assigning [imageUrl] on a primitive throws. *)
Definition generateMealPlan_try (env : Env) (mealType : string) (allergies : list string)
  : Completion MealPlanValue :=
  match OPENAI_API_KEY env with
  | None | Some "" => Normal (getSampleMealPlan mealType allergies)
  | Some apiKey =>
      match fetch env apiKey mealType (allergiesText allergies) with
      | Rejected => Throw "fetch failed"
      | Responded false _ => Throw "API request failed"
      | Responded true None => Throw "SyntaxError"
      | Responded true (Some data) =>
          choices ← member data "choices";
          choice ← first choices;
          message ← member choice "message";
          content ← member message "content";
          mealPlan ← match JSON_parse env content with
                     | Some v => Normal v
                     | None => Throw "SyntaxError"
                     end;
          imageUrl ← pickImage env mealType;
          match mealPlan with
          | VObj _ | VArr _ => Normal (Generated mealPlan imageUrl)
          | _ => Throw "TypeError"
          end
      end
  end.

(** [generateMealPlan]: whatever the [try] block throws, the [catch] logs
    it and returns the sample. *)
Definition generateMealPlan (env : Env) (mealType : string) (allergies : list string)
  : Completion MealPlanValue :=
  tryCatch (generateMealPlan_try env mealType allergies)
           (λ error, Normal (getSampleMealPlan mealType allergies)).





(** ** Runs of the store

    The mutating methods of [IStorage], each with the clock it may read;
    a reachable store is what a sequence of calls leaves of a freshly
    constructed one. The handlers of routes.ts reach the store through
    these methods only. *)

Inductive Call :=
  | CreateUser (insertUser : InsertUser.t)
  | UpdateUser (id : Z) (update : PartialUser.t)
  | CreateGlucoseReading (reading : InsertGlucoseReading.t)
  | UpdateGlucoseReading (id : Z) (update : PartialGlucoseReading.t)
  | DeleteGlucoseReading (id : Z)
  | CreateMealPlan (plan : InsertMealPlan.t)
  | UpdateMealPlan (id : Z) (update : PartialMealPlan.t)
  | DeleteMealPlan (id : Z)
  | CreateNote (note : InsertNote.t)
  | UpdateNote (id : Z) (update : PartialNote.t)
  | DeleteNote (id : Z).

Definition exec (now : Z) (c : Call) (s : MemStorage) : MemStorage :=
  match c with
  | CreateUser u => (createUser now u s).2
  | UpdateUser id u => (updateUser id u s).2
  | CreateGlucoseReading r => (createGlucoseReading r s).2
  | UpdateGlucoseReading id u => (updateGlucoseReading id u s).2
  | DeleteGlucoseReading id => (deleteGlucoseReading id s).2
  | CreateMealPlan p => (createMealPlan now p s).2
  | UpdateMealPlan id u => (updateMealPlan id u s).2
  | DeleteMealPlan id => (deleteMealPlan id s).2
  | CreateNote n => (createNote n s).2
  | UpdateNote id u => (updateNote id u s).2
  | DeleteNote id => (deleteNote id s).2
  end.

(** The calls of a run, oldest first, each at its clock reading. *)
Definition run (calls : list (Z * Call)) (s : MemStorage) : MemStorage :=
  foldl (λ s c, exec c.1 c.2 s) s calls.

Definition reachable (s : MemStorage) : Prop :=
  ∃ now calls, s = run calls (constructor now).

(** The identifiers stored in a collection. *)
Definition userIds (s : MemStorage) : list Z := User.id <$> JsMap.values (users s).
Definition glucoseIds (s : MemStorage) : list Z :=
  GlucoseReading.id <$> JsMap.values (glucoseReadings s).
Definition mealPlanIds (s : MemStorage) : list Z :=
  MealPlan.id <$> JsMap.values (mealPlans s).
Definition noteIds (s : MemStorage) : list Z := Note.id <$> JsMap.values (notes s).

(** ** The store's invariant

    A collection is well keyed when its keys are pairwise distinct, every
    record sits under its own [id], and every key is at least 1 and below
    the collection's counter. *)

Definition wellKeyed {V} (idOf : V → Z) (counter : Z) (m : JsMap V) : Prop :=
  1 ≤ counter ∧ NoDup (JsMap.keys m)
  ∧ ∀ k v, (k, v) ∈ m → idOf v = k ∧ 1 ≤ k < counter.

Definition inv (s : MemStorage) : Prop :=
  wellKeyed User.id (userIdCounter s) (users s)
  ∧ wellKeyed GlucoseReading.id (glucoseIdCounter s) (glucoseReadings s)
  ∧ wellKeyed MealPlan.id (mealPlanIdCounter s) (mealPlans s)
  ∧ wellKeyed Note.id (noteIdCounter s) (notes s).

(** No counter of [s'] is behind its value in [s]. *)
Definition countersLe (s s' : MemStorage) : Prop :=
  userIdCounter s ≤ userIdCounter s'
  ∧ glucoseIdCounter s ≤ glucoseIdCounter s'
  ∧ mealPlanIdCounter s ≤ mealPlanIdCounter s'
  ∧ noteIdCounter s ≤ noteIdCounter s'.

(** A method keeps a property of the store / relates the store before to
    the store after. *)
Definition preserves {A} (P : MemStorage → Prop) (m : St A) : Prop :=
  ∀ s, P s → P (m s).2.
Definition relates {A} (R : MemStorage → MemStorage → Prop) (m : St A) : Prop :=
  ∀ s, R s (m s).2.

(** How a field of an updated record relates to the record before and to
    the update: taken from the update when supplied, kept otherwise. *)
Definition fieldAfter {A} (existing : A) (update : option A) (updated : A) : Prop :=
  match update with
  | Some v => updated = v
  | None => updated = existing
  end.

(** An ingredient is free of an allergy list when no allergy occurs in it,
    case-insensitively, as a substring. *)
Definition allergyFree (allergies : list string) (ingredient : string) : Prop :=
  ∀ allergy, allergy ∈ allergies →
    includes (toLowerCase ingredient) (toLowerCase allergy) = false.

(** ** Requests used in the examples *)

(** A second user. *)
Definition alice : InsertUser.t :=
  InsertUser.mk "alice" "alice@example.com" "wonderland" None None.

(** The registration body of the spec's scenario. *)
Definition demoRegistration : gmap string JsValue :=
  {[ "username" := VStr "demo"; "email" := VStr "demo@example.com";
     "password" := VStr "password123"; "confirmPassword" := VStr "password123" ]}.

Definition aliceRegistration : gmap string JsValue :=
  {[ "username" := VStr "alice"; "email" := VStr "alice@example.com";
     "password" := VStr "wonderland"; "confirmPassword" := VStr "wonderland" ]}.

(** Three worlds for the adapter: no key configured; a key, and a network
    that fails; a key, and a service whose reply parses to an object. *)
Definition noKey : Env := mkEnv None (λ _ _ _, Rejected) (λ _, None) 0.

Definition networkDown : Env := mkEnv (Some "sk-test") (λ _ _ _, Rejected) (λ _, None) 0.

Definition answering : Env :=
  mkEnv (Some "sk-test")
    (λ _ _ _,
       Responded true
         (Some (VObj {[ "choices" :=
                          VArr [VObj {[ "message" :=
                                          VObj {[ "content" := VStr "{}" ]} ]}] ]})))
    (λ content, match content with VStr "{}" => Some (VObj ∅) | _ => None end)
    1.

(** ** server/routes.ts: the remaining handlers *)

(** [loginSchema]. *)
Definition loginSchema (input : gmap string JsValue) : Parsed (string * string) :=
  let username := zStringMin 3 (getProp input "username") in
  let password := zStringMin 6 (getProp input "password") in
  match username, password with
  | Some u, Some p => Valid (u, p)
  | _, _ => Invalid (issue "username" username ++ issue "password" password)
  end.

Definition insertMealPlanSchema (input : gmap string JsValue)
  : Parsed InsertMealPlan.t :=
  let userId := zInteger (getProp input "userId") in
  let name := zString (getProp input "name") in
  let description := zNullish zString (getProp input "description") in
  let mealType := zString (getProp input "mealType") in
  let imageUrl := zNullish zString (getProp input "imageUrl") in
  let carbs := zNullish zInteger (getProp input "carbs") in
  let servings := zNullish zInteger (getProp input "servings") in
  let prepTime := zNullish zInteger (getProp input "prepTime") in
  let tags := zNullish zStringArray (getProp input "tags") in
  let ingredients := zNullish zStringArray (getProp input "ingredients") in
  let instructions := zNullish zStringArray (getProp input "instructions") in
  match userId, name, description, mealType, imageUrl, carbs with
  | Some u, Some n, Some d, Some m, Some i, Some c =>
      match servings, prepTime, tags, ingredients, instructions with
      | Some sv, Some p, Some t, Some ing, Some ins =>
          Valid (InsertMealPlan.mk u n d m i c sv p t ing ins None)
      | _, _, _, _, _ =>
          Invalid (issue "servings" servings ++ issue "prepTime" prepTime ++ issue "tags" tags
                   ++ issue "ingredients" ingredients ++ issue "instructions" instructions)
      end
  | _, _, _, _, _, _ =>
      Invalid (issue "userId" userId ++ issue "name" name ++ issue "description" description
               ++ issue "mealType" mealType ++ issue "imageUrl" imageUrl ++ issue "carbs" carbs
               ++ issue "servings" servings ++ issue "prepTime" prepTime ++ issue "tags" tags
               ++ issue "ingredients" ingredients ++ issue "instructions" instructions)
  end.

Definition insertNoteSchema (input : gmap string JsValue) : Parsed InsertNote.t :=
  let userId := zInteger (getProp input "userId") in
  let title := zString (getProp input "title") in
  let content := zString (getProp input "content") in
  let timestamp := zOptional zDate (getProp input "timestamp") in
  let category := zNullish zString (getProp input "category") in
  match userId, title, content, timestamp, category with
  | Some u, Some t, Some c, Some ts, Some cat => Valid (InsertNote.mk u t c ts cat)
  | _, _, _, _, _ =>
      Invalid (issue "userId" userId ++ issue "title" title ++ issue "content" content
               ++ issue "timestamp" timestamp ++ issue "category" category)
  end.

(** The verify function given to passport's [LocalStrategy]:
    [done(null, user)] or [done(null, false, { message })]. *)
Inductive Verified :=
  | Authenticated (user : User.t)
  | Refused (message : string).

Definition localStrategy (username password : string) (s : MemStorage) : Verified :=
  match getUserByUsername username s with
  | None => Refused "Incorrect username."
  | Some user =>
      if strictEq (User.password user) password then Authenticated user
      else Refused "Incorrect password."
  end.

(** [POST /api/auth/login]. The schema leaves both credentials non-empty,
    so passport-local always reaches the verify function; the store is only
    read. *)
Definition post_api_auth_login (reqBody : gmap string JsValue) (session : Session)
    (s : MemStorage) : Response * Session :=
  match loginSchema reqBody with
  | Invalid fields => (invalidRequest fields, session)
  | Valid (username, password) =>
      match localStrategy username password s with
      | Refused message => (mkResponse 401 (JsonMessage message), session)
      | Authenticated user =>
          (json (JsonUser (userWithoutPassword user)), Some (User.id user))
      end
  end.

(** [POST /api/auth/logout]. *)
Definition post_api_auth_logout (session : Session) : Response * Session :=
  (json (JsonMessage "Logged out successfully"), None).

(** [GET /api/auth/current-user]. *)
Definition get_api_auth_current_user (session : Session) (s : MemStorage) : Response :=
  match reqUser session s with
  | None => mkResponse 401 (JsonMessage "Not authenticated")
  | Some user => json (JsonUser (userWithoutPassword user))
  end.

(** The answer of a list endpoint: the array, or a message. *)
Inductive ListBody (A : Type) :=
  | JsonArray (items : list A)
  | JsonError (message : string).
Arguments JsonArray {A} items.
Arguments JsonError {A} message.

Record ListResponse (A : Type) := mkListResponse {
  list_status : Z;
  list_body : ListBody A;
}.
Arguments mkListResponse {A} list_status list_body.
Arguments list_status {A} l.
Arguments list_body {A} l.

(** [ensureAuthenticated] in front of a handler that only reads. *)
Definition ensureAuthenticatedRead {A} (session : Session) (s : MemStorage)
    (next : User.t → ListResponse A) : ListResponse A :=
  match reqUser session s with
  | Some user => next user
  | None => mkListResponse 401 (JsonError "Not authenticated")
  end.

(** [GET /api/glucose]. *)
Definition get_api_glucose (session : Session) (s : MemStorage)
  : ListResponse GlucoseReading.t :=
  ensureAuthenticatedRead session s (λ user,
    mkListResponse 200 (JsonArray (getGlucoseReadings (User.id user) None s))).

(** [GET /api/glucose/range?start&end]. A query parameter is absent or a
    string, and the empty string is falsy; [parseDate] is what
    [new Date(string).getTime()] gives, [None] for [NaN]. *)
Definition get_api_glucose_range (parseDate : string → option Z)
    (start end_ : option string) (session : Session) (s : MemStorage)
  : ListResponse GlucoseReading.t :=
  ensureAuthenticatedRead session s (λ user,
    match start, end_ with
    | None, _ | Some "", _ | _, None | _, Some "" =>
        mkListResponse 400 (JsonError "Start and end dates are required")
    | Some start, Some end_ =>
        match parseDate start, parseDate end_ with
        | Some startDate, Some endDate =>
            mkListResponse 200
              (JsonArray (getGlucoseReadingsByDateRange (User.id user) startDate endDate s))
        | _, _ => mkListResponse 400 (JsonError "Invalid date format")
        end
    end).

(** [GET /api/meal-plans?type=]. *)
Definition get_api_meal_plans (type : option string) (session : Session) (s : MemStorage)
  : ListResponse MealPlan.t :=
  ensureAuthenticatedRead session s (λ user,
    let plans :=
      match type with
      | None | Some "" => getMealPlans (User.id user) None s
      | Some type => getMealPlansByType (User.id user) type s
      end in
    mkListResponse 200 (JsonArray plans)).

(** [GET /api/notes]. *)
Definition get_api_notes (session : Session) (s : MemStorage) : ListResponse Note.t :=
  ensureAuthenticatedRead session s (λ user,
    mkListResponse 200 (JsonArray (getNotes (User.id user) None s))).

(** [POST /api/meal-plans]. *)
Definition post_api_meal_plans (now : Z) (reqBody : gmap string JsValue)
    (session : Session) : St Response :=
  ensureAuthenticated session (λ user s,
    match insertMealPlanSchema (<["userId" := VNum (User.id user)]> reqBody) with
    | Invalid fields => (invalidRequest fields, s)
    | Valid data =>
        let '(newPlan, s) := createMealPlan now data s in
        (mkResponse 201 (JsonMealPlan (Some newPlan)), s)
    end).

(** [POST /api/notes]. *)
Definition post_api_notes (reqBody : gmap string JsValue) (session : Session)
  : St Response :=
  ensureAuthenticated session (λ user s,
    match insertNoteSchema (<["userId" := VNum (User.id user)]> reqBody) with
    | Invalid fields => (invalidRequest fields, s)
    | Valid data =>
        let '(newNote, s) := createNote data s in
        (mkResponse 201 (JsonNote (Some newNote)), s)
    end).

(** The requests that write readings, meal plans and notes, and the
    handler each one reaches. *)
Inductive Request :=
  | PostGlucose (reqBody : gmap string JsValue)
  | PutGlucose (id : option Z) (reqBody : gmap string JsValue)
  | DeleteGlucose (id : option Z)
  | PostMealPlans (reqBody : gmap string JsValue)
  | PutMealPlans (id : option Z) (reqBody : gmap string JsValue)
  | DeleteMealPlans (id : option Z)
  | PostNotes (reqBody : gmap string JsValue)
  | PutNotes (id : option Z) (reqBody : gmap string JsValue)
  | DeleteNotes (id : option Z).

Definition handle (now : Z) (req : Request) (session : Session) : St Response :=
  match req with
  | PostGlucose reqBody => post_api_glucose reqBody session
  | PutGlucose id reqBody => put_api_glucose_id id reqBody session
  | DeleteGlucose id => delete_api_glucose_id id session
  | PostMealPlans reqBody => post_api_meal_plans now reqBody session
  | PutMealPlans id reqBody => put_api_meal_plans_id id reqBody session
  | DeleteMealPlans id => delete_api_meal_plans_id id session
  | PostNotes reqBody => post_api_notes reqBody session
  | PutNotes id reqBody => put_api_notes_id id reqBody session
  | DeleteNotes id => delete_api_notes_id id session
  end.

(** What a client may send, one request after the other, each with its
    session and the clock: a registration or one of the writes above.
    (Login, logout and the GET endpoints leave the store as it is.) *)
Inductive Exchange :=
  | Registering (now : Z) (reqBody : gmap string JsValue) (session : Session)
  | Writing (now : Z) (req : Request) (session : Session).

Definition serve (e : Exchange) (s : MemStorage) : MemStorage :=
  match e with
  | Registering now reqBody session => (post_api_auth_register now reqBody session s).2
  | Writing now req session => (handle now req session s).2
  end.

Definition served (s : MemStorage) : Prop :=
  ∃ now exchanges, s = foldl (λ s e, serve e s) (constructor now) exchanges.

(** ** Further notions used in the statements *)

(** The user names, and the e-mail addresses, as the uniqueness checks of
    registration compare them. *)
Definition usernameKeys (s : MemStorage) : list string :=
  (λ user, toLowerCase (User.username user)) <$> JsMap.values (users s).
Definition emailKeys (s : MemStorage) : list string :=
  (λ user, toLowerCase (User.email user)) <$> JsMap.values (users s).

(** [l] is in descending order of [key]. *)
Fixpoint descending {A} (key : A → Z) (l : list A) : Prop :=
  match l with
  | [] => True
  | x :: l' => (∀ y, y ∈ l' → key y ≤ key x) ∧ descending key l'
  end.

(** The store after [alice] registered, and the two users in it. *)
Definition twoUsers : MemStorage := run [(1, CreateUser alice)] (constructor 0).

Definition demoStored : User.t :=
  User.mk 1 "demo" "demo@example.com" "password123" (Some "John Doe")
    (Some ["peanuts"; "shellfish"]).

Definition aliceStored : User.t :=
  User.mk 2 "alice" "alice@example.com" "wonderland" None None.

(** * Properties *)

(** ** [JsMap] *)

Section JsMapFacts.
Context {V : Type}.
Implicit Types (m : JsMap V) (k : Z) (v : V).

Lemma get_set_eq k v m : JsMap.get k (JsMap.set k v m) = Some v.
Proof.
  induction m as [|[k' v'] m IH]; simpl.
  - by rewrite decide_True.
  - destruct (decide (k' = k)) as [->|Hne]; simpl.
    + by rewrite decide_True.
    + by rewrite decide_False.
Qed.

Lemma get_set_ne k k' v m : k ≠ k' → JsMap.get k' (JsMap.set k v m) = JsMap.get k' m.
Proof.
  intros Hne. induction m as [|[k0 v0] m IH]; simpl.
  - by rewrite decide_False.
  - destruct (decide (k0 = k)) as [->|Hk]; simpl.
    + by rewrite !decide_False.
    + destruct (decide (k0 = k')); [done | apply IH].
Qed.

Lemma get_Some_elem k v m : JsMap.get k m = Some v → (k, v) ∈ m.
Proof.
  induction m as [|[k0 v0] m IH]; simpl; [done|].
  destruct (decide (k0 = k)) as [->|Hk].
  - intros [= ->]. apply list_elem_of_here.
  - intros H. apply list_elem_of_further, IH, H.
Qed.

Lemma get_None_keys k m : JsMap.get k m = None ↔ k ∉ JsMap.keys m.
Proof.
  unfold JsMap.keys. induction m as [|[k0 v0] m IH]; simpl.
  - split; [intros _; apply not_elem_of_nil | done].
  - rewrite not_elem_of_cons. destruct (decide (k0 = k)) as [->|Hk].
    + split; [done | intros [? _]; done].
    + rewrite IH. split; [intros ?; split; [congruence | done] | intros [_ ?]; done].
Qed.

Lemma elem_get k v m : NoDup (JsMap.keys m) → (k, v) ∈ m → JsMap.get k m = Some v.
Proof.
  unfold JsMap.keys. induction m as [|[k0 v0] m IH]; simpl.
  - intros _ H. by apply elem_of_nil in H.
  - intros [Hk0 Hnd]%NoDup_cons [[= -> ->]|Hin]%elem_of_cons.
    + by rewrite decide_True.
    + rewrite decide_False; [by apply IH|].
      intros ->. apply Hk0. apply (list_elem_of_fmap_2 fst) in Hin. exact Hin.
Qed.

Lemma elem_set_inv k v k0 v0 m :
  (k, v) ∈ JsMap.set k0 v0 m → (k, v) = (k0, v0) ∨ (k, v) ∈ m.
Proof.
  induction m as [|[k1 v1] m IH]; simpl.
  - intros ->%list_elem_of_singleton. by left.
  - destruct (decide (k1 = k0)) as [->|Hk].
    + intros [->|Hin]%elem_of_cons; [by left|].
      right. by apply list_elem_of_further.
    + intros [->|Hin]%elem_of_cons; [right; apply list_elem_of_here|].
      destruct (IH Hin) as [?|?]; [by left|].
      right. by apply list_elem_of_further.
Qed.

Lemma keys_set_in k v m : k ∈ JsMap.keys m → JsMap.keys (JsMap.set k v m) = JsMap.keys m.
Proof.
  unfold JsMap.keys. induction m as [|[k1 v1] m IH]; simpl.
  - intros H. by apply elem_of_nil in H.
  - destruct (decide (k1 = k)) as [->|Hk]; [done|].
    intros [->|Hin]%elem_of_cons; [done|]. rewrite fmap_cons. by rewrite IH.
Qed.

Lemma keys_set_notin k v m :
  k ∉ JsMap.keys m → JsMap.keys (JsMap.set k v m) = JsMap.keys m ++ [k].
Proof.
  unfold JsMap.keys. induction m as [|[k1 v1] m IH]; simpl; [done|].
  intros [Hne Hnin]%not_elem_of_cons.
  rewrite decide_False; [|done]. rewrite fmap_cons. by rewrite IH.
Qed.

Lemma NoDup_keys_set k v m : NoDup (JsMap.keys m) → NoDup (JsMap.keys (JsMap.set k v m)).
Proof.
  intros Hnd. destruct (decide (k ∈ JsMap.keys m)) as [Hin|Hnin].
  - by rewrite keys_set_in.
  - rewrite keys_set_notin; [|done]. apply NoDup_app. split; [done|].
    split; [|apply NoDup_singleton].
    intros x Hx ->%list_elem_of_singleton. done.
Qed.

Lemma get_delete_eq k m : JsMap.get k (JsMap.delete k m).2 = None.
Proof.
  simpl. induction m as [|[k1 v1] m IH]; [done|].
  rewrite filter_cons. simpl. destruct (decide (k1 ≠ k)) as [Hne|Heq]; [|done].
  simpl. by rewrite decide_False.
Qed.

Lemma get_delete_ne k k' m : k ≠ k' → JsMap.get k' (JsMap.delete k m).2 = JsMap.get k' m.
Proof.
  intros Hne. simpl. induction m as [|[k1 v1] m IH]; [done|].
  rewrite filter_cons. simpl. destruct (decide (k1 ≠ k)) as [H1|H1]; simpl.
  - by rewrite IH.
  - apply dec_stable in H1 as ->. by rewrite decide_False.
Qed.

Lemma delete_found k m : (JsMap.delete k m).1 = true ↔ is_Some (JsMap.get k m).
Proof. simpl. unfold JsMap.has. apply bool_decide_eq_true. Qed.

Lemma delete_absent k m : JsMap.get k m = None → JsMap.delete k m = (false, m).
Proof.
  intros Hnone. unfold JsMap.delete, JsMap.has. rewrite Hnone.
  rewrite bool_decide_eq_false_2; [|by intros [? ?]]. f_equal.
  apply get_None_keys in Hnone. unfold JsMap.keys in Hnone.
  induction m as [|[k1 v1] m IH]; [done|].
  apply not_elem_of_cons in Hnone as [Hne Hnin]. simpl in Hne.
  rewrite filter_cons. simpl. rewrite decide_True; [|done]. by rewrite IH.
Qed.

Lemma elem_delete k v k0 m : (k, v) ∈ (JsMap.delete k0 m).2 → (k, v) ∈ m.
Proof. simpl. by intros [_ ?]%list_elem_of_filter. Qed.

Lemma NoDup_keys_delete k m :
  NoDup (JsMap.keys m) → NoDup (JsMap.keys (JsMap.delete k m).2).
Proof.
  unfold JsMap.keys. simpl. induction m as [|[k1 v1] m IH]; [done|].
  simpl. intros [Hk1 Hnd]%NoDup_cons. rewrite filter_cons. simpl.
  destruct (decide (k1 ≠ k)); [|by apply IH]. simpl.
  apply NoDup_cons. split; [|by apply IH].
  intros Hin. apply Hk1. apply list_elem_of_fmap in Hin as [[k2 v2] [-> Hin]].
  apply list_elem_of_filter in Hin as [_ Hin].
  by apply (list_elem_of_fmap_2 fst) in Hin.
Qed.

Lemma elem_values v m : v ∈ JsMap.values m → ∃ k, (k, v) ∈ m.
Proof.
  unfold JsMap.values. intros [[k v'] [-> Hin]]%list_elem_of_fmap. by exists k.
Qed.
End JsMapFacts.

(** ** Sorting and slicing keep to the elements they are given *)

Lemma insertBy_perm {A} (cmp : A → A → Z) x l : insertBy cmp x l ≡ₚ x :: l.
Proof.
  induction l as [|y l IH]; simpl; [done|].
  destruct (decide (cmp x y ≤ 0)); [done|].
  rewrite IH. apply Permutation_swap.
Qed.

Lemma sortBy_perm {A} (cmp : A → A → Z) l : sortBy cmp l ≡ₚ l.
Proof.
  induction l as [|x l IH]; simpl; [done|].
  unfold sortBy in *. simpl. by rewrite insertBy_perm, IH.
Qed.

Lemma elem_sortBy {A} (cmp : A → A → Z) x l : x ∈ sortBy cmp l ↔ x ∈ l.
Proof. by rewrite sortBy_perm. Qed.

Lemma elem_limited {A} (limit : option Z) (x : A) l : x ∈ limited limit l → x ∈ l.
Proof.
  unfold limited, slice0. destruct limit as [n|]; [|done].
  repeat case_decide; [done|..]; intros [i [Hi _]]%elem_of_take;
    by eapply list_elem_of_lookup_2.
Qed.

(** ** The invariant holds in every reachable store *)

Section WellKeyed.
Context {V : Type} (idOf : V → Z).
Implicit Types (m : JsMap V) (k c : Z) (v : V).

Lemma wellKeyed_empty : wellKeyed idOf 1 [].
Proof.
  split; [done|]. split; [apply NoDup_nil_2|].
  intros k v H. by apply elem_of_nil in H.
Qed.

Lemma wellKeyed_create c v m :
  wellKeyed idOf c m → idOf v = c → wellKeyed idOf (c + 1) (JsMap.set c v m).
Proof.
  intros (Hc & Hnd & Hall) Hid. split; [lia|]. split; [by apply NoDup_keys_set|].
  intros k v' [[= -> ->]|Hin]%elem_set_inv; [lia|].
  destruct (Hall _ _ Hin). lia.
Qed.

Lemma wellKeyed_update c k v existing m :
  wellKeyed idOf c m → JsMap.get k m = Some existing → idOf v = idOf existing →
  wellKeyed idOf c (JsMap.set k v m).
Proof.
  intros (Hc & Hnd & Hall) Hget Hid. split; [done|]. split; [by apply NoDup_keys_set|].
  intros k' v' [[= -> ->]|Hin]%elem_set_inv; [|by apply Hall].
  rewrite Hid. apply Hall. by apply get_Some_elem.
Qed.

Lemma wellKeyed_delete c k m :
  wellKeyed idOf c m → wellKeyed idOf c (JsMap.delete k m).2.
Proof.
  intros (Hc & Hnd & Hall). split; [done|]. split; [by apply NoDup_keys_delete|].
  intros k' v' Hin%elem_delete. by apply Hall.
Qed.

Lemma wellKeyed_ids c m : wellKeyed idOf c m → idOf <$> JsMap.values m = JsMap.keys m.
Proof.
  intros (_ & _ & Hall). unfold JsMap.values, JsMap.keys.
  induction m as [|[k v] m IH]; [done|].
  rewrite !fmap_cons. simpl. f_equal.
  - apply (Hall k v), list_elem_of_here.
  - apply IH. intros k' v' Hin. apply Hall. by apply list_elem_of_further.
Qed.

Lemma wellKeyed_NoDup c m : wellKeyed idOf c m → NoDup (idOf <$> JsMap.values m).
Proof. intros H. rewrite (wellKeyed_ids c m H). apply H. Qed.

Lemma wellKeyed_below c m i :
  wellKeyed idOf c m → i ∈ idOf <$> JsMap.values m → i < c.
Proof.
  intros H. rewrite (wellKeyed_ids c m H). destruct H as (_ & _ & Hall).
  unfold JsMap.keys. intros [[k v] [-> Hin]]%list_elem_of_fmap.
  destruct (Hall _ _ Hin). simpl. lia.
Qed.
End WellKeyed.

Lemma preserves_bind {A B} (P : MemStorage → Prop) (m : St A) (k : A → St B) :
  preserves P m → (∀ a, preserves P (k a)) → preserves P (m ≫= k).
Proof.
  intros Hm Hk s Hs. unfold mbind, St_bind, bind.
  specialize (Hm s Hs). destruct (m s) as [a s']. by apply Hk.
Qed.

Lemma preserves_ret {A} (P : MemStorage → Prop) (a : A) : preserves P (mret a).
Proof. by intros s Hs. Qed.

Lemma inv_createGlucoseReading reading : preserves inv (createGlucoseReading reading).
Proof.
  intros s (Hu & Hg & Hm & Hn). unfold createGlucoseReading, inv. simpl.
  refine (conj Hu (conj _ (conj Hm Hn))).
  by apply (wellKeyed_create GlucoseReading.id).
Qed.

Lemma inv_createMealPlan now plan : preserves inv (createMealPlan now plan).
Proof.
  intros s (Hu & Hg & Hm & Hn). unfold createMealPlan, inv. simpl.
  refine (conj Hu (conj Hg (conj _ Hn))).
  by apply (wellKeyed_create MealPlan.id).
Qed.

Lemma inv_createNote note : preserves inv (createNote note).
Proof.
  intros s (Hu & Hg & Hm & Hn). unfold createNote, inv. simpl.
  refine (conj Hu (conj Hg (conj Hm _))).
  by apply (wellKeyed_create Note.id).
Qed.

Lemma inv_seedDemoData now id : preserves inv (seedDemoData now id).
Proof.
  unfold seedDemoData.
  repeat (apply preserves_bind; [|intros ?]);
    first [ apply inv_createGlucoseReading | apply inv_createMealPlan
          | apply inv_createNote | apply preserves_ret ].
Qed.

Lemma bind_ret_snd {A B} (m : St A) (b : B) s : ((m ≫= λ _, mret b) s).2 = (m s).2.
Proof. unfold mbind, St_bind, bind. by destruct (m s). Qed.

Lemma bind_ret_fst {A B} (m : St A) (b : B) s : ((m ≫= λ _, mret b) s).1 = b.
Proof. unfold mbind, St_bind, bind. by destruct (m s). Qed.

Lemma inv_createUser now insertUser : preserves inv (createUser now insertUser).
Proof.
  intros s (Hu & Hg & Hm & Hn). unfold createUser.
  set (user := User.mk _ _ _ _ _ _).
  assert (inv (setUsers (JsMap.set (userIdCounter s) user (users s))
                 (setUserIdCounter (userIdCounter s + 1) s))) as Hinv.
  { refine (conj _ (conj Hg (conj Hm Hn))). simpl.
    by apply (wellKeyed_create User.id). }
  destruct (decide (userIdCounter s = 1)); [|exact Hinv].
  rewrite bind_ret_snd. by apply inv_seedDemoData.
Qed.

Lemma inv_updateUser id update : preserves inv (updateUser id update).
Proof.
  intros s (Hu & Hg & Hm & Hn). unfold updateUser, getUser.
  destruct (JsMap.get id (users s)) as [existing|] eqn:Hget; [|done].
  refine (conj _ (conj Hg (conj Hm Hn))). simpl.
  by apply (wellKeyed_update User.id _ _ _ existing).
Qed.

Lemma inv_updateGlucoseReading id update : preserves inv (updateGlucoseReading id update).
Proof.
  intros s (Hu & Hg & Hm & Hn). unfold updateGlucoseReading, getGlucoseReading.
  destruct (JsMap.get id (glucoseReadings s)) as [existing|] eqn:Hget; [|done].
  refine (conj Hu (conj _ (conj Hm Hn))). simpl.
  by apply (wellKeyed_update GlucoseReading.id _ _ _ existing).
Qed.

Lemma inv_updateMealPlan id update : preserves inv (updateMealPlan id update).
Proof.
  intros s (Hu & Hg & Hm & Hn). unfold updateMealPlan, getMealPlan.
  destruct (JsMap.get id (mealPlans s)) as [existing|] eqn:Hget; [|done].
  refine (conj Hu (conj Hg (conj _ Hn))). simpl.
  by apply (wellKeyed_update MealPlan.id _ _ _ existing).
Qed.

Lemma inv_updateNote id update : preserves inv (updateNote id update).
Proof.
  intros s (Hu & Hg & Hm & Hn). unfold updateNote, getNote.
  destruct (JsMap.get id (notes s)) as [existing|] eqn:Hget; [|done].
  refine (conj Hu (conj Hg (conj Hm _))). simpl.
  by apply (wellKeyed_update Note.id _ _ _ existing).
Qed.

Lemma inv_deleteGlucoseReading id : preserves inv (deleteGlucoseReading id).
Proof.
  intros s (Hu & Hg & Hm & Hn).
  refine (conj Hu (conj _ (conj Hm Hn))).
  by apply (wellKeyed_delete GlucoseReading.id).
Qed.

Lemma inv_deleteMealPlan id : preserves inv (deleteMealPlan id).
Proof.
  intros s (Hu & Hg & Hm & Hn).
  refine (conj Hu (conj Hg (conj _ Hn))).
  by apply (wellKeyed_delete MealPlan.id).
Qed.

Lemma inv_deleteNote id : preserves inv (deleteNote id).
Proof.
  intros s (Hu & Hg & Hm & Hn).
  refine (conj Hu (conj Hg (conj Hm _))).
  by apply (wellKeyed_delete Note.id).
Qed.

Lemma inv_exec now c s : inv s → inv (exec now c s).
Proof.
  destruct c; simpl;
    [ apply inv_createUser | apply inv_updateUser
    | apply inv_createGlucoseReading | apply inv_updateGlucoseReading
    | apply inv_deleteGlucoseReading
    | apply inv_createMealPlan | apply inv_updateMealPlan | apply inv_deleteMealPlan
    | apply inv_createNote | apply inv_updateNote | apply inv_deleteNote ].
Qed.

Lemma inv_run calls s : inv s → inv (run calls s).
Proof.
  unfold run. revert s. induction calls as [|[now c] calls IH]; intros s Hs; [done|].
  simpl. by apply IH, inv_exec.
Qed.

Lemma inv_emptyStorage : inv emptyStorage.
Proof.
  exact (conj (wellKeyed_empty _) (conj (wellKeyed_empty _)
           (conj (wellKeyed_empty _) (wellKeyed_empty _)))).
Qed.

Lemma inv_constructor now : inv (constructor now).
Proof. apply inv_createUser, inv_emptyStorage. Qed.

Lemma reachable_inv s : reachable s → inv s.
Proof. intros (now & calls & ->). apply inv_run, inv_constructor. Qed.

(** ** The counters never go back *)

Lemma countersLe_refl s : countersLe s s.
Proof. unfold countersLe. lia. Qed.

Lemma countersLe_trans s1 s2 s3 : countersLe s1 s2 → countersLe s2 s3 → countersLe s1 s3.
Proof. unfold countersLe. lia. Qed.

Lemma relates_bind {A B} (m : St A) (k : A → St B) :
  relates countersLe m → (∀ a, relates countersLe (k a)) → relates countersLe (m ≫= k).
Proof.
  intros Hm Hk s. unfold mbind, St_bind, bind.
  specialize (Hm s). destruct (m s) as [a s'] eqn:E. simpl in Hm.
  eapply countersLe_trans; [exact Hm | apply Hk].
Qed.

Lemma countersLe_seedDemoData now id : relates countersLe (seedDemoData now id).
Proof.
  unfold seedDemoData.
  repeat (apply relates_bind; [|intros ?]);
    try (intros s; unfold countersLe; simpl; lia).
Qed.

Lemma countersLe_createUser now insertUser : relates countersLe (createUser now insertUser).
Proof.
  intros s. unfold createUser.
  set (user := User.mk _ _ _ _ _ _).
  set (s1 := setUsers _ _).
  assert (countersLe s s1) as H1 by (unfold countersLe; simpl; lia).
  destruct (decide (userIdCounter s = 1)); [|exact H1].
  eapply countersLe_trans; [exact H1|].
  rewrite bind_ret_snd. apply countersLe_seedDemoData.
Qed.

Lemma countersLe_exec now c s : countersLe s (exec now c s).
Proof.
  destruct c; simpl; try apply countersLe_createUser;
    try (unfold countersLe; simpl; lia).
  - unfold updateUser. destruct (getUser id s); unfold countersLe; simpl; lia.
  - unfold updateGlucoseReading. destruct (getGlucoseReading id s); unfold countersLe; simpl; lia.
  - unfold updateMealPlan. destruct (getMealPlan id s); unfold countersLe; simpl; lia.
  - unfold updateNote. destruct (getNote id s); unfold countersLe; simpl; lia.
Qed.

Lemma countersLe_run calls s : countersLe s (run calls s).
Proof.
  unfold run. revert s. induction calls as [|[now c] calls IH]; intros s.
  - apply countersLe_refl.
  - simpl. eapply countersLe_trans; [apply countersLe_exec | apply IH].
Qed.

Lemma createUser_id now insertUser s :
  User.id (createUser now insertUser s).1 = userIdCounter s.
Proof.
  unfold createUser. destruct (decide (userIdCounter s = 1)); [|done].
  by rewrite bind_ret_fst.
Qed.

Lemma elem_ids_below {V} (idOf : V → Z) c (m : JsMap V) i :
  wellKeyed idOf c m → i ∈ idOf <$> JsMap.values m → i < c.
Proof. apply wellKeyed_below. Qed.

(** ** Identifiers (C9) *)

(** C9. In every reachable store the identifiers of each collection are
    pairwise distinct; an identifier that a record of a reachable store
    carries is smaller than the identifier any later create assigns,
    whatever calls (deletes included) come in between, so it is never
    assigned again; and a create files the new record under the identifier
    it returns. *)
Theorem identifiers_unique_and_never_reused :
  (∀ s, reachable s →
     NoDup (userIds s) ∧ NoDup (glucoseIds s) ∧ NoDup (mealPlanIds s) ∧ NoDup (noteIds s))
  ∧ (∀ s, reachable s → ∀ calls now i,
       (i ∈ userIds s → ∀ u, i < User.id (createUser now u (run calls s)).1)
       ∧ (i ∈ glucoseIds s →
          ∀ r, i < GlucoseReading.id (createGlucoseReading r (run calls s)).1)
       ∧ (i ∈ mealPlanIds s → ∀ p, i < MealPlan.id (createMealPlan now p (run calls s)).1)
       ∧ (i ∈ noteIds s → ∀ n, i < Note.id (createNote n (run calls s)).1))
  ∧ (∀ s now,
       (∀ u, let '(user, s') := createUser now u s in
             getUser (User.id user) s' = Some user)
       ∧ (∀ r, let '(reading, s') := createGlucoseReading r s in
               getGlucoseReading (GlucoseReading.id reading) s' = Some reading)
       ∧ (∀ p, let '(plan, s') := createMealPlan now p s in
               getMealPlan (MealPlan.id plan) s' = Some plan)
       ∧ (∀ n, let '(note, s') := createNote n s in
               getNote (Note.id note) s' = Some note)).
Proof.
  split; [|split].
  - intros s (Hu & Hg & Hm & Hn)%reachable_inv.
    repeat split; eapply wellKeyed_NoDup; eassumption.
  - intros s (Hu & Hg & Hm & Hn)%reachable_inv calls now i.
    destruct (countersLe_run calls s) as (Lu & Lg & Lm & Ln).
    repeat split.
    + intros Hi%(elem_ids_below _ _ _ _ Hu) u. rewrite createUser_id. lia.
    + intros Hi%(elem_ids_below _ _ _ _ Hg) r. simpl. lia.
    + intros Hi%(elem_ids_below _ _ _ _ Hm) p. simpl. lia.
    + intros Hi%(elem_ids_below _ _ _ _ Hn) n. simpl. lia.
  - intros s now. repeat split.
    + intros u. unfold createUser, getUser.
      destruct (decide (userIdCounter s = 1)); simpl; apply get_set_eq.
    + intros r. apply get_set_eq.
    + intros p. apply get_set_eq.
    + intros n. apply get_set_eq.
Qed.

Lemma identifiers_unique_and_never_reused_witness :
  NoDup (glucoseIds (run [(5, DeleteGlucoseReading 2)] (constructor 0)))
  ∧ 2 < GlucoseReading.id
          (createGlucoseReading (InsertGlucoseReading.mk 1 99 None "fasting" None)
             (run [(5, DeleteGlucoseReading 2)] (constructor 0))).1.
Proof.
  split.
  - exact (proj1 (proj2 (proj1 identifiers_unique_and_never_reused _
                           (ex_intro _ 0 (ex_intro _ [(5, DeleteGlucoseReading 2)] eq_refl))))).
  - exact (proj1 (proj2 (proj1 (proj2 identifiers_unique_and_never_reused) (constructor 0)
                           (ex_intro _ 0 (ex_intro _ [] eq_refl))
                           [(5, DeleteGlucoseReading 2)] 0 2))
             (list_elem_of_further _ _ _ (list_elem_of_here _ _))
             (InsertGlucoseReading.mk 1 99 None "fasting" None)).
Defined.

(** ** List queries (C4) *)

Lemma elem_sorted_filter {A} (P : A → Prop) `{!∀ x, Decision (P x)}
    (cmp : A → A → Z) (l : list A) x :
  x ∈ sortBy cmp (filter P l) → x ∈ l ∧ P x.
Proof. rewrite elem_sortBy, list_elem_of_filter. tauto. Qed.

Lemma elem_list_query {A} (P : A → Prop) `{!∀ x, Decision (P x)}
    (cmp : A → A → Z) (limit : option Z) (l : list A) x :
  x ∈ limited limit (sortBy cmp (filter P l)) → x ∈ l ∧ P x.
Proof. intros Hx%elem_limited. by eapply elem_sorted_filter. Qed.

(** C4. For distinct users [u1] and [u2] and every store (reachable or
    not), each list query for [u1] - glucose readings, with or without a
    date range, meal plans, with or without a meal type, and notes - returns
    only records stored in the collection whose owning-user id is [u1],
    hence none owned by [u2]. *)
Theorem list_queries_return_only_own_records
    (s : MemStorage) (u1 u2 : Z) (limit : option Z) (startDate endDate : Z)
    (mealType : string) :
  u1 ≠ u2 →
  (∀ r, r ∈ getGlucoseReadings u1 limit s →
        r ∈ JsMap.values (glucoseReadings s)
        ∧ GlucoseReading.userId r = u1 ∧ GlucoseReading.userId r ≠ u2)
  ∧ (∀ r, r ∈ getGlucoseReadingsByDateRange u1 startDate endDate s →
          r ∈ JsMap.values (glucoseReadings s)
          ∧ GlucoseReading.userId r = u1 ∧ GlucoseReading.userId r ≠ u2)
  ∧ (∀ p, p ∈ getMealPlans u1 limit s →
          p ∈ JsMap.values (mealPlans s)
          ∧ MealPlan.userId p = u1 ∧ MealPlan.userId p ≠ u2)
  ∧ (∀ p, p ∈ getMealPlansByType u1 mealType s →
          p ∈ JsMap.values (mealPlans s)
          ∧ MealPlan.userId p = u1 ∧ MealPlan.userId p ≠ u2)
  ∧ (∀ n, n ∈ getNotes u1 limit s →
          n ∈ JsMap.values (notes s)
          ∧ Note.userId n = u1 ∧ Note.userId n ≠ u2).
Proof.
  intros Hne.
  unfold getGlucoseReadings, getGlucoseReadingsByDateRange, getMealPlans,
    getMealPlansByType, getNotes.
  repeat apply conj.
  - intros r [Hin Hu]%elem_list_query. split; [done|]. split; congruence.
  - intros r [Hin [Hu _]]%elem_sorted_filter. split; [done|]. split; congruence.
  - intros p [Hin Hu]%elem_list_query. split; [done|]. split; congruence.
  - intros p [Hin [Hu _]]%elem_sorted_filter. split; [done|]. split; congruence.
  - intros n [Hin Hu]%elem_list_query. split; [done|]. split; congruence.
Qed.

Lemma list_queries_return_only_own_records_witness :
  Forall (λ r, r ∈ JsMap.values (glucoseReadings (constructor 0))
               ∧ GlucoseReading.userId r = 1 ∧ GlucoseReading.userId r ≠ 2)
    (getGlucoseReadings 1 (Some 2) (constructor 0)).
Proof.
  apply Forall_forall.
  apply (list_queries_return_only_own_records (constructor 0) 1 2 (Some 2) 0 0 "dinner").
  lia.
Defined.

(** ** Delete (C6) *)

Lemma setGlucoseReadings_same s : setGlucoseReadings (glucoseReadings s) s = s.
Proof. by destruct s. Qed.
Lemma setMealPlans_same s : setMealPlans (mealPlans s) s = s.
Proof. by destruct s. Qed.
Lemma setNotes_same s : setNotes (notes s) s = s.
Proof. by destruct s. Qed.

(** C6. For glucose readings, meal plans and notes alike, in every store
    and for every id: after a delete of the id a get by that id finds
    nothing - in particular after a delete that answered [true]; the delete
    answers [true] exactly when a record was stored under the id, which it
    thereby removes; and a delete of an id that has no record answers
    [false] (it is a total function: it raises nothing) and leaves the
    store as it was. *)
Theorem delete_then_get_absent (s : MemStorage) (id : Z) :
  (getGlucoseReading id (deleteGlucoseReading id s).2 = None
   ∧ ((deleteGlucoseReading id s).1 = true ↔ is_Some (getGlucoseReading id s))
   ∧ (∀ s', deleteGlucoseReading id s = (true, s') → getGlucoseReading id s' = None)
   ∧ (getGlucoseReading id s = None → deleteGlucoseReading id s = (false, s)))
  ∧ (getMealPlan id (deleteMealPlan id s).2 = None
     ∧ ((deleteMealPlan id s).1 = true ↔ is_Some (getMealPlan id s))
     ∧ (∀ s', deleteMealPlan id s = (true, s') → getMealPlan id s' = None)
     ∧ (getMealPlan id s = None → deleteMealPlan id s = (false, s)))
  ∧ (getNote id (deleteNote id s).2 = None
     ∧ ((deleteNote id s).1 = true ↔ is_Some (getNote id s))
     ∧ (∀ s', deleteNote id s = (true, s') → getNote id s' = None)
     ∧ (getNote id s = None → deleteNote id s = (false, s))).
Proof.
  split; [|split]; (split; [|split; [|split]]).
  - apply (get_delete_eq id (glucoseReadings s)).
  - apply (delete_found id (glucoseReadings s)).
  - intros s' [= _ <-]. apply (get_delete_eq id (glucoseReadings s)).
  - intros Hnone. unfold deleteGlucoseReading, getGlucoseReading in *.
    by rewrite (delete_absent _ _ Hnone), setGlucoseReadings_same.
  - apply (get_delete_eq id (mealPlans s)).
  - apply (delete_found id (mealPlans s)).
  - intros s' [= _ <-]. apply (get_delete_eq id (mealPlans s)).
  - intros Hnone. unfold deleteMealPlan, getMealPlan in *.
    by rewrite (delete_absent _ _ Hnone), setMealPlans_same.
  - apply (get_delete_eq id (notes s)).
  - apply (delete_found id (notes s)).
  - intros s' [= _ <-]. apply (get_delete_eq id (notes s)).
  - intros Hnone. unfold deleteNote, getNote in *.
    by rewrite (delete_absent _ _ Hnone), setNotes_same.
Qed.

Lemma delete_then_get_absent_witness :
  (is_Some (getMealPlan 2 (constructor 0))
   ∧ (deleteMealPlan 2 (constructor 0)).1 = true
   ∧ getMealPlan 2 (deleteMealPlan 2 (constructor 0)).2 = None)
  ∧ deleteNote 7 (constructor 0) = (false, constructor 0).
Proof.
  split.
  - assert (is_Some (getMealPlan 2 (constructor 0))) as Hget by (vm_compute; by eexists).
    destruct (delete_then_get_absent (constructor 0) 2) as (_ & (Hnone & Hfound & _) & _).
    split; [exact Hget|]. split; [exact (proj2 Hfound Hget) | exact Hnone].
  - assert (getNote 7 (constructor 0) = None) as Hget by reflexivity.
    destruct (delete_then_get_absent (constructor 0) 7) as (_ & _ & _ & _ & _ & Habsent).
    exact (Habsent Hget).
Defined.

(** ** Update (C10) *)

Lemma fieldAfter_spread {A} (existing : A) (update : option A) :
  fieldAfter existing update (spread existing update).
Proof. by destruct update. Qed.

#[local] Hint Resolve fieldAfter_spread : core.

(** C10. For users, glucose readings, meal plans and notes alike: an
    update of an existing record returns, and stores under the same id, a
    record with the same [id] (and, for a meal plan, the same [createdAt])
    in which every field the update supplies has the supplied value and
    every other field has the value it had; every other record of the
    collection, and every other collection, is as it was. *)
Theorem update_changes_only_supplied_fields :
  (∀ s id update existing,
     getUser id s = Some existing →
     ∃ updated s',
       updateUser id update s = (Some updated, s')
       ∧ User.id updated = User.id existing
       ∧ fieldAfter (User.username existing) (PartialUser.username update) (User.username updated)
       ∧ fieldAfter (User.email existing) (PartialUser.email update) (User.email updated)
       ∧ fieldAfter (User.password existing) (PartialUser.password update) (User.password updated)
       ∧ fieldAfter (User.name existing) (PartialUser.name update) (User.name updated)
       ∧ fieldAfter (User.allergies existing) (PartialUser.allergies update)
           (User.allergies updated)
       ∧ getUser id s' = Some updated
       ∧ (∀ id', id' ≠ id → getUser id' s' = getUser id' s)
       ∧ glucoseReadings s' = glucoseReadings s
       ∧ mealPlans s' = mealPlans s
       ∧ notes s' = notes s)
  ∧
  (∀ s id update existing,
     getGlucoseReading id s = Some existing →
     ∃ updated s',
       updateGlucoseReading id update s = (Some updated, s')
       ∧ GlucoseReading.id updated = GlucoseReading.id existing
       ∧ fieldAfter (GlucoseReading.userId existing) (PartialGlucoseReading.userId update)
           (GlucoseReading.userId updated)
       ∧ fieldAfter (GlucoseReading.value existing) (PartialGlucoseReading.value update)
           (GlucoseReading.value updated)
       ∧ fieldAfter (GlucoseReading.timestamp existing) (PartialGlucoseReading.timestamp update)
           (GlucoseReading.timestamp updated)
       ∧ fieldAfter (GlucoseReading.type existing) (PartialGlucoseReading.type update)
           (GlucoseReading.type updated)
       ∧ fieldAfter (GlucoseReading.note existing) (PartialGlucoseReading.note update)
           (GlucoseReading.note updated)
       ∧ getGlucoseReading id s' = Some updated
       ∧ (∀ id', id' ≠ id → getGlucoseReading id' s' = getGlucoseReading id' s)
       ∧ users s' = users s
       ∧ mealPlans s' = mealPlans s
       ∧ notes s' = notes s)
  ∧
  (∀ s id update existing,
     getMealPlan id s = Some existing →
     ∃ updated s',
       updateMealPlan id update s = (Some updated, s')
       ∧ MealPlan.id updated = MealPlan.id existing
       ∧ MealPlan.createdAt updated = MealPlan.createdAt existing
       ∧ fieldAfter (MealPlan.userId existing) (PartialMealPlan.userId update)
           (MealPlan.userId updated)
       ∧ fieldAfter (MealPlan.name existing) (PartialMealPlan.name update) (MealPlan.name updated)
       ∧ fieldAfter (MealPlan.description existing) (PartialMealPlan.description update)
           (MealPlan.description updated)
       ∧ fieldAfter (MealPlan.mealType existing) (PartialMealPlan.mealType update)
           (MealPlan.mealType updated)
       ∧ fieldAfter (MealPlan.imageUrl existing) (PartialMealPlan.imageUrl update)
           (MealPlan.imageUrl updated)
       ∧ fieldAfter (MealPlan.carbs existing) (PartialMealPlan.carbs update)
           (MealPlan.carbs updated)
       ∧ fieldAfter (MealPlan.servings existing) (PartialMealPlan.servings update)
           (MealPlan.servings updated)
       ∧ fieldAfter (MealPlan.prepTime existing) (PartialMealPlan.prepTime update)
           (MealPlan.prepTime updated)
       ∧ fieldAfter (MealPlan.tags existing) (PartialMealPlan.tags update) (MealPlan.tags updated)
       ∧ fieldAfter (MealPlan.ingredients existing) (PartialMealPlan.ingredients update)
           (MealPlan.ingredients updated)
       ∧ fieldAfter (MealPlan.instructions existing) (PartialMealPlan.instructions update)
           (MealPlan.instructions updated)
       ∧ getMealPlan id s' = Some updated
       ∧ (∀ id', id' ≠ id → getMealPlan id' s' = getMealPlan id' s)
       ∧ users s' = users s
       ∧ glucoseReadings s' = glucoseReadings s
       ∧ notes s' = notes s)
  ∧
  (∀ s id update existing,
     getNote id s = Some existing →
     ∃ updated s',
       updateNote id update s = (Some updated, s')
       ∧ Note.id updated = Note.id existing
       ∧ fieldAfter (Note.userId existing) (PartialNote.userId update) (Note.userId updated)
       ∧ fieldAfter (Note.title existing) (PartialNote.title update) (Note.title updated)
       ∧ fieldAfter (Note.content existing) (PartialNote.content update) (Note.content updated)
       ∧ fieldAfter (Note.timestamp existing) (PartialNote.timestamp update)
           (Note.timestamp updated)
       ∧ fieldAfter (Note.category existing) (PartialNote.category update) (Note.category updated)
       ∧ getNote id s' = Some updated
       ∧ (∀ id', id' ≠ id → getNote id' s' = getNote id' s)
       ∧ users s' = users s
       ∧ glucoseReadings s' = glucoseReadings s
       ∧ mealPlans s' = mealPlans s).
Proof.
  repeat apply conj; intros s id update existing Hget;
    [ unfold updateUser | unfold updateGlucoseReading
    | unfold updateMealPlan | unfold updateNote ];
    rewrite Hget; eexists _, _; (split; [reflexivity|]); simpl;
    repeat (split; [by auto|]);
    (split; [apply get_set_eq|]); (split; [|done]);
    intros id' Hne; by apply get_set_ne.
Qed.

Lemma update_changes_only_supplied_fields_witness :
  ∃ updated s',
    updateGlucoseReading 1
      (PartialGlucoseReading.mk None (Some 120) None None None) (constructor 0)
    = (Some updated, s')
    ∧ GlucoseReading.value updated = 120
    ∧ GlucoseReading.note updated = Some "Normal reading"
    ∧ getGlucoseReading 2 s' = getGlucoseReading 2 (constructor 0).
Proof.
  destruct (proj1 (proj2 update_changes_only_supplied_fields) (constructor 0) 1
              (PartialGlucoseReading.mk None (Some 120) None None None)
              (GlucoseReading.mk 1 1 118 (Some 0) "before_breakfast" (Some "Normal reading"))
              eq_refl)
    as (updated & s' & Hupd & _ & _ & Hvalue & _ & _ & Hnote & _ & Hothers & _).
  exists updated, s'. split; [exact Hupd|]. split; [exact Hvalue|].
  split; [exact Hnote|]. apply Hothers. lia.
Defined.

(** ** The timestamp of a new reading (C3) *)

(** C3 (what the code does where the claim asks for the creation time). A
    glucose reading created from an input without [timestamp] is returned,
    and stored, without one: [createGlucoseReading] copies the input and
    adds the id, it reads no clock. *)
Theorem createGlucoseReading_leaves_timestamp_missing
    (s : MemStorage) (userId value : Z) (type : string) (note : option string) :
  let '(reading, s') :=
    createGlucoseReading (InsertGlucoseReading.mk userId value None type note) s in
  GlucoseReading.timestamp reading = None
  ∧ getGlucoseReading (GlucoseReading.id reading) s' = Some reading.
Proof. simpl. split; [done|]. apply get_set_eq. Qed.

(** The same through the HTTP layer, for the body
    [{value: 118, type: "before_breakfast"}] posted by the demo user to the
    freshly constructed store at any time [now]. *)
Lemma post_api_glucose_without_timestamp (now : Z) :
  (post_api_glucose {[ "value" := VNum 118; "type" := VStr "before_breakfast" ]}
     (Some 1) (constructor now)).1
  = mkResponse 201
      (JsonReading (Some (GlucoseReading.mk 5 1 118 None "before_breakfast" None))).
Proof. reflexivity. Qed.

(** The sibling [createMealPlan] does fill its missing [createdAt] with the
    creation time. *)
Lemma createMealPlan_defaults_createdAt (now : Z) (plan : InsertMealPlan.t) (s : MemStorage) :
  InsertMealPlan.createdAt plan = None →
  MealPlan.createdAt (createMealPlan now plan s).1 = now.
Proof. intros H. simpl. by rewrite H. Qed.

(** ** Ownership (C5) *)

Lemma target_Some {A} (get : Z → MemStorage → option A) id s r :
  get id s = Some r → target get (Some id) s = Some (id, r).
Proof. intros H. unfold target. simpl. by rewrite H. Qed.

Lemma target_None {A} (get : Z → MemStorage → option A) id s :
  (∀ i, id = Some i → get i s = None) → target get id s = None.
Proof.
  intros H. unfold target. destruct id as [i|]; [|done]. simpl. by rewrite (H i).
Qed.

(** The steps the six handlers share up to their ownership check. *)
Ltac forbidden Hreq Hget Howner :=
  unfold ensureAuthenticated; rewrite Hreq; cbv beta;
  rewrite (target_Some _ _ _ _ Hget); cbv beta iota zeta;
  by rewrite decide_True.

(** C5. A session authenticated as [user] that asks to update or delete an
    existing glucose reading, meal plan or note whose owning-user id is not
    [user]'s id is answered 403 (not the 404 of a missing record), whatever
    the body, and the store - the targeted record included - is left as it
    was. *)
Theorem foreign_update_or_delete_is_forbidden
    (s : MemStorage) (session : Session) (user : User.t) (id : Z)
    (reqBody : gmap string JsValue) :
  reqUser session s = Some user →
  (∀ reading,
     getGlucoseReading id s = Some reading →
     GlucoseReading.userId reading ≠ User.id user →
     put_api_glucose_id (Some id) reqBody session s
     = (mkResponse 403 (JsonMessage "Not authorized to update this reading"), s)
     ∧ delete_api_glucose_id (Some id) session s
       = (mkResponse 403 (JsonMessage "Not authorized to delete this reading"), s))
  ∧ (∀ plan,
       getMealPlan id s = Some plan →
       MealPlan.userId plan ≠ User.id user →
       put_api_meal_plans_id (Some id) reqBody session s
       = (mkResponse 403 (JsonMessage "Not authorized to update this meal plan"), s)
       ∧ delete_api_meal_plans_id (Some id) session s
         = (mkResponse 403 (JsonMessage "Not authorized to delete this meal plan"), s))
  ∧ (∀ note,
       getNote id s = Some note →
       Note.userId note ≠ User.id user →
       put_api_notes_id (Some id) reqBody session s
       = (mkResponse 403 (JsonMessage "Not authorized to update this note"), s)
       ∧ delete_api_notes_id (Some id) session s
         = (mkResponse 403 (JsonMessage "Not authorized to delete this note"), s)).
Proof.
  intros Hreq. repeat apply conj; intros r Hget Howner; split.
  - unfold put_api_glucose_id. forbidden Hreq Hget Howner.
  - unfold delete_api_glucose_id. forbidden Hreq Hget Howner.
  - unfold put_api_meal_plans_id. forbidden Hreq Hget Howner.
  - unfold delete_api_meal_plans_id. forbidden Hreq Hget Howner.
  - unfold put_api_notes_id. forbidden Hreq Hget Howner.
  - unfold delete_api_notes_id. forbidden Hreq Hget Howner.
Qed.

Lemma foreign_update_or_delete_is_forbidden_witness :
  let s := run [(1, CreateUser alice)] (constructor 0) in
  put_api_glucose_id (Some 1) {[ "value" := VNum 50 ]} (Some 2) s
  = (mkResponse 403 (JsonMessage "Not authorized to update this reading"), s)
  ∧ delete_api_glucose_id (Some 1) (Some 2) s
    = (mkResponse 403 (JsonMessage "Not authorized to delete this reading"), s).
Proof.
  apply (proj1 (foreign_update_or_delete_is_forbidden
                  (run [(1, CreateUser alice)] (constructor 0)) (Some 2)
                  (User.mk 2 "alice" "alice@example.com" "wonderland" None None)
                  1 {[ "value" := VNum 50 ]} eq_refl)
           (GlucoseReading.mk 1 1 118 (Some 0) "before_breakfast" (Some "Normal reading"))).
  - reflexivity.
  - simpl. lia.
Defined.

(** A missing record is the 404 case, and an unauthenticated request the
    401 one; neither touches the store. *)
Lemma put_api_glucose_id_not_found s session user id reqBody :
  reqUser session s = Some user →
  (∀ i, id = Some i → getGlucoseReading i s = None) →
  put_api_glucose_id id reqBody session s
  = (mkResponse 404 (JsonMessage "Reading not found"), s).
Proof.
  intros Hreq Hnone. unfold put_api_glucose_id, ensureAuthenticated.
  rewrite Hreq. cbv beta. by rewrite (target_None _ _ _ Hnone).
Qed.

Lemma put_api_glucose_id_unauthenticated s session id reqBody :
  reqUser session s = None →
  put_api_glucose_id id reqBody session s
  = (mkResponse 401 (JsonMessage "Not authenticated"), s).
Proof. intros Hreq. unfold put_api_glucose_id, ensureAuthenticated. by rewrite Hreq. Qed.

(** ** Registration (C2) *)

(** C2, refuted as stated: in the program's initial state the constructor
    has already created the user [demo], so the scenario's registration is
    answered 400 "Username already taken"; no session is bound and the
    store is as it was. *)
Lemma register_demo_is_rejected_initially :
  post_api_auth_register 1 demoRegistration None (constructor 0)
  = ((mkResponse 400 (JsonMessage "Username already taken"), None), constructor 0).
Proof. vm_compute. reflexivity. Qed.

Lemma createUser_returns now insertUser s :
  (createUser now insertUser s).1
  = User.mk (userIdCounter s)
      (InsertUser.username insertUser) (InsertUser.email insertUser)
      (InsertUser.password insertUser) (InsertUser.name insertUser)
      (InsertUser.allergies insertUser).
Proof.
  unfold createUser. destruct (decide (userIdCounter s = 1)); [|done].
  by rewrite bind_ret_fst.
Qed.

Lemma createUser_stored now insertUser s :
  let '(user, s') := createUser now insertUser s in
  getUser (User.id user) s' = Some user.
Proof.
  unfold createUser, getUser.
  destruct (decide (userIdCounter s = 1)); simpl; apply get_set_eq.
Qed.

Lemma users_constructor now :
  users (constructor now)
  = [(1, User.mk 1 "demo" "demo@example.com" "password123" (Some "John Doe")
           (Some ["peanuts"; "shellfish"]))].
Proof. reflexivity. Qed.

Lemma getUserByUsername_demo now :
  getUserByUsername "demo" (constructor now)
  = Some (User.mk 1 "demo" "demo@example.com" "password123" (Some "John Doe")
            (Some ["peanuts"; "shellfish"])).
Proof. unfold getUserByUsername. rewrite users_constructor. vm_compute. reflexivity. Qed.

Lemma registerSchema_demo :
  registerSchema demoRegistration
  = Valid (mkRegisterData
             (InsertUser.mk "demo" "demo@example.com" "password123" None None)
             "password123").
Proof. vm_compute. reflexivity. Qed.

(** C2, amended. From the initial state, at any time, the scenario's
    registration is rejected with 400 "Username already taken" and changes
    nothing. A registration that passes validation and whose username and
    email match no stored user is answered 201 with the new user, without
    its password, under the next user id; the session is bound to that id
    and the user is stored. *)
Theorem register_succeeds_unless_taken :
  (∀ now now' session,
     post_api_auth_register now' demoRegistration session (constructor now)
     = ((mkResponse 400 (JsonMessage "Username already taken"), session), constructor now))
  ∧ (∀ s now session reqBody data,
       registerSchema reqBody = Valid data →
       getUserByUsername (InsertUser.username (reg_user data)) s = None →
       getUserByEmail (InsertUser.email (reg_user data)) s = None →
       let user :=
         User.mk (userIdCounter s)
           (InsertUser.username (reg_user data)) (InsertUser.email (reg_user data))
           (InsertUser.password (reg_user data)) (InsertUser.name (reg_user data))
           (InsertUser.allergies (reg_user data)) in
       let '((res, session'), s') := post_api_auth_register now reqBody session s in
       res = mkResponse 201 (JsonUser (userWithoutPassword user))
       ∧ session' = Some (userIdCounter s)
       ∧ getUser (userIdCounter s) s' = Some user).
Proof.
  split.
  - intros now now' session. unfold post_api_auth_register.
    rewrite registerSchema_demo. cbv beta iota zeta.
    simpl reg_user. simpl InsertUser.username.
    by rewrite getUserByUsername_demo.
  - intros s now session reqBody data Hvalid Hname Hemail user.
    unfold post_api_auth_register. rewrite Hvalid, Hname, Hemail.
    pose proof (createUser_stored now (reg_user data) s) as Hstored.
    pose proof (createUser_returns now (reg_user data) s) as Hret.
    destruct (createUser now (reg_user data) s) as [newUser s'].
    simpl in Hret. subst newUser. done.
Qed.

Lemma register_succeeds_unless_taken_witness :
  let '((res, session'), s') :=
    post_api_auth_register 1 aliceRegistration None (constructor 0) in
  res = mkResponse 201
          (JsonUser (mkUserWithoutPassword 2 "alice" "alice@example.com" None None))
  ∧ session' = Some 2
  ∧ getUser 2 s' = Some (User.mk 2 "alice" "alice@example.com" "wonderland" None None).
Proof.
  exact (proj2 register_succeeds_unless_taken (constructor 0) 1 None aliceRegistration
           (mkRegisterData alice "wonderland")
           ltac:(vm_compute; reflexivity) ltac:(vm_compute; reflexivity)
           ltac:(vm_compute; reflexivity)).
Defined.

(** ** Validation of a new reading's value (C1) *)

(** C1, refuted as stated: the demo user posts a reading of 10 mg/dL, and
    one of 700 mg/dL, to the freshly constructed store; each is answered
    201 and stored. *)
Lemma post_api_glucose_accepts_values_outside_20_600 :
  let low := {[ "value" := VNum 10; "type" := VStr "fasting" ]} in
  let high := {[ "value" := VNum 700; "type" := VStr "fasting" ]} in
  let stored v := GlucoseReading.mk 5 1 v None "fasting" None in
  (post_api_glucose low (Some 1) (constructor 0)).1
  = mkResponse 201 (JsonReading (Some (stored 10)))
  ∧ getGlucoseReading 5 (post_api_glucose low (Some 1) (constructor 0)).2 = Some (stored 10)
  ∧ (post_api_glucose high (Some 1) (constructor 0)).1
    = mkResponse 201 (JsonReading (Some (stored 700)))
  ∧ getGlucoseReading 5 (post_api_glucose high (Some 1) (constructor 0)).2
    = Some (stored 700).
Proof. vm_compute. done. Qed.

Lemma getProp_userId_other (reqBody : gmap string JsValue) (v : JsValue) (key : string) :
  key ≠ "userId" → getProp (<["userId" := v]> reqBody) key = getProp reqBody key.
Proof. intros Hne. unfold getProp. by rewrite lookup_insert_ne. Qed.

Lemma getProp_userId (reqBody : gmap string JsValue) (v : JsValue) :
  getProp (<["userId" := v]> reqBody) "userId" = v.
Proof. unfold getProp. by rewrite lookup_insert_eq. Qed.

(** C1, amended. The server checks the [value] of a glucose-reading create
    request only as a 32-bit integer. From an authenticated session a
    request whose value is missing or is no such integer is rejected with
    400, [value] among the failing fields, and nothing is stored; every
    32-bit integer [v], inside [20,600] or not, passes, and with a string
    [type], a valid or missing [note] and no [timestamp] the reading is
    stored under the next id and returned with 201. *)
Theorem post_api_glucose_checks_value_as_integer_only
    (s : MemStorage) (session : Session) (user : User.t)
    (reqBody : gmap string JsValue) :
  reqUser session s = Some user →
  (zInteger (getProp reqBody "value") = None →
   ∃ fields, "value" ∈ fields
     ∧ post_api_glucose reqBody session s = (invalidRequest fields, s))
  ∧ (∀ v type note,
       -2147483648 ≤ v ≤ 2147483647 →
       -2147483648 ≤ User.id user ≤ 2147483647 →
       reqBody !! "value" = Some (VNum v) →
       reqBody !! "type" = Some (VStr type) →
       reqBody !! "timestamp" = None →
       zNullish zString (getProp reqBody "note") = Some note →
       let reading :=
         GlucoseReading.mk (glucoseIdCounter s) (User.id user) v None type note in
       let '(res, s') := post_api_glucose reqBody session s in
       res = mkResponse 201 (JsonReading (Some reading))
       ∧ getGlucoseReading (glucoseIdCounter s) s' = Some reading).
Proof.
  intros Hreq. unfold post_api_glucose, ensureAuthenticated. rewrite Hreq.
  cbv beta. unfold insertGlucoseReadingSchema.
  rewrite getProp_userId, !getProp_userId_other by done.
  split.
  - intros Hvalue. rewrite Hvalue.
    exists (issue "userId" (zInteger (VNum (User.id user))) ++ issue "value" (@None Z)
            ++ issue "timestamp" (zOptional zDate (getProp reqBody "timestamp"))
            ++ issue "type" (zString (getProp reqBody "type"))
            ++ issue "note" (zNullish zString (getProp reqBody "note"))).
    split; [|by destruct (zInteger (VNum (User.id user)))].
    rewrite !elem_of_app. right. left. apply list_elem_of_here.
  - intros v type note Hv Hid Hvalue Htype Htime Hnote. cbv zeta.
    unfold getProp in *. rewrite Hvalue, Htype, Htime, Hnote. simpl.
    rewrite !decide_True by done. simpl.
    split; [done|]. apply get_set_eq.
Qed.

Lemma post_api_glucose_checks_value_as_integer_only_witness :
  (∃ fields, "value" ∈ fields
     ∧ post_api_glucose {[ "value" := VStr "high"; "type" := VStr "fasting" ]}
         (Some 1) (constructor 0)
       = (invalidRequest fields, constructor 0))
  ∧ (let '(res, s') :=
       post_api_glucose {[ "value" := VNum 19; "type" := VStr "fasting" ]}
         (Some 1) (constructor 0) in
     res = mkResponse 201
             (JsonReading (Some (GlucoseReading.mk 5 1 19 None "fasting" None)))
     ∧ getGlucoseReading 5 s'
       = Some (GlucoseReading.mk 5 1 19 None "fasting" None)).
Proof.
  split.
  - apply (proj1 (post_api_glucose_checks_value_as_integer_only (constructor 0) (Some 1)
                    (User.mk 1 "demo" "demo@example.com" "password123" (Some "John Doe")
                       (Some ["peanuts"; "shellfish"]))
                    {[ "value" := VStr "high"; "type" := VStr "fasting" ]} eq_refl)).
    reflexivity.
  - apply (proj2 (post_api_glucose_checks_value_as_integer_only (constructor 0) (Some 1)
                    (User.mk 1 "demo" "demo@example.com" "password123" (Some "John Doe")
                       (Some ["peanuts"; "shellfish"]))
                    {[ "value" := VNum 19; "type" := VStr "fasting" ]} eq_refl)
             19 "fasting" None);
      first [ simpl; lia | vm_compute; reflexivity ].
Defined.

(** ** The generation adapter (C7, C8) *)

Lemma existsb_false {A} (f : A → bool) (l : list A) :
  existsb f l = false → ∀ x, x ∈ l → f x = false.
Proof.
  induction l as [|y l IH]; simpl.
  - intros _ x Hx. by apply elem_of_nil in Hx.
  - intros [Hy Hl]%orb_false_elim x [->|Hx]%elem_of_cons; auto.
Qed.

Lemma allergyFilter_free (allergies ingredients : list string) :
  Forall (allergyFree allergies) (allergyFilter allergies ingredients).
Proof.
  apply Forall_forall. intros ingredient [Hkept _]%list_elem_of_filter allergy Hin.
  by apply (existsb_false _ _ Hkept).
Qed.

(** The filter drops nothing else: an ingredient free of the allergies stays. *)
Lemma allergyFilter_keeps (allergies ingredients : list string) (ingredient : string) :
  ingredient ∈ ingredients → allergyFree allergies ingredient →
  ingredient ∈ allergyFilter allergies ingredients.
Proof.
  intros Hin Hfree. apply list_elem_of_filter. split; [|done].
  destruct (existsb _ allergies) eqn:E; [|done].
  apply existsb_exists in E as (allergy & Ha%list_elem_of_In & Hinc).
  by rewrite (Hfree allergy Ha) in Hinc.
Qed.

Lemma getSampleMealPlan_cases (mealType : string) (allergies : list string) :
  getSampleMealPlan mealType allergies
  ∈ [Sample (sampleBreakfast allergies); Sample (sampleLunch allergies);
     Sample (sampleDinner allergies); Sample (sampleSnack allergies)]
  ∨ (mealType ∈ objectPrototypeKeys
     ∧ getSampleMealPlan mealType allergies = PrototypeMember mealType).
Proof.
  unfold getSampleMealPlan, literalGet, samples, assoc.
  repeat case_decide;
    first [ by right
          | left; repeat first [apply list_elem_of_here | apply list_elem_of_further] ].
Qed.

Lemma generateMealPlan_try_cases env mealType allergies v :
  generateMealPlan_try env mealType allergies = Normal v →
  v = getSampleMealPlan mealType allergies
  ∨ ∃ mealPlan imageUrl, v = Generated mealPlan imageUrl.
Proof.
  unfold generateMealPlan_try, mbind, Completion_bind.
  intros H. repeat (case_match; simplify_eq/=); eauto.
Qed.

Lemma generateMealPlan_cases env mealType allergies :
  ∃ v, generateMealPlan env mealType allergies = Normal v
       ∧ (v = getSampleMealPlan mealType allergies
          ∨ ∃ mealPlan imageUrl, v = Generated mealPlan imageUrl).
Proof.
  unfold generateMealPlan, tryCatch.
  destruct (generateMealPlan_try env mealType allergies) as [v|e] eqn:Htry.
  - exists v. split; [done|]. by eapply generateMealPlan_try_cases.
  - eexists. split; [done|]. by left.
Qed.

Lemma sample_ingredients_free mealType allergies plan :
  getSampleMealPlan mealType allergies = Sample plan →
  Forall (allergyFree allergies) (mp_ingredients plan).
Proof.
  intros Hplan. destruct (getSampleMealPlan_cases mealType allergies) as [Hin|[_ Hp]];
    [|congruence].
  rewrite Hplan in Hin.
  repeat (apply elem_of_cons in Hin as [[= ->]|Hin]; [apply allergyFilter_free|]).
  by apply elem_of_nil in Hin.
Qed.

Lemma sample_is_plan mealType allergies :
  mealType ∉ objectPrototypeKeys → ∃ plan, getSampleMealPlan mealType allergies = Sample plan.
Proof.
  intros Hown. destruct (getSampleMealPlan_cases mealType allergies) as [Hin|[? _]];
    [|done].
  repeat (apply elem_of_cons in Hin as [->|Hin]; [by eexists|]).
  by apply elem_of_nil in Hin.
Qed.

(** C7. For every meal type (any string) and every allergy list: in a
    sample plan that [getSampleMealPlan] returns, and in a sample plan that
    the adapter [generateMealPlan] returns in any world, no ingredient
    contains an element of the allergy list as a case-insensitive
    substring; and a sample plan is what [getSampleMealPlan] returns for
    the four meal types (for every string but the names of
    [Object.prototype]'s members). *)
Theorem fallback_ingredients_are_allergy_free (mealType : string) (allergies : list string) :
  (∀ plan, getSampleMealPlan mealType allergies = Sample plan →
           Forall (allergyFree allergies) (mp_ingredients plan))
  ∧ (∀ env plan, generateMealPlan env mealType allergies = Normal (Sample plan) →
                 Forall (allergyFree allergies) (mp_ingredients plan))
  ∧ (mealType ∉ objectPrototypeKeys →
     ∃ plan, getSampleMealPlan mealType allergies = Sample plan).
Proof.
  split; [apply sample_ingredients_free|]. split; [|apply sample_is_plan].
  intros env plan Hgen.
  destruct (generateMealPlan_cases env mealType allergies) as (v & Hv & [->|(? & ? & ->)]);
    rewrite Hgen in Hv; simplify_eq.
  by eapply sample_ingredients_free.
Qed.

Lemma fallback_ingredients_are_allergy_free_witness :
  Forall (allergyFree ["ALMOND"; "peanuts"])
    ["Greek yogurt"; "Mixed berries"; "Honey"; "Cinnamon"].
Proof.
  apply (proj1 (proj2 (fallback_ingredients_are_allergy_free "breakfast" ["ALMOND"; "peanuts"]))
           networkDown
           (mkMealPlanResponse "Greek Yogurt Breakfast Bowl"
              "High protein breakfast with berries, nuts, and a touch of honey."
              "breakfast"
              (Some "https://images.unsplash.com/photo-1623428187969-5da2dcea5ebf")
              18 1 10 ["Breakfast"; "High Protein"]
              ["Greek yogurt"; "Mixed berries"; "Honey"; "Cinnamon"]
              ["Add yogurt to a bowl"; "Top with berries, nuts and a drizzle of honey";
               "Sprinkle with cinnamon"])).
  vm_compute. reflexivity.
Defined.





(** A reply without [choices] makes the [try] block throw, and the adapter
    answers with the sample; a reply that parses to an object is handed
    back with an image of the meal type. *)
Lemma generateMealPlan_examples :
  generateMealPlan
    (mkEnv (Some "sk-test") (λ _ _ _, Responded true (Some (VObj ∅))) (λ _, None) 0)
    "lunch" []
  = Normal (Sample (sampleLunch []))
  ∧ generateMealPlan answering "snack" ["sesame"]
    = Normal (Generated (VObj ∅)
                (Some "https://images.unsplash.com/photo-1624300629298-e9de39c13be6"))
  ∧ generateMealPlan answering "brunch" []
    = Normal (Sample (sampleSnack []))
  ∧ generateMealPlan noKey "toString" [] = Normal (PrototypeMember "toString").
Proof. vm_compute. done. Qed.

(** * Further properties of the store *)

Lemma find_Some_elem {A} (p : A → bool) (l : list A) x :
  find p l = Some x → x ∈ l ∧ p x = true.
Proof.
  induction l as [|y l IH]; simpl; [done|].
  destruct (p y) eqn:Hy.
  - intros [= ->]. split; [apply list_elem_of_here | done].
  - intros [Hin Hp]%IH. split; [by apply list_elem_of_further | done].
Qed.

Lemma find_None_all {A} (p : A → bool) (l : list A) :
  find p l = None → ∀ x, x ∈ l → p x = false.
Proof.
  induction l as [|y l IH]; simpl.
  - intros _ x Hx. by apply elem_of_nil in Hx.
  - destruct (p y) eqn:Hy; [done|].
    intros Hnone x [->|Hx]%elem_of_cons; [done | by apply IH].
Qed.

(** X1. A lookup of a user by name, or by e-mail address, compares without
    regard to case: what it finds is a stored user whose name (address)
    equals the wanted one once both are lower-cased, it finds nothing only
    when no stored user is such, and two spellings of one name (address)
    give the same answer. *)
Theorem user_lookup_ignores_case (s : MemStorage) (wanted : string) :
  match getUserByUsername wanted s with
  | Some user => user ∈ JsMap.values (users s)
                 ∧ toLowerCase (User.username user) = toLowerCase wanted
  | None => ∀ user, user ∈ JsMap.values (users s) →
                    toLowerCase (User.username user) ≠ toLowerCase wanted
  end
  ∧ match getUserByEmail wanted s with
    | Some user => user ∈ JsMap.values (users s)
                   ∧ toLowerCase (User.email user) = toLowerCase wanted
    | None => ∀ user, user ∈ JsMap.values (users s) →
                      toLowerCase (User.email user) ≠ toLowerCase wanted
    end
  ∧ ∀ other, toLowerCase other = toLowerCase wanted →
             getUserByUsername other s = getUserByUsername wanted s
             ∧ getUserByEmail other s = getUserByEmail wanted s.
Proof.
  unfold getUserByUsername, getUserByEmail, strictEq. repeat apply conj.
  - destruct (find _ _) as [user|] eqn:Hfind.
    + apply find_Some_elem in Hfind as [Hin Heq]. split; [done|].
      by apply bool_decide_eq_true in Heq.
    + intros user Hin. apply (find_None_all _ _ Hfind) in Hin.
      by apply bool_decide_eq_false in Hin.
  - destruct (find _ _) as [user|] eqn:Hfind.
    + apply find_Some_elem in Hfind as [Hin Heq]. split; [done|].
      by apply bool_decide_eq_true in Heq.
    + intros user Hin. apply (find_None_all _ _ Hfind) in Hin.
      by apply bool_decide_eq_false in Hin.
  - intros other Hsame. by rewrite Hsame.
Qed.

(** ** What the list queries return, and in which order *)

Lemma descending_insertBy {A} (key : A → Z) (cmp : A → A → Z) x l :
  (∀ y, y ∈ l → cmp x y = key y - key x) →
  descending key l → descending key (insertBy cmp x l).
Proof.
  induction l as [|y l IH]; simpl.
  - intros _ _. split; [|done]. intros y Hy. by apply elem_of_nil in Hy.
  - intros Hcmp [Hy Hl]. destruct (decide (cmp x y ≤ 0)) as [Hle|Hgt].
    + rewrite (Hcmp y (list_elem_of_here _ _)) in Hle.
      split; [|by split].
      intros z [->|Hz]%elem_of_cons; [lia|]. specialize (Hy z Hz). lia.
    + rewrite (Hcmp y (list_elem_of_here _ _)) in Hgt. simpl. split.
      * intros z Hz. rewrite insertBy_perm in Hz.
        apply elem_of_cons in Hz as [->|Hz]; [lia | by apply Hy].
      * apply IH; [|done]. intros z Hz. apply Hcmp. by apply list_elem_of_further.
Qed.

Lemma descending_sortBy {A} (key : A → Z) (cmp : A → A → Z) l :
  (∀ x y, x ∈ l → y ∈ l → cmp x y = key y - key x) →
  descending key (sortBy cmp l).
Proof.
  unfold sortBy. induction l as [|x l IH]; simpl; [done|].
  intros Hcmp. apply descending_insertBy.
  - intros y Hy. fold (sortBy cmp l) in Hy. rewrite elem_sortBy in Hy.
    apply Hcmp; [apply list_elem_of_here | by apply list_elem_of_further].
  - apply IH. intros y z Hy Hz. apply Hcmp; by apply list_elem_of_further.
Qed.

Lemma descending_take {A} (key : A → Z) (n : nat) (l : list A) :
  descending key l → descending key (take n l).
Proof.
  revert n. induction l as [|x l IH]; intros [|n]; simpl; try done.
  intros [Hx Hl]. split; [|by apply IH].
  intros y [i [Hy _]]%elem_of_take. apply Hx. by eapply list_elem_of_lookup_2.
Qed.

Lemma descending_limited {A} (key : A → Z) (limit : option Z) (l : list A) :
  descending key l → descending key (limited limit l).
Proof.
  unfold limited, slice0. destruct limit as [n|]; [|done].
  repeat case_decide; [done|..]; apply descending_take.
Qed.

(** X2. Newest first. The meal plans a list query returns are in
    descending order of [createdAt], with or without a limit or a meal
    type; so are the readings and the notes, by timestamp, when every
    record the query selects has one. *)
Theorem list_queries_are_newest_first
    (s : MemStorage) (userId : Z) (limit : option Z) (mealType : string)
    (startDate endDate : Z) :
  descending MealPlan.createdAt (getMealPlans userId limit s)
  ∧ descending MealPlan.createdAt (getMealPlansByType userId mealType s)
  ∧ ((∀ r, r ∈ JsMap.values (glucoseReadings s) → GlucoseReading.userId r = userId →
           is_Some (GlucoseReading.timestamp r)) →
     descending (λ r, default 0 (GlucoseReading.timestamp r))
       (getGlucoseReadings userId limit s)
     ∧ descending (λ r, default 0 (GlucoseReading.timestamp r))
         (getGlucoseReadingsByDateRange userId startDate endDate s))
  ∧ ((∀ n, n ∈ JsMap.values (notes s) → Note.userId n = userId →
           is_Some (Note.timestamp n)) →
     descending (λ n, default 0 (Note.timestamp n)) (getNotes userId limit s)).
Proof.
  unfold getMealPlans, getMealPlansByType, getGlucoseReadings,
    getGlucoseReadingsByDateRange, getNotes.
  repeat apply conj.
  - by apply descending_limited, descending_sortBy.
  - by apply descending_sortBy.
  - intros Hts. split; [apply descending_limited|]; apply descending_sortBy.
    + intros x y [Hx Hux]%list_elem_of_filter [Hy Huy]%list_elem_of_filter.
      destruct (Hts x Hux Hx) as [tx ->], (Hts y Huy Hy) as [ty ->]. done.
    + intros x y [[Hx _] Hux]%list_elem_of_filter [[Hy _] Huy]%list_elem_of_filter.
      destruct (Hts x Hux Hx) as [tx ->], (Hts y Huy Hy) as [ty ->]. done.
  - intros Hts. apply descending_limited, descending_sortBy.
    intros x y [Hx Hux]%list_elem_of_filter [Hy Huy]%list_elem_of_filter.
    destruct (Hts x Hux Hx) as [tx ->], (Hts y Huy Hy) as [ty ->]. done.
Qed.

Lemma list_queries_are_newest_first_witness :
  descending MealPlan.createdAt
    (getMealPlans 1 None
       (run [(7, CreateMealPlan
                   (InsertMealPlan.mk 1 "Soup" None "lunch" None None None None None None None
                      None))]
          (constructor 0)))
  ∧ descending (λ r, default 0 (GlucoseReading.timestamp r))
      (getGlucoseReadings 1 (Some 3) (constructor 0)).
Proof.
  split.
  - exact (proj1 (list_queries_are_newest_first _ 1 None "lunch" 0 0)).
  - refine (proj1 (proj1 (proj2 (proj2 (list_queries_are_newest_first (constructor 0) 1
                                           (Some 3) "lunch" 0 0))) _)).
    intros r Hr _. vm_compute in Hr.
    repeat (apply elem_of_cons in Hr as [->|Hr]; [by eexists|]).
    by apply elem_of_nil in Hr.
Defined.

Lemma length_limited_pos {A} (n : Z) (l : list A) :
  0 < n → length (limited (Some n) l) = (Z.to_nat n `min` length l)%nat.
Proof.
  intros Hn. unfold limited, slice0. rewrite decide_False by lia.
  rewrite decide_False by lia. apply length_take.
Qed.

Lemma limited_cases {A} (n : Z) (all : list A) :
  (n = 0 → limited (Some n) all = all)
  ∧ (0 < n → limited (Some n) all = take (Z.to_nat n) all
             ∧ length (limited (Some n) all) = (Z.to_nat n `min` length all)%nat)
  ∧ (n < 0 → limited (Some n) all = take (length all - Z.to_nat (- n)) all).
Proof.
  repeat apply conj.
  - by intros ->.
  - intros Hn. split; [|by apply length_limited_pos].
    unfold limited, slice0. by rewrite !decide_False by lia.
  - intros Hn. unfold limited, slice0. rewrite decide_False by lia.
    rewrite decide_True by lia. f_equal. lia.
Qed.

(** X3. Without a limit a list query returns every record of the user, each
    as often as it is stored: the result is a rearrangement of the user's
    records in the collection. For readings, meal plans and notes alike a
    limit of 0 is no limit; a positive limit [n] keeps the first [n]
    records of the unlimited answer (all of them when there are fewer); a
    negative limit [-n] drops its last [n]. *)
Theorem list_queries_are_complete (s : MemStorage) (userId : Z) :
  getGlucoseReadings userId None s
    ≡ₚ filter (λ r, GlucoseReading.userId r = userId) (JsMap.values (glucoseReadings s))
  ∧ getMealPlans userId None s
      ≡ₚ filter (λ p, MealPlan.userId p = userId) (JsMap.values (mealPlans s))
  ∧ getNotes userId None s
      ≡ₚ filter (λ n, Note.userId n = userId) (JsMap.values (notes s))
  ∧ (∀ n : Z,
       let all := getGlucoseReadings userId None s in
       let some := getGlucoseReadings userId (Some n) s in
       (n = 0 → some = all)
       ∧ (0 < n → some = take (Z.to_nat n) all
                  ∧ length some = (Z.to_nat n `min` length all)%nat)
       ∧ (n < 0 → some = take (length all - Z.to_nat (- n)) all))
  ∧ (∀ n : Z,
       let all := getMealPlans userId None s in
       let some := getMealPlans userId (Some n) s in
       (n = 0 → some = all)
       ∧ (0 < n → some = take (Z.to_nat n) all
                  ∧ length some = (Z.to_nat n `min` length all)%nat)
       ∧ (n < 0 → some = take (length all - Z.to_nat (- n)) all))
  ∧ (∀ n : Z,
       let all := getNotes userId None s in
       let some := getNotes userId (Some n) s in
       (n = 0 → some = all)
       ∧ (0 < n → some = take (Z.to_nat n) all
                  ∧ length some = (Z.to_nat n `min` length all)%nat)
       ∧ (n < 0 → some = take (length all - Z.to_nat (- n)) all)).
Proof.
  unfold getGlucoseReadings, getMealPlans, getNotes. simpl.
  repeat apply conj; try apply sortBy_perm; intros n; cbv zeta; apply limited_cases.
Qed.

(** X4. The date-range query returns exactly the stored readings of the
    user whose timestamp lies between the two dates, ends included; a
    reading without a timestamp is never returned, and nothing is when the
    start is after the end. *)
Theorem date_range_query_selects_by_timestamp
    (s : MemStorage) (userId startDate endDate : Z) :
  (∀ r, r ∈ getGlucoseReadingsByDateRange userId startDate endDate s
        ↔ r ∈ JsMap.values (glucoseReadings s)
          ∧ GlucoseReading.userId r = userId
          ∧ ∃ t, GlucoseReading.timestamp r = Some t ∧ startDate ≤ t ≤ endDate)
  ∧ (endDate < startDate → getGlucoseReadingsByDateRange userId startDate endDate s = []).
Proof.
  assert (∀ r, r ∈ getGlucoseReadingsByDateRange userId startDate endDate s
        ↔ r ∈ JsMap.values (glucoseReadings s)
          ∧ GlucoseReading.userId r = userId
          ∧ ∃ t, GlucoseReading.timestamp r = Some t ∧ startDate ≤ t ≤ endDate) as Hiff.
  { intros r. unfold getGlucoseReadingsByDateRange, inRange.
    rewrite elem_sortBy, list_elem_of_filter. split.
    - intros [[Hu Hr] Hin]. repeat split; [done..|].
      destruct (GlucoseReading.timestamp r) as [t|]; [|done]. exists t. split; [done|].
      apply andb_true_iff in Hr as [H1%bool_decide_eq_true H2%bool_decide_eq_true]. lia.
    - intros (Hin & Hu & t & -> & Ht). repeat split; [done| |done].
      apply andb_true_iff. split; apply bool_decide_eq_true; lia. }
  split; [exact Hiff|].
  intros Hlt. destruct (getGlucoseReadingsByDateRange _ _ _ _) as [|r l]; [done|].
  destruct (proj1 (Hiff r) (list_elem_of_here _ _)) as (_ & _ & t & _ & Ht). lia.
Qed.

(** ** How creates and deletes show in the list queries *)

Lemma set_fresh {V} (k : Z) (v : V) (m : JsMap V) :
  k ∉ JsMap.keys m → JsMap.set k v m = m ++ [(k, v)].
Proof.
  unfold JsMap.keys. induction m as [|[k' v'] m IH]; simpl; [done|].
  intros [Hne Hnin]%not_elem_of_cons. rewrite decide_False by done. by rewrite IH.
Qed.

Lemma wellKeyed_counter_fresh {V} (idOf : V → Z) c (m : JsMap V) :
  wellKeyed idOf c m → c ∉ JsMap.keys m.
Proof.
  intros (_ & _ & Hall). unfold JsMap.keys.
  intros [[k v] [-> Hin]]%list_elem_of_fmap. destruct (Hall _ _ Hin). simpl in *. lia.
Qed.

Lemma values_create {V} (idOf : V → Z) c v (m : JsMap V) :
  wellKeyed idOf c m → JsMap.values (JsMap.set c v m) = JsMap.values m ++ [v].
Proof.
  intros Hwk. rewrite set_fresh by by eapply wellKeyed_counter_fresh.
  unfold JsMap.values. by rewrite fmap_app.
Qed.

Lemma values_delete {V} (idOf : V → Z) c k v (m : JsMap V) :
  wellKeyed idOf c m →
  v ∈ JsMap.values (JsMap.delete k m).2 ↔ v ∈ JsMap.values m ∧ idOf v ≠ k.
Proof.
  intros (_ & _ & Hall). unfold JsMap.values. simpl. split.
  - intros [[k' v'] [-> [Hne Hin]%list_elem_of_filter]]%list_elem_of_fmap. simpl in *.
    split; [by apply (list_elem_of_fmap_2 snd) in Hin|].
    by destruct (Hall _ _ Hin) as [-> _].
  - intros [[[k' v'] [-> Hin]]%list_elem_of_fmap Hne]. simpl in *.
    apply (list_elem_of_fmap_2 snd _ (k', v')). apply list_elem_of_filter. split; [|done].
    simpl. by destruct (Hall _ _ Hin) as [<- _].
Qed.

Lemma sorted_filter_snoc {A} (P : A → Prop) `{!∀ x, Decision (P x)}
    (cmp : A → A → Z) (l : list A) (x : A) :
  sortBy cmp (filter P (l ++ [x]))
    ≡ₚ (if decide (P x) then [x] else []) ++ sortBy cmp (filter P l).
Proof.
  rewrite !sortBy_perm, filter_app, filter_cons, filter_nil.
  destruct (decide (P x)); simpl; [|by rewrite app_nil_r].
  by rewrite Permutation_app_comm.
Qed.

(** X5. In a reachable store a create shows at once in the list of the
    record's owning user and in no other list: the unlimited list query of
    user [u] after the create is, up to order, the new record (if [u] owns
    it) together with what the query returned before. *)
Theorem created_record_joins_its_owners_list (s : MemStorage) (now u : Z) :
  reachable s →
  (∀ reading,
     let '(r, s') := createGlucoseReading reading s in
     getGlucoseReadings u None s'
       ≡ₚ (if decide (GlucoseReading.userId r = u) then [r] else [])
          ++ getGlucoseReadings u None s)
  ∧ (∀ plan,
       let '(p, s') := createMealPlan now plan s in
       getMealPlans u None s'
         ≡ₚ (if decide (MealPlan.userId p = u) then [p] else []) ++ getMealPlans u None s)
  ∧ (∀ note,
       let '(n, s') := createNote note s in
       getNotes u None s'
         ≡ₚ (if decide (Note.userId n = u) then [n] else []) ++ getNotes u None s).
Proof.
  intros (Hu & Hg & Hm & Hn)%reachable_inv. repeat apply conj.
  - intros reading. unfold createGlucoseReading, getGlucoseReadings. simpl.
    rewrite (values_create _ _ _ _ Hg).
    exact (sorted_filter_snoc (λ r, GlucoseReading.userId r = u) _ _ _).
  - intros plan. unfold createMealPlan, getMealPlans. simpl.
    rewrite (values_create _ _ _ _ Hm).
    exact (sorted_filter_snoc (λ p, MealPlan.userId p = u) _ _ _).
  - intros note. unfold createNote, getNotes. simpl.
    rewrite (values_create _ _ _ _ Hn).
    exact (sorted_filter_snoc (λ n, Note.userId n = u) _ _ _).
Qed.

Lemma created_record_joins_its_owners_list_witness :
  let '(n, s') :=
    createNote (InsertNote.mk 1 "Clinic" "Call the clinic" None None) (constructor 0) in
  getNotes 1 None s'
    ≡ₚ (if decide (Note.userId n = 1) then [n] else []) ++ getNotes 1 None (constructor 0).
Proof.
  exact (proj2 (proj2 (created_record_joins_its_owners_list (constructor 0) 0 1
                         (ex_intro _ 0 (ex_intro _ [] eq_refl))))
           (InsertNote.mk 1 "Clinic" "Call the clinic" None None)).
Defined.

(** X6. In a reachable store a delete removes from the list queries the
    record with that id and nothing else: a record is in a user's list
    after the delete exactly when it was there before and its id is not the
    deleted one. *)
Theorem deleted_record_leaves_the_lists (s : MemStorage) (id u : Z) (limitless := @None Z) :
  reachable s →
  (∀ r, r ∈ getGlucoseReadings u limitless (deleteGlucoseReading id s).2
        ↔ r ∈ getGlucoseReadings u limitless s ∧ GlucoseReading.id r ≠ id)
  ∧ (∀ p, p ∈ getMealPlans u limitless (deleteMealPlan id s).2
          ↔ p ∈ getMealPlans u limitless s ∧ MealPlan.id p ≠ id)
  ∧ (∀ n, n ∈ getNotes u limitless (deleteNote id s).2
          ↔ n ∈ getNotes u limitless s ∧ Note.id n ≠ id).
Proof.
  intros (Hu & Hg & Hm & Hn)%reachable_inv. subst limitless.
  unfold getGlucoseReadings, getMealPlans, getNotes, limited. repeat apply conj.
  - intros r. rewrite !elem_sortBy, !list_elem_of_filter.
    change (glucoseReadings (deleteGlucoseReading id s).2)
      with (JsMap.delete id (glucoseReadings s)).2.
    rewrite (values_delete _ _ _ _ _ Hg). tauto.
  - intros p. rewrite !elem_sortBy, !list_elem_of_filter.
    change (mealPlans (deleteMealPlan id s).2) with (JsMap.delete id (mealPlans s)).2.
    rewrite (values_delete _ _ _ _ _ Hm). tauto.
  - intros n. rewrite !elem_sortBy, !list_elem_of_filter.
    change (notes (deleteNote id s).2) with (JsMap.delete id (notes s)).2.
    rewrite (values_delete _ _ _ _ _ Hn). tauto.
Qed.

Lemma deleted_record_leaves_the_lists_witness :
  Forall (λ r, GlucoseReading.id r ≠ 2)
    (getGlucoseReadings 1 None (deleteGlucoseReading 2 (constructor 0)).2).
Proof.
  apply Forall_forall. intros r Hr.
  exact (proj2 (proj1 (proj1 (deleted_record_leaves_the_lists (constructor 0) 2 1
                                (ex_intro _ 0 (ex_intro _ [] eq_refl))) r) Hr)).
Defined.

Lemma reachable_userIdCounter s : reachable s → 2 ≤ userIdCounter s.
Proof.
  intros (now & calls & ->).
  destruct (countersLe_run calls (constructor now)) as [Hle _].
  assert (userIdCounter (constructor now) = 2) as Hinit by reflexivity. lia.
Qed.

(** X7. The demo data is seeded once. In a reachable store [createUser]
    gives the new user the next id, appends it to the users and touches
    nothing else: no reading, meal plan or note is created and the other
    three counters stand. *)
Theorem createUser_seeds_only_the_first_user
    (s : MemStorage) (now : Z) (insertUser : InsertUser.t) :
  reachable s →
  let '(user, s') := createUser now insertUser s in
  User.id user = userIdCounter s
  ∧ users s' = users s ++ [(userIdCounter s, user)]
  ∧ userIdCounter s' = userIdCounter s + 1
  ∧ glucoseReadings s' = glucoseReadings s
  ∧ mealPlans s' = mealPlans s
  ∧ notes s' = notes s
  ∧ glucoseIdCounter s' = glucoseIdCounter s
  ∧ mealPlanIdCounter s' = mealPlanIdCounter s
  ∧ noteIdCounter s' = noteIdCounter s.
Proof.
  intros Hreach. pose proof (reachable_userIdCounter s Hreach) as Hc.
  apply reachable_inv in Hreach as (Hu & _).
  unfold createUser. rewrite decide_False by lia. simpl.
  split; [done|]. split; [|done].
  apply set_fresh. by eapply wellKeyed_counter_fresh.
Qed.

Lemma createUser_seeds_only_the_first_user_witness :
  let '(user, s') := createUser 9 alice (constructor 0) in
  User.id user = 2
  ∧ users s' = users (constructor 0) ++ [(2, user)]
  ∧ userIdCounter s' = 3
  ∧ glucoseReadings s' = glucoseReadings (constructor 0)
  ∧ mealPlans s' = mealPlans (constructor 0)
  ∧ notes s' = notes (constructor 0)
  ∧ glucoseIdCounter s' = glucoseIdCounter (constructor 0)
  ∧ mealPlanIdCounter s' = mealPlanIdCounter (constructor 0)
  ∧ noteIdCounter s' = noteIdCounter (constructor 0).
Proof.
  exact (createUser_seeds_only_the_first_user (constructor 0) 9 alice
           (ex_intro _ 0 (ex_intro _ [] eq_refl))).
Defined.

(** * Further properties of the HTTP layer *)

Lemma run_app calls1 calls2 s : run (calls1 ++ calls2) s = run calls2 (run calls1 s).
Proof. unfold run. apply foldl_app. Qed.

Lemma run_nil s : run [] s = s.
Proof. reflexivity. Qed.

Lemma reachable_constructor now : reachable (constructor now).
Proof. exists now, []. exact (eq_sym (run_nil _)). Qed.

Lemma reachable_run calls s : reachable s → reachable (run calls s).
Proof.
  intros (now & calls0 & ->). exists now, (calls0 ++ calls). by rewrite run_app.
Qed.

(** Every handler leaves the store as it found it or changes it by one
    call of a method of the store. *)
Ltac one_call c := exists [c]; reflexivity.
Ltac no_call := exists []; reflexivity.

Lemma register_is_calls now reqBody session s :
  ∃ calls, (post_api_auth_register now reqBody session s).2 = run calls s.
Proof.
  unfold post_api_auth_register.
  destruct (registerSchema reqBody) as [data|]; [|no_call].
  destruct (getUserByUsername _ s); [no_call|].
  destruct (getUserByEmail _ s); [no_call|].
  exists [(now, CreateUser (reg_user data))]. simpl.
  by destruct (createUser now (reg_user data) s).
Qed.

Lemma handle_is_calls now req session s :
  ∃ calls, (handle now req session s).2 = run calls s.
Proof.
  destruct req; simpl;
    unfold post_api_glucose, put_api_glucose_id, delete_api_glucose_id,
      post_api_meal_plans, put_api_meal_plans_id, delete_api_meal_plans_id,
      post_api_notes, put_api_notes_id, delete_api_notes_id, ensureAuthenticated;
    (destruct (reqUser session s) as [user|]; [|no_call]).
  - destruct (insertGlucoseReadingSchema _) as [data|]; [|no_call].
    exists [(now, CreateGlucoseReading data)]. reflexivity.
  - destruct (target _ _ _) as [[i r]|]; [|no_call]. case_decide; [no_call|].
    destruct (insertGlucoseReadingSchema_partial _) as [data|]; [|no_call].
    exists [(now, UpdateGlucoseReading i data)]. simpl.
    by destruct (updateGlucoseReading i data s).
  - destruct (target _ _ _) as [[i r]|]; [|no_call]. case_decide; [no_call|].
    exists [(now, DeleteGlucoseReading i)]. reflexivity.
  - destruct (insertMealPlanSchema _) as [data|]; [|no_call].
    exists [(now, CreateMealPlan data)]. reflexivity.
  - destruct (target _ _ _) as [[i r]|]; [|no_call]. case_decide; [no_call|].
    destruct (insertMealPlanSchema_partial _) as [data|]; [|no_call].
    exists [(now, UpdateMealPlan i data)]. simpl.
    by destruct (updateMealPlan i data s).
  - destruct (target _ _ _) as [[i r]|]; [|no_call]. case_decide; [no_call|].
    exists [(now, DeleteMealPlan i)]. reflexivity.
  - destruct (insertNoteSchema _) as [data|]; [|no_call].
    exists [(now, CreateNote data)]. reflexivity.
  - destruct (target _ _ _) as [[i r]|]; [|no_call]. case_decide; [no_call|].
    destruct (insertNoteSchema_partial _) as [data|]; [|no_call].
    exists [(now, UpdateNote i data)]. simpl.
    by destruct (updateNote i data s).
  - destruct (target _ _ _) as [[i r]|]; [|no_call]. case_decide; [no_call|].
    exists [(now, DeleteNote i)]. reflexivity.
Qed.

Lemma serve_reachable e s : reachable s → reachable (serve e s).
Proof.
  intros Hs. destruct e as [now reqBody session|now req session]; simpl.
  - destruct (register_is_calls now reqBody session s) as [calls ->].
    by apply reachable_run.
  - destruct (handle_is_calls now req session s) as [calls ->].
    by apply reachable_run.
Qed.

Lemma served_reachable s : served s → reachable s.
Proof.
  intros (now & exchanges & ->).
  pose proof (reachable_constructor now) as Hinit.
  revert Hinit. generalize (constructor now).
  induction exchanges as [|e exchanges IH]; intros s0 Hs0; [done|].
  simpl. by apply IH, serve_reachable.
Qed.

(** X8. A request that carries no session user - nobody is logged in - is
    answered 401 by each of the create, update and delete endpoints and
    each of the list endpoints for readings, meal plans and notes, the
    date-range endpoint included, and by [current-user]; the store stays
    as it was. *)
Theorem unauthenticated_requests_are_refused
    (s : MemStorage) (now : Z) (req : Request)
    (parseDate : string → option Z) (start end_ type : option string) :
  handle now req None s = (mkResponse 401 (JsonMessage "Not authenticated"), s)
  ∧ get_api_glucose None s = mkListResponse 401 (JsonError "Not authenticated")
  ∧ get_api_glucose_range parseDate start end_ None s
    = mkListResponse 401 (JsonError "Not authenticated")
  ∧ get_api_meal_plans type None s = mkListResponse 401 (JsonError "Not authenticated")
  ∧ get_api_notes None s = mkListResponse 401 (JsonError "Not authenticated")
  ∧ get_api_auth_current_user None s = mkResponse 401 (JsonMessage "Not authenticated").
Proof.
  repeat apply conj; [by destruct req|done..].
Qed.

(** X9. An authenticated update or delete whose path names no record - an
    id that is not a number, or one with nothing stored under it - is
    answered 404 and changes nothing. *)
Theorem missing_record_is_not_found
    (s : MemStorage) (session : Session) (user : User.t) (id : option Z)
    (reqBody : gmap string JsValue) :
  reqUser session s = Some user →
  ((∀ i, id = Some i → getGlucoseReading i s = None) →
   put_api_glucose_id id reqBody session s
   = (mkResponse 404 (JsonMessage "Reading not found"), s)
   ∧ delete_api_glucose_id id session s
     = (mkResponse 404 (JsonMessage "Reading not found"), s))
  ∧ ((∀ i, id = Some i → getMealPlan i s = None) →
     put_api_meal_plans_id id reqBody session s
     = (mkResponse 404 (JsonMessage "Meal plan not found"), s)
     ∧ delete_api_meal_plans_id id session s
       = (mkResponse 404 (JsonMessage "Meal plan not found"), s))
  ∧ ((∀ i, id = Some i → getNote i s = None) →
     put_api_notes_id id reqBody session s
     = (mkResponse 404 (JsonMessage "Note not found"), s)
     ∧ delete_api_notes_id id session s
       = (mkResponse 404 (JsonMessage "Note not found"), s)).
Proof.
  intros Hreq. repeat apply conj; intros Hnone; split;
    unfold put_api_glucose_id, delete_api_glucose_id, put_api_meal_plans_id,
      delete_api_meal_plans_id, put_api_notes_id, delete_api_notes_id,
      ensureAuthenticated;
    rewrite Hreq; cbv beta; by rewrite (target_None _ _ _ Hnone).
Qed.

Lemma missing_record_is_not_found_witness :
  put_api_notes_id None ∅ (Some 1) (constructor 0)
  = (mkResponse 404 (JsonMessage "Note not found"), constructor 0)
  ∧ delete_api_notes_id (Some 9) (Some 1) (constructor 0)
    = (mkResponse 404 (JsonMessage "Note not found"), constructor 0).
Proof.
  split.
  - refine (proj1 (proj2 (proj2 (missing_record_is_not_found (constructor 0) (Some 1)
                                   (User.mk 1 "demo" "demo@example.com" "password123"
                                      (Some "John Doe") (Some ["peanuts"; "shellfish"]))
                                   None ∅ eq_refl)) _)).
    intros i Hi. discriminate Hi.
  - refine (proj2 (proj2 (proj2 (missing_record_is_not_found (constructor 0) (Some 1)
                                   (User.mk 1 "demo" "demo@example.com" "password123"
                                      (Some "John Doe") (Some ["peanuts"; "shellfish"]))
                                   (Some 9) ∅ eq_refl)) _)).
    intros i [= <-]. reflexivity.
Defined.

Lemma get_below {V} (idOf : V → Z) c (m : JsMap V) k v :
  wellKeyed idOf c m → JsMap.get k m = Some v → k < c ∧ idOf v = k.
Proof.
  intros (_ & _ & Hall) Hget%get_Some_elem. destruct (Hall _ _ Hget). split; [lia|done].
Qed.

Lemma target_inv {A} (get : Z → MemStorage → option A) id s i r :
  target get id s = Some (i, r) → id = Some i ∧ get i s = Some r.
Proof.
  unfold target. destruct id as [i'|]; simpl; [|done].
  destruct (get i' s) as [r'|] eqn:Hget; simpl; [|done]. by intros [= <- <-].
Qed.

(** X10. Isolation between users. In a reachable store a write request of
    an authenticated user - a create, an update or a delete, accepted or
    not - changes no user and no reading, meal plan or note owned by
    somebody else: each such record is still stored, unchanged, under its
    id. *)
Theorem writes_leave_other_users_records
    (s : MemStorage) (session : Session) (user : User.t) (now : Z) (req : Request) :
  reachable s →
  reqUser session s = Some user →
  let s' := (handle now req session s).2 in
  users s' = users s
  ∧ (∀ id r, getGlucoseReading id s = Some r → GlucoseReading.userId r ≠ User.id user →
             getGlucoseReading id s' = Some r)
  ∧ (∀ id p, getMealPlan id s = Some p → MealPlan.userId p ≠ User.id user →
             getMealPlan id s' = Some p)
  ∧ (∀ id n, getNote id s = Some n → Note.userId n ≠ User.id user →
             getNote id s' = Some n).
Proof.
  intros (Hu & Hg & Hm & Hn)%reachable_inv Hreq. cbv zeta.
  destruct req; simpl;
    unfold post_api_glucose, put_api_glucose_id, delete_api_glucose_id,
      post_api_meal_plans, put_api_meal_plans_id, delete_api_meal_plans_id,
      post_api_notes, put_api_notes_id, delete_api_notes_id, ensureAuthenticated;
    rewrite Hreq; cbv beta.
  - destruct (insertGlucoseReadingSchema _) as [data|]; [|done]. simpl.
    split; [done|]. split; [|done]. intros i r Hget _.
    unfold getGlucoseReading in *. simpl.
    destruct (get_below _ _ _ _ _ Hg Hget). rewrite get_set_ne by lia. done.
  - destruct (target _ _ _) as [[i r0]|] eqn:Ht; [|done].
    apply target_inv in Ht as [-> Hget0]. cbv beta iota zeta.
    case_decide as Hown; [done|].
    destruct (insertGlucoseReadingSchema_partial _) as [data|]; [|done].
    unfold updateGlucoseReading. rewrite Hget0. simpl.
    split; [done|]. split; [|done]. intros i' r Hget Hother.
    unfold getGlucoseReading in *. simpl.
    destruct (decide (i = i')) as [->|Hne]; [congruence|]. by rewrite get_set_ne.
  - destruct (target _ _ _) as [[i r0]|] eqn:Ht; [|done].
    apply target_inv in Ht as [-> Hget0]. cbv beta iota zeta.
    case_decide as Hown; [done|]. simpl.
    split; [done|]. split; [|done]. intros i' r Hget Hother.
    unfold getGlucoseReading in *. simpl.
    destruct (decide (i = i')) as [->|Hne]; [congruence|].
    rewrite <- Hget. by apply (get_delete_ne i i' (glucoseReadings s)).
  - destruct (insertMealPlanSchema _) as [data|]; [|done]. simpl.
    split; [done|]. split; [done|]. split; [|done]. intros i r Hget _.
    unfold getMealPlan in *. simpl.
    destruct (get_below _ _ _ _ _ Hm Hget). rewrite get_set_ne by lia. done.
  - destruct (target _ _ _) as [[i r0]|] eqn:Ht; [|done].
    apply target_inv in Ht as [-> Hget0]. cbv beta iota zeta.
    case_decide as Hown; [done|].
    destruct (insertMealPlanSchema_partial _) as [data|]; [|done].
    unfold updateMealPlan. rewrite Hget0. simpl.
    split; [done|]. split; [done|]. split; [|done]. intros i' r Hget Hother.
    unfold getMealPlan in *. simpl.
    destruct (decide (i = i')) as [->|Hne]; [congruence|]. by rewrite get_set_ne.
  - destruct (target _ _ _) as [[i r0]|] eqn:Ht; [|done].
    apply target_inv in Ht as [-> Hget0]. cbv beta iota zeta.
    case_decide as Hown; [done|]. simpl.
    split; [done|]. split; [done|]. split; [|done]. intros i' r Hget Hother.
    unfold getMealPlan in *. simpl.
    destruct (decide (i = i')) as [->|Hne]; [congruence|].
    rewrite <- Hget. by apply (get_delete_ne i i' (mealPlans s)).
  - destruct (insertNoteSchema _) as [data|]; [|done]. simpl.
    split; [done|]. split; [done|]. split; [done|]. intros i r Hget _.
    unfold getNote in *. simpl.
    destruct (get_below _ _ _ _ _ Hn Hget). rewrite get_set_ne by lia. done.
  - destruct (target _ _ _) as [[i r0]|] eqn:Ht; [|done].
    apply target_inv in Ht as [-> Hget0]. cbv beta iota zeta.
    case_decide as Hown; [done|].
    destruct (insertNoteSchema_partial _) as [data|]; [|done].
    unfold updateNote. rewrite Hget0. simpl.
    split; [done|]. split; [done|]. split; [done|]. intros i' r Hget Hother.
    unfold getNote in *. simpl.
    destruct (decide (i = i')) as [->|Hne]; [congruence|]. by rewrite get_set_ne.
  - destruct (target _ _ _) as [[i r0]|] eqn:Ht; [|done].
    apply target_inv in Ht as [-> Hget0]. cbv beta iota zeta.
    case_decide as Hown; [done|]. simpl.
    split; [done|]. split; [done|]. split; [done|]. intros i' r Hget Hother.
    unfold getNote in *. simpl.
    destruct (decide (i = i')) as [->|Hne]; [congruence|].
    rewrite <- Hget. by apply (get_delete_ne i i' (notes s)).
Qed.

Lemma writes_leave_other_users_records_witness :
  getGlucoseReading 1
    (handle 5 (DeleteGlucose (Some 1)) (Some 2)
       (run [(1, CreateUser alice)] (constructor 0))).2
  = Some (GlucoseReading.mk 1 1 118 (Some 0) "before_breakfast" (Some "Normal reading")).
Proof.
  refine (proj1 (proj2 (writes_leave_other_users_records
                          (run [(1, CreateUser alice)] (constructor 0)) (Some 2)
                          (User.mk 2 "alice" "alice@example.com" "wonderland" None None)
                          5 (DeleteGlucose (Some 1))
                          (ex_intro _ 0 (ex_intro _ [(1, CreateUser alice)] eq_refl))
                          eq_refl))
            1 _ eq_refl _).
  simpl. lia.
Defined.

(** Case analysis on the innermost [match] of the goal, or of [H]. *)
Ltac inner_case :=
  match goal with
  | |- context [match ?x with _ => _ end] =>
      lazymatch x with
      | context [match _ with _ => _ end] => fail
      | _ => destruct x eqn:?
      end
  end.

Lemma insertGlucoseReadingSchema_userId input data :
  insertGlucoseReadingSchema input = Valid data →
  zInteger (getProp input "userId") = Some (InsertGlucoseReading.userId data).
Proof.
  unfold insertGlucoseReadingSchema.
  destruct (zInteger (getProp input "userId")); [|done].
  repeat (inner_case; try done). by intros [= <-].
Qed.

Lemma insertMealPlanSchema_userId input data :
  insertMealPlanSchema input = Valid data →
  zInteger (getProp input "userId") = Some (InsertMealPlan.userId data)
  ∧ InsertMealPlan.createdAt data = None.
Proof.
  unfold insertMealPlanSchema.
  destruct (zInteger (getProp input "userId")); [|done].
  repeat (inner_case; try done). by intros [= <-].
Qed.

Lemma insertNoteSchema_userId input data :
  insertNoteSchema input = Valid data →
  zInteger (getProp input "userId") = Some (InsertNote.userId data).
Proof.
  unfold insertNoteSchema.
  destruct (zInteger (getProp input "userId")); [|done].
  repeat (inner_case; try done). by intros [= <-].
Qed.

Lemma zInteger_VNum n u : zInteger (VNum n) = Some u → u = n.
Proof. simpl. case_decide; [|done]. by intros [= <-]. Qed.

(** X11. A create request never files a record under another user. From an
    authenticated session each of the three create endpoints either
    rejects the body with 400 and stores nothing, or answers 201 with a
    record whose owner is the session's user - whatever [userId] the body
    carries - stored under the collection's next id; a new meal plan gets
    the time of the request as [createdAt]. *)
Theorem creates_are_owned_by_the_session_user
    (s : MemStorage) (session : Session) (user : User.t) (now : Z)
    (reqBody : gmap string JsValue) :
  reqUser session s = Some user →
  (let '(res, s') := post_api_glucose reqBody session s in
   (∃ fields, res = invalidRequest fields ∧ s' = s)
   ∨ (∃ r, res = mkResponse 201 (JsonReading (Some r))
           ∧ GlucoseReading.userId r = User.id user
           ∧ GlucoseReading.id r = glucoseIdCounter s
           ∧ getGlucoseReading (glucoseIdCounter s) s' = Some r))
  ∧ (let '(res, s') := post_api_meal_plans now reqBody session s in
     (∃ fields, res = invalidRequest fields ∧ s' = s)
     ∨ (∃ p, res = mkResponse 201 (JsonMealPlan (Some p))
             ∧ MealPlan.userId p = User.id user
             ∧ MealPlan.id p = mealPlanIdCounter s
             ∧ MealPlan.createdAt p = now
             ∧ getMealPlan (mealPlanIdCounter s) s' = Some p))
  ∧ (let '(res, s') := post_api_notes reqBody session s in
     (∃ fields, res = invalidRequest fields ∧ s' = s)
     ∨ (∃ n, res = mkResponse 201 (JsonNote (Some n))
             ∧ Note.userId n = User.id user
             ∧ Note.id n = noteIdCounter s
             ∧ getNote (noteIdCounter s) s' = Some n)).
Proof.
  intros Hreq.
  unfold post_api_glucose, post_api_meal_plans, post_api_notes, ensureAuthenticated.
  rewrite Hreq. cbv beta. repeat apply conj.
  - destruct (insertGlucoseReadingSchema _) as [data|fields] eqn:Hvalid; [|by left; eexists].
    apply insertGlucoseReadingSchema_userId in Hvalid.
    rewrite getProp_userId in Hvalid. apply zInteger_VNum in Hvalid.
    right. eexists. split; [reflexivity|]. simpl. split; [done|]. split; [done|].
    apply get_set_eq.
  - destruct (insertMealPlanSchema _) as [data|fields] eqn:Hvalid; [|by left; eexists].
    apply insertMealPlanSchema_userId in Hvalid as [Hvalid Hcreated].
    rewrite getProp_userId in Hvalid. apply zInteger_VNum in Hvalid.
    right. eexists. split; [reflexivity|]. simpl. rewrite Hcreated.
    split; [done|]. split; [done|]. split; [done|]. apply get_set_eq.
  - destruct (insertNoteSchema _) as [data|fields] eqn:Hvalid; [|by left; eexists].
    apply insertNoteSchema_userId in Hvalid.
    rewrite getProp_userId in Hvalid. apply zInteger_VNum in Hvalid.
    right. eexists. split; [reflexivity|]. simpl. split; [done|]. split; [done|].
    apply get_set_eq.
Qed.

Lemma creates_are_owned_by_the_session_user_witness :
  let '(res, s') :=
    post_api_notes {[ "title" := VStr "Walk"; "content" := VStr "30 minutes";
                      "userId" := VNum 1 ]}
      (Some 2) twoUsers in
  (∃ fields, res = invalidRequest fields ∧ s' = twoUsers)
  ∨ (∃ n, res = mkResponse 201 (JsonNote (Some n))
          ∧ Note.userId n = User.id aliceStored
          ∧ Note.id n = noteIdCounter twoUsers
          ∧ getNote (noteIdCounter twoUsers) s' = Some n).
Proof.
  assert (reqUser (Some 2) twoUsers = Some aliceStored) as Hreq by reflexivity.
  destruct (creates_are_owned_by_the_session_user twoUsers (Some 2) aliceStored 5
              {[ "title" := VStr "Walk"; "content" := VStr "30 minutes";
                 "userId" := VNum 1 ]} Hreq) as (_ & _ & Hnotes).
  exact Hnotes.
Defined.

Lemma zStringMin_Some n v str :
  zStringMin n v = Some str → v = VStr str ∧ (n ≤ String.length str)%nat.
Proof.
  destruct v; simpl; try done. case_decide; [|done]. by intros [= <-].
Qed.

Lemma loginSchema_Valid reqBody u p :
  loginSchema reqBody = Valid (u, p) →
  getProp reqBody "username" = VStr u ∧ getProp reqBody "password" = VStr p
  ∧ (3 ≤ String.length u)%nat ∧ (6 ≤ String.length p)%nat.
Proof.
  unfold loginSchema.
  destruct (zStringMin 3 _) as [u'|] eqn:Hu; [|done].
  destruct (zStringMin 6 _) as [p'|] eqn:Hp; [|done].
  intros [= <- <-].
  apply zStringMin_Some in Hu as [? ?], Hp as [? ?]. done.
Qed.

(** X12. Login admits nobody without the password. If the login endpoint
    answers 200, the body carried a user name of at least 3 characters and
    a password of at least 6, a stored user has that name up to case and
    exactly that password, the answer is that user without the password
    and the session is bound to the user's id. In every other case the
    answer is 400 or 401 and the session is the one the request came with. *)
Theorem login_requires_the_stored_password
    (s : MemStorage) (reqBody : gmap string JsValue) (session : Session) :
  let '(res, session') := post_api_auth_login reqBody session s in
  (status res = 200
   ∧ ∃ user u p,
       getProp reqBody "username" = VStr u ∧ getProp reqBody "password" = VStr p
       ∧ (3 ≤ String.length u)%nat ∧ (6 ≤ String.length p)%nat
       ∧ user ∈ JsMap.values (users s)
       ∧ toLowerCase (User.username user) = toLowerCase u
       ∧ User.password user = p
       ∧ body res = JsonUser (userWithoutPassword user)
       ∧ session' = Some (User.id user))
  ∨ ((status res = 400 ∨ status res = 401) ∧ session' = session).
Proof.
  unfold post_api_auth_login, localStrategy.
  destruct (loginSchema reqBody) as [[u p]|fields] eqn:Hvalid; [|right; by split; [left|]].
  apply loginSchema_Valid in Hvalid as (Hu & Hp & Hlu & Hlp).
  unfold getUserByUsername.
  destruct (find _ _) as [user|] eqn:Hfind; [|right; by split; [right|]].
  apply find_Some_elem in Hfind as [Hin Hname%bool_decide_eq_true].
  destruct (strictEq (User.password user) p) eqn:Hpw; [|right; by split; [right|]].
  apply bool_decide_eq_true in Hpw.
  left. split; [done|]. by exists user, u, p.
Qed.

Lemma zString_Some v str : zString v = Some str → v = VStr str.
Proof. destruct v; simpl; try done. by intros [= <-]. Qed.

Lemma registerSchema_Valid reqBody data :
  registerSchema reqBody = Valid data →
  getProp reqBody "username" = VStr (InsertUser.username (reg_user data))
  ∧ getProp reqBody "email" = VStr (InsertUser.email (reg_user data))
  ∧ getProp reqBody "password" = VStr (InsertUser.password (reg_user data))
  ∧ getProp reqBody "confirmPassword" = VStr (InsertUser.password (reg_user data))
  ∧ (6 ≤ String.length (InsertUser.password (reg_user data)))%nat.
Proof.
  unfold registerSchema.
  destruct (zString (getProp reqBody "username")) as [u|] eqn:Hu; [|done].
  destruct (zString (getProp reqBody "email")) as [e|] eqn:He; [|done].
  destruct (zString (getProp reqBody "password")) as [p|] eqn:Hp; [|done].
  destruct (zNullish zString (getProp reqBody "name")) as [n|]; [|done].
  destruct (zNullish zStringArray (getProp reqBody "allergies")) as [a|]; [|done].
  destruct (zString (getProp reqBody "confirmPassword")) as [c|] eqn:Hc; [|done].
  cbv zeta. unfold strictEq.
  destruct (decide (6 ≤ String.length c)%nat) as [Hlen|]; [|done].
  destruct (bool_decide (p = c)) eqn:Hpc; [|done].
  apply bool_decide_eq_true in Hpc as ->. intros [= <-]. simpl.
  apply zString_Some in Hu, He, Hp, Hc. done.
Qed.

(** X13. Registration creates a user only for a checked body and a free
    name and address. If the answer is 201, the body's user name, e-mail
    address and password were strings, [confirmPassword] equalled the
    password, the password had at least 6 characters, and no stored user
    had that name or that address up to case. Otherwise the answer is 400,
    the store is as it was and so is the session. *)
Theorem registration_is_checked
    (s : MemStorage) (now : Z) (reqBody : gmap string JsValue) (session : Session) :
  let '((res, session'), s') := post_api_auth_register now reqBody session s in
  (status res = 201
   ∧ ∃ u e p,
       getProp reqBody "username" = VStr u ∧ getProp reqBody "email" = VStr e
       ∧ getProp reqBody "password" = VStr p
       ∧ getProp reqBody "confirmPassword" = VStr p
       ∧ (6 ≤ String.length p)%nat
       ∧ ∀ user, user ∈ JsMap.values (users s) →
                 toLowerCase (User.username user) ≠ toLowerCase u
                 ∧ toLowerCase (User.email user) ≠ toLowerCase e)
  ∨ (status res = 400 ∧ s' = s ∧ session' = session).
Proof.
  unfold post_api_auth_register.
  destruct (registerSchema reqBody) as [data|fields] eqn:Hvalid; [|by (cbv beta iota; right)].
  apply registerSchema_Valid in Hvalid as (Hu & He & Hp & Hc & Hlen).
  destruct (getUserByUsername _ s) as [?|] eqn:Hname; [by (cbv beta iota; right)|].
  destruct (getUserByEmail _ s) as [?|] eqn:Hmail; [by (cbv beta iota; right)|].
  unfold getUserByUsername, getUserByEmail, strictEq in Hname, Hmail.
  destruct (createUser now (reg_user data) s) as [newUser s'].
  cbv beta iota. left. split; [done|]. eexists _, _, _. repeat (split; [eassumption|]).
  intros user Hin. split.
  - by apply (find_None_all _ _ Hname), bool_decide_eq_false in Hin.
  - by apply (find_None_all _ _ Hmail), bool_decide_eq_false in Hin.
Qed.

Lemma createUser_appends now insertUser s :
  reachable s →
  users (createUser now insertUser s).2
  = users s ++ [(userIdCounter s, (createUser now insertUser s).1)].
Proof.
  intros Hreach. pose proof (reachable_userIdCounter s Hreach) as Hc.
  apply reachable_inv in Hreach as (Hu & _).
  unfold createUser. rewrite decide_False by lia. simpl.
  apply set_fresh. by eapply wellKeyed_counter_fresh.
Qed.

Lemma find_snoc {A} (p : A → bool) (l : list A) x :
  find p l = None → p x = true → find p (l ++ [x]) = Some x.
Proof.
  induction l as [|y l IH]; simpl; [by intros _ ->|].
  destruct (p y); [done|]. apply IH.
Qed.

Lemma stored_user_is_found s user :
  reachable s → user ∈ JsMap.values (users s) → getUser (User.id user) s = Some user.
Proof.
  intros ([_ [Hnd Hall]] & _)%reachable_inv [k Hin]%elem_values.
  destruct (Hall _ _ Hin) as [-> _]. by apply elem_get.
Qed.

(** X14. Who registered can log in - with a name of at least 3 characters.
    After a registration accepted in a reachable store, a login with the
    registered name and password is answered 200 with the same user and
    binds the session to it when the name has 3 characters or more; when
    it has fewer the login schema rejects the body with 400 and the
    session stays as it was, although the registration went through. *)
Theorem registered_user_can_log_in
    (s : MemStorage) (now : Z) (reqBody : gmap string JsValue) (session : Session)
    (data : RegisterData) :
  reachable s →
  registerSchema reqBody = Valid data →
  getUserByUsername (InsertUser.username (reg_user data)) s = None →
  getUserByEmail (InsertUser.email (reg_user data)) s = None →
  let username := InsertUser.username (reg_user data) in
  let password := InsertUser.password (reg_user data) in
  let '((res, _), s') := post_api_auth_register now reqBody session s in
  let credentials : gmap string JsValue :=
    {[ "username" := VStr username; "password" := VStr password ]} in
  ∃ user,
    res = mkResponse 201 (JsonUser (userWithoutPassword user))
    ∧ ∀ session0,
        ((3 ≤ String.length username)%nat →
         post_api_auth_login credentials session0 s'
         = (json (JsonUser (userWithoutPassword user)), Some (User.id user)))
        ∧ ((String.length username < 3)%nat →
           post_api_auth_login credentials session0 s'
           = (invalidRequest ["username"], session0)).
Proof.
  intros Hreach Hvalid Hname Hmail. cbv zeta.
  unfold post_api_auth_register. rewrite Hvalid, Hname, Hmail.
  apply registerSchema_Valid in Hvalid as (_ & _ & _ & _ & Hlen).
  pose proof (createUser_appends now (reg_user data) s Hreach) as Husers.
  pose proof (createUser_returns now (reg_user data) s) as Hret.
  destruct (createUser now (reg_user data) s) as [user s']. simpl in Husers, Hret.
  exists user. split; [done|]. intros session0.
  unfold post_api_auth_login, loginSchema, getProp.
  rewrite lookup_insert_eq, lookup_insert_ne, lookup_singleton_eq by done. simpl.
  split; intros Hu.
  - rewrite decide_True by done. rewrite decide_True by done.
    unfold localStrategy, getUserByUsername. rewrite Husers.
    unfold JsMap.values. rewrite fmap_app. simpl.
    rewrite (find_snoc _ _ user).
    + subst user. simpl. unfold strictEq. by rewrite bool_decide_eq_true_2.
    + exact Hname.
    + subst user. simpl. unfold strictEq. by rewrite bool_decide_eq_true_2.
  - rewrite decide_False by lia. by rewrite decide_True by done.
Qed.

Lemma registered_user_can_log_in_witness :
  let '((res, _), s') := post_api_auth_register 4 aliceRegistration None (constructor 0) in
  let credentials : gmap string JsValue :=
    {[ "username" := VStr (InsertUser.username (reg_user (mkRegisterData alice "wonderland")));
       "password" := VStr (InsertUser.password (reg_user (mkRegisterData alice "wonderland")))
    ]} in
  ∃ user,
    res = mkResponse 201 (JsonUser (userWithoutPassword user))
    ∧ ∀ session0,
        ((3 ≤ String.length
                (InsertUser.username (reg_user (mkRegisterData alice "wonderland"))))%nat →
         post_api_auth_login credentials session0 s'
         = (json (JsonUser (userWithoutPassword user)), Some (User.id user)))
        ∧ ((String.length
              (InsertUser.username (reg_user (mkRegisterData alice "wonderland"))) < 3)%nat →
           post_api_auth_login credentials session0 s'
           = (invalidRequest ["username"], session0)).
Proof.
  assert (registerSchema aliceRegistration = Valid (mkRegisterData alice "wonderland"))
    as Hvalid by (vm_compute; reflexivity).
  assert (getUserByUsername "alice" (constructor 0) = None) as Hname
    by (vm_compute; reflexivity).
  assert (getUserByEmail "alice@example.com" (constructor 0) = None) as Hmail
    by (vm_compute; reflexivity).
  pose proof (registered_user_can_log_in (constructor 0) 4 aliceRegistration None
                (mkRegisterData alice "wonderland") (reachable_constructor 0)
                Hvalid Hname Hmail) as H.
  exact H.
Defined.

Lemma handle_users now req session s : users (handle now req session s).2 = users s.
Proof.
  destruct req; simpl;
    unfold post_api_glucose, put_api_glucose_id, delete_api_glucose_id,
      post_api_meal_plans, put_api_meal_plans_id, delete_api_meal_plans_id,
      post_api_notes, put_api_notes_id, delete_api_notes_id, ensureAuthenticated;
    (destruct (reqUser session s) as [user|]; [|done]);
    try (destruct (target _ _ _) as [[i r]|]; [|done]; case_decide; [done|]);
    try done.
  - by destruct (insertGlucoseReadingSchema _).
  - destruct (insertGlucoseReadingSchema_partial _) as [data|]; [|done].
    unfold updateGlucoseReading. by destruct (getGlucoseReading i s).
  - by destruct (insertMealPlanSchema _).
  - destruct (insertMealPlanSchema_partial _) as [data|]; [|done].
    unfold updateMealPlan. by destruct (getMealPlan i s).
  - by destruct (insertNoteSchema _).
  - destruct (insertNoteSchema_partial _) as [data|]; [|done].
    unfold updateNote. by destruct (getNote i s).
Qed.

Lemma register_keeps_names_unique now reqBody session s :
  reachable s → NoDup (usernameKeys s) → NoDup (emailKeys s) →
  NoDup (usernameKeys (post_api_auth_register now reqBody session s).2)
  ∧ NoDup (emailKeys (post_api_auth_register now reqBody session s).2).
Proof.
  intros Hreach Hnames Hmails. unfold post_api_auth_register.
  destruct (registerSchema reqBody) as [data|fields]; [|done].
  destruct (getUserByUsername _ s) as [?|] eqn:Hname; [done|].
  destruct (getUserByEmail _ s) as [?|] eqn:Hmail; [done|].
  pose proof (createUser_appends now (reg_user data) s Hreach) as Husers.
  pose proof (createUser_returns now (reg_user data) s) as Hret.
  destruct (createUser now (reg_user data) s) as [user s']. simpl in *. subst user.
  unfold usernameKeys, emailKeys, JsMap.values in *. rewrite Husers, !fmap_app. simpl.
  unfold getUserByUsername, getUserByEmail, strictEq, JsMap.values in Hname, Hmail.
  split; apply NoDup_app; (split; [done|]); (split; [|apply NoDup_singleton]).
  - intros key [other [Hkey Hin]]%list_elem_of_fmap Hnew%list_elem_of_singleton.
    apply (find_None_all _ _ Hname), bool_decide_eq_false in Hin. congruence.
  - intros key [other [Hkey Hin]]%list_elem_of_fmap Hnew%list_elem_of_singleton.
    apply (find_None_all _ _ Hmail), bool_decide_eq_false in Hin. congruence.
Qed.

(** X15. User names and e-mail addresses stay unique. In every store that
    registrations and the write requests of the API lead to from the
    constructed one, no two users have the same name, and no two the same
    e-mail address, even up to case. *)
Theorem names_and_addresses_stay_unique (s : MemStorage) :
  served s → NoDup (usernameKeys s) ∧ NoDup (emailKeys s).
Proof.
  intros (now & exchanges & ->).
  assert (reachable (constructor now) ∧ NoDup (usernameKeys (constructor now))
          ∧ NoDup (emailKeys (constructor now))) as Hinit.
  { split; [apply reachable_constructor|].
    unfold usernameKeys, emailKeys. rewrite users_constructor.
    split; apply NoDup_singleton. }
  revert Hinit. generalize (constructor now).
  induction exchanges as [|e exchanges IH]; intros s (Hreach & Hnames & Hmails); [done|].
  simpl. apply IH. split; [by apply serve_reachable|].
  destruct e as [t reqBody session|t req session]; simpl.
  - by apply register_keeps_names_unique.
  - unfold usernameKeys, emailKeys. by rewrite handle_users.
Qed.

Lemma names_and_addresses_stay_unique_witness :
  NoDup (usernameKeys
           (foldl (λ s e, serve e s) (constructor 0)
              [Registering 1 aliceRegistration None;
               Registering 2 aliceRegistration None;
               Writing 3 (DeleteNotes (Some 1)) (Some 1)])).
Proof.
  refine (proj1 (names_and_addresses_stay_unique _ (ex_intro _ 0 (ex_intro _ _ eq_refl)))).
Defined.

(** X16. The session names the current user. In a reachable store: after
    a login answered 200, and after a registration answered 201,
    [current-user] asked with the resulting session gives the same user
    the answer carried; after a logout it answers 401. *)
Theorem current_user_follows_the_session
    (s : MemStorage) (now : Z) (reqBody : gmap string JsValue) (session : Session) :
  reachable s →
  (let '(res, session') := post_api_auth_login reqBody session s in
   status res = 200 →
   get_api_auth_current_user session' s = res)
  ∧ (let '((res, session'), s') := post_api_auth_register now reqBody session s in
     status res = 201 →
     body (get_api_auth_current_user session' s') = body res)
  ∧ get_api_auth_current_user (post_api_auth_logout session).2 s
    = mkResponse 401 (JsonMessage "Not authenticated").
Proof.
  intros Hreach. repeat apply conj; [| |done].
  - unfold post_api_auth_login, localStrategy.
    destruct (loginSchema reqBody) as [[u p]|fields]; [|done].
    destruct (getUserByUsername u s) as [user|] eqn:Hfind; [|done].
    destruct (strictEq (User.password user) p); [|done]. intros _.
    unfold getUserByUsername in Hfind. apply find_Some_elem in Hfind as [Hin _].
    unfold get_api_auth_current_user, reqUser. simpl.
    by rewrite (stored_user_is_found s user Hreach Hin).
  - unfold post_api_auth_register.
    destruct (registerSchema reqBody) as [data|fields]; [|done].
    destruct (getUserByUsername _ s); [done|].
    destruct (getUserByEmail _ s); [done|].
    pose proof (createUser_stored now (reg_user data) s) as Hstored.
    destruct (createUser now (reg_user data) s) as [user s']. intros _.
    unfold get_api_auth_current_user, reqUser. simpl. by rewrite Hstored.
Qed.

Lemma current_user_follows_the_session_witness :
  get_api_auth_current_user (Some 1) (constructor 0)
  = json (JsonUser (userWithoutPassword demoStored)).
Proof.
  pose proof (proj1 (current_user_follows_the_session (constructor 0) 0
                       {[ "username" := VStr "Demo"; "password" := VStr "password123" ]}
                       None (reachable_constructor 0))) as H.
  assert (post_api_auth_login
            {[ "username" := VStr "Demo"; "password" := VStr "password123" ]}
            None (constructor 0)
          = (json (JsonUser (userWithoutPassword demoStored)), Some 1)) as Hlogin
    by (vm_compute; reflexivity).
  rewrite Hlogin in H. exact (H eq_refl).
Defined.

Lemma reqUser_same_users session s s' : users s' = users s → reqUser session s' = reqUser session s.
Proof. intros H. unfold reqUser, getUser. by rewrite H. Qed.

(** X17. A delete by the owner removes the record for good. When the
    session's user owns the reading, meal plan or note the path names, the
    delete is answered 200, nothing is stored under that id afterwards, and
    a further update or delete of that id from the same session is
    answered 404. *)
Theorem owners_delete_is_final
    (s : MemStorage) (session : Session) (user : User.t) (id : Z)
    (reqBody : gmap string JsValue) :
  reqUser session s = Some user →
  (∀ reading,
     getGlucoseReading id s = Some reading →
     GlucoseReading.userId reading = User.id user →
     let '(res, s') := delete_api_glucose_id (Some id) session s in
     res = json (JsonMessage "Reading deleted successfully")
     ∧ getGlucoseReading id s' = None
     ∧ put_api_glucose_id (Some id) reqBody session s'
       = (mkResponse 404 (JsonMessage "Reading not found"), s')
     ∧ delete_api_glucose_id (Some id) session s'
       = (mkResponse 404 (JsonMessage "Reading not found"), s'))
  ∧ (∀ plan,
       getMealPlan id s = Some plan →
       MealPlan.userId plan = User.id user →
       let '(res, s') := delete_api_meal_plans_id (Some id) session s in
       res = json (JsonMessage "Meal plan deleted successfully")
       ∧ getMealPlan id s' = None
       ∧ put_api_meal_plans_id (Some id) reqBody session s'
         = (mkResponse 404 (JsonMessage "Meal plan not found"), s')
       ∧ delete_api_meal_plans_id (Some id) session s'
         = (mkResponse 404 (JsonMessage "Meal plan not found"), s'))
  ∧ (∀ note,
       getNote id s = Some note →
       Note.userId note = User.id user →
       let '(res, s') := delete_api_notes_id (Some id) session s in
       res = json (JsonMessage "Note deleted successfully")
       ∧ getNote id s' = None
       ∧ put_api_notes_id (Some id) reqBody session s'
         = (mkResponse 404 (JsonMessage "Note not found"), s')
       ∧ delete_api_notes_id (Some id) session s'
         = (mkResponse 404 (JsonMessage "Note not found"), s')).
Proof.
  intros Hreq. repeat apply conj; intros r Hget Hown.
  - unfold delete_api_glucose_id at 1, ensureAuthenticated. rewrite Hreq. cbv beta.
    rewrite (target_Some _ _ _ _ Hget). cbv beta iota zeta.
    rewrite decide_False by (by intros ?).
    set (s' := (deleteGlucoseReading id s).2).
    change (deleteGlucoseReading id s) with ((deleteGlucoseReading id s).1, s').
    cbv beta iota.
    assert (getGlucoseReading id s' = None) as Hgone
      by apply (get_delete_eq id (glucoseReadings s)).
    assert (reqUser session s' = Some user) as Hreq' by (by rewrite <- Hreq).
    split; [done|]. split; [done|].
    unfold put_api_glucose_id, delete_api_glucose_id, ensureAuthenticated.
    rewrite Hreq'. cbv beta.
    rewrite (target_None getGlucoseReading (Some id) s') by (by intros ? [= <-]). done.
  - unfold delete_api_meal_plans_id at 1, ensureAuthenticated. rewrite Hreq. cbv beta.
    rewrite (target_Some _ _ _ _ Hget). cbv beta iota zeta.
    rewrite decide_False by (by intros ?).
    set (s' := (deleteMealPlan id s).2).
    change (deleteMealPlan id s) with ((deleteMealPlan id s).1, s').
    cbv beta iota.
    assert (getMealPlan id s' = None) as Hgone
      by apply (get_delete_eq id (mealPlans s)).
    assert (reqUser session s' = Some user) as Hreq' by (by rewrite <- Hreq).
    split; [done|]. split; [done|].
    unfold put_api_meal_plans_id, delete_api_meal_plans_id, ensureAuthenticated.
    rewrite Hreq'. cbv beta.
    rewrite (target_None getMealPlan (Some id) s') by (by intros ? [= <-]). done.
  - unfold delete_api_notes_id at 1, ensureAuthenticated. rewrite Hreq. cbv beta.
    rewrite (target_Some _ _ _ _ Hget). cbv beta iota zeta.
    rewrite decide_False by (by intros ?).
    set (s' := (deleteNote id s).2).
    change (deleteNote id s) with ((deleteNote id s).1, s').
    cbv beta iota.
    assert (getNote id s' = None) as Hgone by apply (get_delete_eq id (notes s)).
    assert (reqUser session s' = Some user) as Hreq' by (by rewrite <- Hreq).
    split; [done|]. split; [done|].
    unfold put_api_notes_id, delete_api_notes_id, ensureAuthenticated.
    rewrite Hreq'. cbv beta.
    rewrite (target_None getNote (Some id) s') by (by intros ? [= <-]). done.
Qed.

Lemma owners_delete_is_final_witness :
  let '(res, s') := delete_api_glucose_id (Some 2) (Some 1) (constructor 0) in
  res = json (JsonMessage "Reading deleted successfully")
  ∧ getGlucoseReading 2 s' = None
  ∧ put_api_glucose_id (Some 2) ∅ (Some 1) s'
    = (mkResponse 404 (JsonMessage "Reading not found"), s')
  ∧ delete_api_glucose_id (Some 2) (Some 1) s'
    = (mkResponse 404 (JsonMessage "Reading not found"), s').
Proof.
  assert (reqUser (Some 1) (constructor 0) = Some demoStored) as Hreq by reflexivity.
  destruct (owners_delete_is_final (constructor 0) (Some 1) demoStored 2 ∅ Hreq)
    as (Hreadings & _ & _).
  exact (Hreadings
           (GlucoseReading.mk 2 1 162 (Some (0 - day)) "after_lunch" (Some "Slightly elevated"))
           eq_refl eq_refl).
Defined.

Lemma partial_glucose_userId reqBody data :
  insertGlucoseReadingSchema_partial reqBody = Valid data →
  zOptional zInteger (getProp reqBody "userId")
  = Some (PartialGlucoseReading.userId data).
Proof.
  unfold insertGlucoseReadingSchema_partial.
  destruct (zOptional zInteger (getProp reqBody "userId")); [|done].
  repeat (inner_case; try done). by intros [= <-].
Qed.

Lemma partial_mealPlan_userId reqBody data :
  insertMealPlanSchema_partial reqBody = Valid data →
  zOptional zInteger (getProp reqBody "userId") = Some (PartialMealPlan.userId data).
Proof.
  unfold insertMealPlanSchema_partial.
  destruct (zOptional zInteger (getProp reqBody "userId")); [|done].
  repeat (inner_case; try done). by intros [= <-].
Qed.

Lemma partial_note_userId reqBody data :
  insertNoteSchema_partial reqBody = Valid data →
  zOptional zInteger (getProp reqBody "userId") = Some (PartialNote.userId data).
Proof.
  unfold insertNoteSchema_partial.
  destruct (zOptional zInteger (getProp reqBody "userId")); [|done].
  repeat (inner_case; try done). by intros [= <-].
Qed.

Lemma zOptional_zInteger_VNum n r : zOptional zInteger (VNum n) = Some r → r = Some n.
Proof.
  simpl. case_decide; [|done]. simpl. by intros [= <-].
Qed.

(** X18. An update can hand a record over. The update schemas accept
    [userId] like any other field: when the owner's update passes
    validation and its body carries the [userId] of somebody else, the
    answer is 200, the record is stored with that other user as its owner,
    and the next update or delete of it from the same session is answered
    403. *)
Theorem owners_update_can_change_the_owner
    (s : MemStorage) (session : Session) (user : User.t) (id other : Z)
    (reqBody next : gmap string JsValue) :
  reqUser session s = Some user →
  reqBody !! "userId" = Some (VNum other) →
  other ≠ User.id user →
  (∀ reading data,
     getGlucoseReading id s = Some reading →
     GlucoseReading.userId reading = User.id user →
     insertGlucoseReadingSchema_partial reqBody = Valid data →
     let '(res, s') := put_api_glucose_id (Some id) reqBody session s in
     ∃ updated,
       res = json (JsonReading (Some updated))
       ∧ GlucoseReading.userId updated = other
       ∧ getGlucoseReading id s' = Some updated
       ∧ put_api_glucose_id (Some id) next session s'
         = (mkResponse 403 (JsonMessage "Not authorized to update this reading"), s')
       ∧ delete_api_glucose_id (Some id) session s'
         = (mkResponse 403 (JsonMessage "Not authorized to delete this reading"), s'))
  ∧ (∀ plan data,
       getMealPlan id s = Some plan →
       MealPlan.userId plan = User.id user →
       insertMealPlanSchema_partial reqBody = Valid data →
       let '(res, s') := put_api_meal_plans_id (Some id) reqBody session s in
       ∃ updated,
         res = json (JsonMealPlan (Some updated))
         ∧ MealPlan.userId updated = other
         ∧ getMealPlan id s' = Some updated
         ∧ put_api_meal_plans_id (Some id) next session s'
           = (mkResponse 403 (JsonMessage "Not authorized to update this meal plan"), s')
         ∧ delete_api_meal_plans_id (Some id) session s'
           = (mkResponse 403 (JsonMessage "Not authorized to delete this meal plan"), s'))
  ∧ (∀ note data,
       getNote id s = Some note →
       Note.userId note = User.id user →
       insertNoteSchema_partial reqBody = Valid data →
       let '(res, s') := put_api_notes_id (Some id) reqBody session s in
       ∃ updated,
         res = json (JsonNote (Some updated))
         ∧ Note.userId updated = other
         ∧ getNote id s' = Some updated
         ∧ put_api_notes_id (Some id) next session s'
           = (mkResponse 403 (JsonMessage "Not authorized to update this note"), s')
         ∧ delete_api_notes_id (Some id) session s'
           = (mkResponse 403 (JsonMessage "Not authorized to delete this note"), s')).
Proof.
  intros Hreq Hbody Hother.
  assert (getProp reqBody "userId" = VNum other) as Hprop
    by (unfold getProp; by rewrite Hbody).
  repeat apply conj; intros r data Hget Hown Hvalid.
  - pose proof (partial_glucose_userId _ _ Hvalid) as Hid.
    rewrite Hprop in Hid. apply zOptional_zInteger_VNum in Hid.
    unfold put_api_glucose_id at 1, ensureAuthenticated. rewrite Hreq. cbv beta.
    rewrite (target_Some _ _ _ _ Hget). cbv beta iota zeta.
    rewrite decide_False by (by intros ?). rewrite Hvalid.
    unfold updateGlucoseReading. rewrite Hget. cbv beta iota zeta.
    set (updated := GlucoseReading.mk _ _ _ _ _ _).
    set (s' := setGlucoseReadings _ s).
    assert (GlucoseReading.userId updated = other) as Hnew
      by (subst updated; simpl; by rewrite Hid).
    assert (getGlucoseReading id s' = Some updated) as Hstored by apply get_set_eq.
    assert (reqUser session s' = Some user) as Hreq' by (by rewrite <- Hreq).
    exists updated. split; [done|]. split; [done|]. split; [done|].
    unfold put_api_glucose_id, delete_api_glucose_id, ensureAuthenticated.
    rewrite Hreq'. cbv beta. rewrite (target_Some _ _ _ _ Hstored). cbv beta iota zeta.
    rewrite !decide_True by congruence. done.
  - pose proof (partial_mealPlan_userId _ _ Hvalid) as Hid.
    rewrite Hprop in Hid. apply zOptional_zInteger_VNum in Hid.
    unfold put_api_meal_plans_id at 1, ensureAuthenticated. rewrite Hreq. cbv beta.
    rewrite (target_Some _ _ _ _ Hget). cbv beta iota zeta.
    rewrite decide_False by (by intros ?). rewrite Hvalid.
    unfold updateMealPlan. rewrite Hget. cbv beta iota zeta.
    set (updated := MealPlan.mk _ _ _ _ _ _ _ _ _ _ _ _ _).
    set (s' := setMealPlans _ s).
    assert (MealPlan.userId updated = other) as Hnew
      by (subst updated; simpl; by rewrite Hid).
    assert (getMealPlan id s' = Some updated) as Hstored by apply get_set_eq.
    assert (reqUser session s' = Some user) as Hreq' by (by rewrite <- Hreq).
    exists updated. split; [done|]. split; [done|]. split; [done|].
    unfold put_api_meal_plans_id, delete_api_meal_plans_id, ensureAuthenticated.
    rewrite Hreq'. cbv beta. rewrite (target_Some _ _ _ _ Hstored). cbv beta iota zeta.
    rewrite !decide_True by congruence. done.
  - pose proof (partial_note_userId _ _ Hvalid) as Hid.
    rewrite Hprop in Hid. apply zOptional_zInteger_VNum in Hid.
    unfold put_api_notes_id at 1, ensureAuthenticated. rewrite Hreq. cbv beta.
    rewrite (target_Some _ _ _ _ Hget). cbv beta iota zeta.
    rewrite decide_False by (by intros ?). rewrite Hvalid.
    unfold updateNote. rewrite Hget. cbv beta iota zeta.
    set (updated := Note.mk _ _ _ _ _ _).
    set (s' := setNotes _ s).
    assert (Note.userId updated = other) as Hnew
      by (subst updated; simpl; by rewrite Hid).
    assert (getNote id s' = Some updated) as Hstored by apply get_set_eq.
    assert (reqUser session s' = Some user) as Hreq' by (by rewrite <- Hreq).
    exists updated. split; [done|]. split; [done|]. split; [done|].
    unfold put_api_notes_id, delete_api_notes_id, ensureAuthenticated.
    rewrite Hreq'. cbv beta. rewrite (target_Some _ _ _ _ Hstored). cbv beta iota zeta.
    rewrite !decide_True by congruence. done.
Qed.

Lemma owners_update_can_change_the_owner_witness :
  let '(res, s') :=
    put_api_notes_id (Some 1) {[ "userId" := VNum 2 ]} (Some 1) twoUsers in
  ∃ updated,
    res = json (JsonNote (Some updated))
    ∧ Note.userId updated = 2
    ∧ getNote 1 s' = Some updated
    ∧ put_api_notes_id (Some 1) ∅ (Some 1) s'
      = (mkResponse 403 (JsonMessage "Not authorized to update this note"), s')
    ∧ delete_api_notes_id (Some 1) (Some 1) s'
      = (mkResponse 403 (JsonMessage "Not authorized to delete this note"), s').
Proof.
  assert (reqUser (Some 1) twoUsers = Some demoStored) as Hreq by reflexivity.
  assert (2 ≠ User.id demoStored) as Hother by (simpl; lia).
  assert (({[ "userId" := VNum 2 ]} : gmap string JsValue) !! "userId" = Some (VNum 2))
    as Hbody by (vm_compute; reflexivity).
  destruct (owners_update_can_change_the_owner twoUsers (Some 1) demoStored 1 2
              {[ "userId" := VNum 2 ]} ∅ Hreq Hbody Hother) as (_ & _ & Hnotes).
  assert (insertNoteSchema_partial {[ "userId" := VNum 2 ]}
          = Valid (PartialNote.mk (Some 2) None None None None)) as Hvalid
    by (vm_compute; reflexivity).
  exact (Hnotes
           (Note.mk 1 1 "Increased activity today"
              "Went for a 30-minute walk after breakfast. Glucose readings were stable throughout the day."
              (Some 0) (Some "Exercise"))
           _ eq_refl eq_refl Hvalid).
Defined.

Lemma elem_date_range s userId startDate endDate r :
  r ∈ getGlucoseReadingsByDateRange userId startDate endDate s →
  GlucoseReading.userId r = userId
  ∧ ∃ t, GlucoseReading.timestamp r = Some t ∧ startDate ≤ t ≤ endDate.
Proof.
  unfold getGlucoseReadingsByDateRange, inRange.
  intros [_ [Hu Hr]]%elem_sorted_filter. split; [done|].
  destruct (GlucoseReading.timestamp r) as [t|]; [|done]. exists t. split; [done|].
  apply andb_true_iff in Hr as [H1%bool_decide_eq_true H2%bool_decide_eq_true]. lia.
Qed.

(** X19. The date-range endpoint checks its two dates. For an
    authenticated session it answers 200 exactly when [start] and [end]
    are both given, non-empty and parse as dates, and 400 otherwise; every
    reading of a 200 answer is owned by the session's user and has a
    timestamp between the two parsed dates. *)
Theorem range_endpoint_checks_its_dates
    (parseDate : string → option Z) (start end_ : option string)
    (session : Session) (s : MemStorage) (user : User.t) :
  reqUser session s = Some user →
  let res := get_api_glucose_range parseDate start end_ session s in
  (list_status res = 200 ∨ list_status res = 400)
  ∧ (list_status res = 200
     ↔ ∃ a b, start = Some a ∧ end_ = Some b ∧ a ≠ "" ∧ b ≠ ""
              ∧ is_Some (parseDate a) ∧ is_Some (parseDate b))
  ∧ (∀ items r,
       list_body res = JsonArray items → r ∈ items →
       GlucoseReading.userId r = User.id user
       ∧ ∃ a b ta tb t,
           start = Some a ∧ end_ = Some b
           ∧ parseDate a = Some ta ∧ parseDate b = Some tb
           ∧ GlucoseReading.timestamp r = Some t ∧ ta ≤ t ≤ tb).
Proof.
  intros Hreq. cbv zeta. unfold get_api_glucose_range, ensureAuthenticatedRead.
  rewrite Hreq.
  destruct start as [[|c a]|], end_ as [[|d b]|]; simpl;
    try (split; [by right|]; split; [|done]; split; [done|];
         intros (? & ? & ? & ? & ? & ? & ? & ?); congruence).
  destruct (parseDate (String c a)) as [ta|] eqn:Ha;
    destruct (parseDate (String d b)) as [tb|] eqn:Hb; simpl;
    try (split; [by right|]; split; [|done]; split; [done|];
         intros (? & ? & [= <-] & [= <-] & ? & ? & [? ?] & [? ?]); congruence).
  split; [by left|]. split.
  - split; [|done]. intros _. exists (String c a), (String d b).
    rewrite Ha, Hb. by repeat split.
  - intros items r [= <-] [Hown (t & Ht & Hrange)]%elem_date_range.
    split; [done|]. by exists (String c a), (String d b), ta, tb, t.
Qed.

Lemma range_endpoint_checks_its_dates_witness :
  list_status (get_api_glucose_range (λ _, None) (Some "soon") (Some "") (Some 1)
                 (constructor 0)) = 200
  ∨ list_status (get_api_glucose_range (λ _, None) (Some "soon") (Some "") (Some 1)
                   (constructor 0)) = 400.
Proof.
  assert (reqUser (Some 1) (constructor 0) = Some demoStored) as Hreq by reflexivity.
  exact (proj1 (range_endpoint_checks_its_dates (λ _, None) (Some "soon") (Some "")
                  (Some 1) (constructor 0) demoStored Hreq)).
Defined.

(** * Further properties of the generation adapter *)

Lemma includes_empty s : includes s "" = true.
Proof. by destruct s. Qed.

(** X20. What the allergy filter keeps. The filtered list is the
    ingredient list without some of its elements, in the same order; an
    ingredient is kept exactly when no allergy occurs in it up to case;
    with no allergies nothing is dropped, and an empty allergy string drops
    every ingredient. *)
Theorem allergyFilter_keeps_the_allergy_free (allergies ingredients : list string) :
  allergyFilter allergies ingredients `sublist_of` ingredients
  ∧ (∀ ingredient,
       ingredient ∈ allergyFilter allergies ingredients
       ↔ ingredient ∈ ingredients ∧ allergyFree allergies ingredient)
  ∧ allergyFilter [] ingredients = ingredients
  ∧ ("" ∈ allergies → allergyFilter allergies ingredients = []).
Proof.
  repeat apply conj.
  - apply sublist_filter.
  - intros ingredient. split.
    + intros Hin. split.
      * by apply list_elem_of_filter in Hin as [_ ?].
      * pose proof (allergyFilter_free allergies ingredients) as Hall.
        rewrite Forall_forall in Hall. by apply Hall.
    + intros [Hin Hfree]. by apply allergyFilter_keeps.
  - unfold allergyFilter. induction ingredients as [|i l IH]; [done|].
    rewrite filter_cons. rewrite decide_True by done. by rewrite IH.
  - intros Hempty. unfold allergyFilter.
    induction ingredients as [|i l IH]; [done|].
    rewrite filter_cons, IH. rewrite decide_False; [done|].
    intros Hnone. apply (existsb_false _ _ Hnone) in Hempty.
    simpl in Hempty. by rewrite includes_empty in Hempty.
Qed.

Lemma getSampleMealPlan_own mealType allergies :
  mealType ∉ objectPrototypeKeys →
  getSampleMealPlan mealType allergies
  = Sample (if decide (mealType = "breakfast") then sampleBreakfast allergies
            else if decide (mealType = "lunch") then sampleLunch allergies
            else if decide (mealType = "dinner") then sampleDinner allergies
            else sampleSnack allergies).
Proof.
  intros Hown. unfold getSampleMealPlan, literalGet, samples, assoc.
  repeat case_decide; by subst.
Qed.

(** X21. The sample follows the meal type, and the allergies touch only
    its ingredients. For a meal type that names no member of
    [Object.prototype], the adapter's sample is a plan of that meal type
    when it is breakfast, lunch, dinner or snack, and the snack plan for
    any other string; it is the sample for no allergies with the
    ingredient list filtered and every other field as it is, its image the
    first one listed for its meal type. *)
Theorem sample_follows_the_meal_type (mealType : string) (allergies : list string) :
  mealType ∉ objectPrototypeKeys →
  ∃ plan full,
    getSampleMealPlan mealType allergies = Sample plan
    ∧ getSampleMealPlan mealType [] = Sample full
    ∧ mp_mealType plan
      = (if decide (mealType ∈ ["breakfast"; "lunch"; "dinner"; "snack"])
         then mealType else "snack")
    ∧ mp_ingredients plan = allergyFilter allergies (mp_ingredients full)
    ∧ mp_name plan = mp_name full
    ∧ mp_description plan = mp_description full
    ∧ mp_carbs plan = mp_carbs full
    ∧ mp_servings plan = mp_servings full
    ∧ mp_prepTime plan = mp_prepTime full
    ∧ mp_tags plan = mp_tags full
    ∧ mp_instructions plan = mp_instructions full
    ∧ mp_imageUrl plan = firstImage (mp_mealType plan)
    ∧ is_Some (mp_imageUrl plan).
Proof.
  intros Hown. eexists _, _.
  split; [by apply getSampleMealPlan_own|]. split; [by apply getSampleMealPlan_own|].
  destruct (decide (mealType = "breakfast")) as [->|?];
    [|destruct (decide (mealType = "lunch")) as [->|?];
      [|destruct (decide (mealType = "dinner")) as [->|?];
        [|destruct (decide (mealType = "snack")) as [->|?]]]].
  all: repeat split; try done; try (by eexists).
  all: rewrite decide_False; [done|].
  all: rewrite !elem_of_cons, elem_of_nil; tauto.
Qed.

Lemma sample_follows_the_meal_type_witness :
  ∃ plan full,
    getSampleMealPlan "brunch" ["chickpeas"] = Sample plan
    ∧ getSampleMealPlan "brunch" [] = Sample full
    ∧ mp_mealType plan
      = (if decide ("brunch" ∈ ["breakfast"; "lunch"; "dinner"; "snack"])
         then "brunch" else "snack")
    ∧ mp_ingredients plan = allergyFilter ["chickpeas"] (mp_ingredients full)
    ∧ mp_name plan = mp_name full
    ∧ mp_description plan = mp_description full
    ∧ mp_carbs plan = mp_carbs full
    ∧ mp_servings plan = mp_servings full
    ∧ mp_prepTime plan = mp_prepTime full
    ∧ mp_tags plan = mp_tags full
    ∧ mp_instructions plan = mp_instructions full
    ∧ mp_imageUrl plan = firstImage (mp_mealType plan)
    ∧ is_Some (mp_imageUrl plan).
Proof.
  assert ("brunch" ∉ objectPrototypeKeys) as Hown.
  { unfold objectPrototypeKeys. rewrite !not_elem_of_cons. repeat split; try done.
    apply not_elem_of_nil. }
  exact (sample_follows_the_meal_type "brunch" ["chickpeas"] Hown).
Defined.

Lemma mealImages_three mealType images :
  assoc mealType mealImages = Some images → length images = 3%nat.
Proof.
  unfold mealImages, assoc. repeat case_decide; by intros [= <-].
Qed.

(** X22. What becomes of the service's reply. With a key configured and an
    ok response whose [choices[0].message.content] parses to an object or
    an array: for breakfast, lunch, dinner and snack the adapter returns
    that parsed value with one of the meal type's images as [imageUrl];
    for any other meal type (not a member of [Object.prototype]) the reply
    is dropped and the adapter returns the sample. *)
Theorem reply_is_returned_with_an_image
    (env : Env) (mealType : string) (allergies : list string)
    (apiKey : string) (data content parsed : JsValue) :
  OPENAI_API_KEY env = Some apiKey →
  apiKey ≠ "" →
  fetch env apiKey mealType (allergiesText allergies) = Responded true (Some data) →
  (choices ← member data "choices"; choice ← first choices;
   message ← member choice "message"; member message "content") = Normal content →
  JSON_parse env content = Some parsed →
  (∃ o, parsed = VObj o) ∨ (∃ l, parsed = VArr l) →
  (∀ images, assoc mealType mealImages = Some images →
     ∃ url, url ∈ images
            ∧ generateMealPlan env mealType allergies
              = Normal (Generated parsed (Some url)))
  ∧ (assoc mealType mealImages = None → mealType ∉ objectPrototypeKeys →
     generateMealPlan env mealType allergies
     = Normal (getSampleMealPlan mealType allergies)).
Proof.
  intros Hkey Hne Hfetch Hchain Hparse Hshape.
  unfold generateMealPlan, generateMealPlan_try. rewrite Hkey.
  destruct apiKey as [|c apiKey]; [done|]. rewrite Hfetch.
  unfold mbind, Completion_bind in *.
  destruct (member data "choices") as [choices|]; [|done].
  destruct (first choices) as [choice|]; [|done].
  destruct (member choice "message") as [message|]; [|done].
  rewrite Hchain, Hparse. unfold pickImage, literalGet. split.
  - intros images Himages. rewrite Himages.
    pose proof (mealImages_three _ _ Himages) as Hlen.
    destruct (images !! (random env `mod` length images)%nat) as [url|] eqn:Hurl.
    + exists url. split; [by eapply list_elem_of_lookup_2|].
      by destruct Hshape as [[o ->]|[l ->]].
    + apply lookup_ge_None in Hurl.
      pose proof (Nat.mod_upper_bound (random env) (length images)). lia.
  - intros Hnone Hown. rewrite Hnone. by rewrite decide_False.
Qed.

Lemma reply_is_returned_with_an_image_witness :
  ∃ url, url ∈ ["https://images.unsplash.com/photo-1486328228599-85db4443971f";
               "https://images.unsplash.com/photo-1624300629298-e9de39c13be6";
               "https://images.unsplash.com/photo-1593115590229-5c97a4c87b5d"]
         ∧ generateMealPlan answering "snack" []
           = Normal (Generated (VObj ∅) (Some url)).
Proof.
  assert ("sk-test" ≠ "") as Hne by done.
  assert ((choices ← member
             (VObj {[ "choices" :=
                        VArr [VObj {[ "message" :=
                                        VObj {[ "content" := VStr "{}" ]} ]}] ]})
             "choices";
           choice ← first choices;
           message ← member choice "message"; member message "content")
          = Normal (VStr "{}")) as Hchain by (vm_compute; reflexivity).
  destruct (reply_is_returned_with_an_image answering "snack" [] "sk-test" _ _ (VObj ∅)
              eq_refl Hne eq_refl Hchain eq_refl (or_introl (ex_intro _ ∅ eq_refl)))
    as [Himage _].
  exact (Himage _ eq_refl).
Defined.

Lemma append_cons (c : ascii) (a b : string) : String c a +:+ b = String c (a +:+ b).
Proof. reflexivity. Qed.

Lemma append_empty (b : string) : "" +:+ b = b.
Proof. reflexivity. Qed.

Lemma prefix_empty (s : string) : String.prefix "" s = true.
Proof. by destruct s. Qed.

Lemma prefix_app (sub a b : string) :
  String.prefix sub a = true → String.prefix sub (a +:+ b) = true.
Proof.
  revert sub. induction a as [|d a IH]; intros [|c sub]; simpl; try done.
  - intros _. apply prefix_empty.
  - rewrite ?append_cons. simpl. destruct (Ascii.ascii_dec c d); [apply IH | done].
Qed.

Lemma prefix_refl (s : string) : String.prefix s s = true.
Proof.
  induction s as [|c s IH]; simpl; [done|]. by destruct (Ascii.ascii_dec c c).
Qed.

Lemma includes_app_l (a b sub : string) :
  includes a sub = true → includes (a +:+ b) sub = true.
Proof.
  induction a as [|c a IH].
  - simpl. rewrite orb_false_r. intros H. rewrite append_empty.
    destruct sub; [apply includes_empty | done].
  - rewrite append_cons. simpl. intros [H|H]%orb_true_iff; apply orb_true_iff.
    + left. exact (prefix_app sub (String c a) b H).
    + right. by apply IH.
Qed.

Lemma includes_app_r (a b sub : string) :
  includes b sub = true → includes (a +:+ b) sub = true.
Proof.
  intros H. induction a as [|c a IH]; [done|].
  rewrite append_cons. simpl. apply orb_true_iff. by right.
Qed.

Lemma includes_refl (s : string) : includes s s = true.
Proof.
  destruct s; simpl; [done|]. apply orb_true_iff. left.
  apply (prefix_refl (String _ _)).
Qed.

Lemma includes_join (sep : string) (l : list string) (x : string) :
  x ∈ l → includes (join sep l) x = true.
Proof.
  induction l as [|y l IH]; [by intros ?%elem_of_nil|].
  intros [->|Hin]%elem_of_cons.
  - destruct l; [apply includes_refl|].
    change (join sep (y :: s :: l)) with (y +:+ sep +:+ join sep (s :: l)).
    apply includes_app_l, includes_refl.
  - destruct l as [|z l]; [by apply elem_of_nil in Hin|].
    change (join sep (y :: z :: l)) with (y +:+ sep +:+ join sep (z :: l)).
    by apply includes_app_r, includes_app_r, IH.
Qed.

(** X23. The request names every allergy. The allergy sentence that goes
    into the prompt contains each element of the allergy list, as it is
    written; for an empty list it is the sentence saying that there are no
    known allergies. *)
Theorem prompt_names_every_allergy (allergies : list string) :
  (∀ allergy, allergy ∈ allergies → includes (allergiesText allergies) allergy = true)
  ∧ (allergies = [] → allergiesText allergies = "The person has no known food allergies.").
Proof.
  split; [|by intros ->].
  intros allergy Hin. destruct allergies as [|a l]; [by apply elem_of_nil in Hin|].
  unfold allergiesText.
  apply includes_app_r, includes_app_l. by apply includes_join.
Qed.

(** The key [timestamp] is among the issues, somewhere in the appended lists. *)
Ltac find_issue :=
  simpl; repeat first [by apply list_elem_of_here | apply list_elem_of_further].

Lemma glucose_timestamp_issue input :
  zOptional zDate (getProp input "timestamp") = None →
  (∃ fields, "timestamp" ∈ fields ∧ insertGlucoseReadingSchema input = Invalid fields)
  ∧ (∃ fields, "timestamp" ∈ fields
               ∧ insertGlucoseReadingSchema_partial input = Invalid fields).
Proof.
  intros Hts. unfold insertGlucoseReadingSchema, insertGlucoseReadingSchema_partial.
  rewrite Hts. split.
  - destruct (zInteger (getProp input "userId")), (zInteger (getProp input "value"));
      (eexists; split; [|reflexivity]); find_issue.
  - destruct (zOptional zInteger (getProp input "userId")),
      (zOptional zInteger (getProp input "value"));
      (eexists; split; [|reflexivity]); find_issue.
Qed.

Lemma note_timestamp_issue input :
  zOptional zDate (getProp input "timestamp") = None →
  (∃ fields, "timestamp" ∈ fields ∧ insertNoteSchema input = Invalid fields)
  ∧ (∃ fields, "timestamp" ∈ fields ∧ insertNoteSchema_partial input = Invalid fields).
Proof.
  intros Hts. unfold insertNoteSchema, insertNoteSchema_partial.
  rewrite Hts. split.
  - destruct (zInteger (getProp input "userId")), (zString (getProp input "title")),
      (zString (getProp input "content"));
      (eexists; split; [|reflexivity]); find_issue.
  - destruct (zOptional zInteger (getProp input "userId")),
      (zOptional zString (getProp input "title")),
      (zOptional zString (getProp input "content"));
      (eexists; split; [|reflexivity]); find_issue.
Qed.

(** X24. A timestamp cannot be sent. The schemas derived for the two
    timestamp columns accept [Date] objects only, which no JSON body holds:
    a create or update request for a reading or a note whose body has a
    [timestamp] property is answered 400 with [timestamp] among the failing
    fields - for an update, when the session's user owns the record - and
    nothing is stored or changed. *)
Theorem body_with_timestamp_is_rejected
    (s : MemStorage) (session : Session) (user : User.t)
    (reqBody : gmap string JsValue) (sent : JsValue) :
  reqUser session s = Some user →
  reqBody !! "timestamp" = Some sent →
  sent ≠ VUndefined →
  (∃ fields, "timestamp" ∈ fields
             ∧ post_api_glucose reqBody session s = (invalidRequest fields, s))
  ∧ (∃ fields, "timestamp" ∈ fields
               ∧ post_api_notes reqBody session s = (invalidRequest fields, s))
  ∧ (∀ id reading,
       getGlucoseReading id s = Some reading →
       GlucoseReading.userId reading = User.id user →
       ∃ fields, "timestamp" ∈ fields
                 ∧ put_api_glucose_id (Some id) reqBody session s
                   = (invalidRequest fields, s))
  ∧ (∀ id note,
       getNote id s = Some note →
       Note.userId note = User.id user →
       ∃ fields, "timestamp" ∈ fields
                 ∧ put_api_notes_id (Some id) reqBody session s
                   = (invalidRequest fields, s)).
Proof.
  intros Hreq Hbody Hsent.
  assert (zOptional zDate (getProp reqBody "timestamp") = None) as Hts.
  { unfold getProp. rewrite Hbody. by destruct sent. }
  assert (zOptional zDate
            (getProp (<["userId" := VNum (User.id user)]> reqBody) "timestamp") = None)
    as Hts' by (by rewrite getProp_userId_other).
  destruct (glucose_timestamp_issue _ Hts') as [(f1 & Hin1 & Hpost) _].
  destruct (glucose_timestamp_issue _ Hts) as [_ (f2 & Hin2 & Hput)].
  destruct (note_timestamp_issue _ Hts') as [(f3 & Hin3 & Hpostn) _].
  destruct (note_timestamp_issue _ Hts) as [_ (f4 & Hin4 & Hputn)].
  repeat apply conj.
  - exists f1. split; [done|].
    unfold post_api_glucose, ensureAuthenticated. by rewrite Hreq, Hpost.
  - exists f3. split; [done|].
    unfold post_api_notes, ensureAuthenticated. by rewrite Hreq, Hpostn.
  - intros id reading Hget Hown. exists f2. split; [done|].
    unfold put_api_glucose_id, ensureAuthenticated. rewrite Hreq. cbv beta.
    rewrite (target_Some _ _ _ _ Hget). cbv beta iota zeta.
    rewrite decide_False by (by intros ?). by rewrite Hput.
  - intros id note Hget Hown. exists f4. split; [done|].
    unfold put_api_notes_id, ensureAuthenticated. rewrite Hreq. cbv beta.
    rewrite (target_Some _ _ _ _ Hget). cbv beta iota zeta.
    rewrite decide_False by (by intros ?). by rewrite Hputn.
Qed.

Lemma body_with_timestamp_is_rejected_witness :
  ∃ fields, "timestamp" ∈ fields
    ∧ post_api_glucose
        {[ "value" := VNum 118; "type" := VStr "fasting";
           "timestamp" := VStr "2024-05-13T08:00:00.000Z" ]}
        (Some 1) (constructor 0)
      = (invalidRequest fields, constructor 0).
Proof.
  assert (reqUser (Some 1) (constructor 0) = Some demoStored) as Hreq by reflexivity.
  assert (({[ "value" := VNum 118; "type" := VStr "fasting";
              "timestamp" := VStr "2024-05-13T08:00:00.000Z" ]} : gmap string JsValue)
            !! "timestamp" = Some (VStr "2024-05-13T08:00:00.000Z")) as Hbody
    by (vm_compute; reflexivity).
  assert (VStr "2024-05-13T08:00:00.000Z" ≠ VUndefined) as Hsent by done.
  exact (proj1 (body_with_timestamp_is_rejected (constructor 0) (Some 1) demoStored _ _
                  Hreq Hbody Hsent)).
Defined.
